(** * Finnova: the credential and face-template store

    A shallow embedding of [database/core.py] (class [Database]) and of the
    parts of [modules/auth/traditional.py] and [modules/auth/face_auth.py]
    that decide registration, authentication and persistence, with the
    properties the specification states about them.

    Conventions of the model:
    - a method is a function on the state (the [Database] object, the
      files, the process environment) that returns a value or a raised
      exception together with the new state; what was mutated before an
      exception stays mutated, as in Python;
    - every system call that can fail consults a list of pending I/O
      failures, so a statement over all such lists is a statement over
      every failure point;
    - a file holds the value that was dumped to it; [json.dump] followed
      by [json.load], and [pickle.dump] followed by [pickle.load], give the
      value back;
    - the records of [users] are the dicts [register_user] builds;
    - an entry of an embedding is a rational that stands for the binary64
      float nearest to it, as a Python literal does; distances are computed
      and compared in binary64, with numpy's order of additions;
    - a [str] is held as its UTF-8 encoding: SHA-256 is computed over these
      bytes, and [len] counts the code points. *)

From Stdlib Require Import List String Ascii ZArith QArith Bool Lia Lqa Permutation.
From Stdlib Require Import SpecFloat.
Import ListNotations.
Local Open Scope string_scope.
Set Warnings "-register-all".

(** ** Python results: a value or a raised exception *)

Inductive exn : Type :=
| OSError | ValueError | TypeError | IndexError | AttributeError
| UnboundLocalError | RuntimeError | JSONDecodeError | UnpicklingError.

Inductive res (A : Type) : Type :=
| Ok (a : A)
| Raise (e : exn).
Arguments Ok {A} a.
Arguments Raise {A} e.

(** ** JSON values, as [json.load] builds them *)

Inductive json : Type :=
| JNull
| JBool (b : bool)
| JInt (z : Z)
| JFloat (q : Q)
| JStr (s : string)
| JList (l : list json)
| JDict (d : list (string * json)).

(** Python truthiness ([if c]). *)
Definition truthy (j : json) : bool :=
  match j with
  | JNull => false
  | JBool b => b
  | JInt z => negb (z =? 0)%Z
  | JFloat q => negb (Qeq_bool q 0)
  | JStr s => negb (s =? "")
  | JList l => match l with [] => false | _ => true end
  | JDict d => match d with [] => false | _ => true end
  end.

(** A dict keeps insertion order; [d[k] = v] overwrites in place or appends. *)
Fixpoint dict_get (d : list (string * json)) (k : string) : option json :=
  match d with
  | [] => None
  | (k', v) :: t => if k' =? k then Some v else dict_get t k
  end.

Fixpoint dict_set (d : list (string * json)) (k : string) (v : json)
  : list (string * json) :=
  match d with
  | [] => [(k, v)]
  | (k', v') :: t => if k' =? k then (k', v) :: t else (k', v') :: dict_set t k v
  end.

(** ** Users, documents and the face-template store *)

(** A face encoding, as a numpy array of float64 or as the list
    [tolist()] makes of it: its entries in order. An entry [q] stands for
    the float nearest to it ([to_float], below), the one the arithmetic of
    a comparison is done on. *)
Definition encoding := list Q.

(** The dict [register_user] builds for one user (lines 180-186). *)
Record user : Type := mkUser {
  username : string;
  password_hash : option string;
  face_encoding : option encoding;
  registration_date : string;
  auth_methods : list string
}.

(** [self.data]: the account document. *)
Record document : Type := mkDocument {
  income : list json;
  expenses : list json;
  categories : list json;
  budget : list (string * json);
  goals : list json;
  users : list user
}.

(** [self.face_data]: two parallel lists. *)
Record face_store : Type := mkFaceStore {
  encodings : list encoding;
  usernames : list string
}.

Definition opt_json {A} (f : A -> json) (o : option A) : json :=
  match o with Some a => f a | None => JNull end.

Definition json_of_user (u : user) : json :=
  JDict [("username", JStr (username u));
         ("password_hash", opt_json JStr (password_hash u));
         ("face_encoding", opt_json (fun e => JList (map JFloat e)) (face_encoding u));
         ("registration_date", JStr (registration_date u));
         ("auth_methods", JList (map JStr (auth_methods u)))].

Definition json_of_document (d : document) : json :=
  JDict [("income", JList (income d));
         ("expenses", JList (expenses d));
         ("categories", JList (categories d));
         ("budget", JDict (budget d));
         ("goals", JList (goals d));
         ("users", JList (map json_of_user (users d)))].

(** ** The file system and its failures *)

(** The four paths the store touches. *)
Inductive path : Type :=
| DATA_FILE          (* "database/data.json" *)
| DATA_TMP           (* DATA_FILE + ".tmp" *)
| FACE_DATA_FILE     (* "assets/face_models/known_faces.dat" *)
| FACE_TMP.          (* FACE_DATA_FILE + ".tmp" *)

(** What a file holds: a complete JSON text, a complete pickle of a face
    store, a pickle of anything else, or the leftover of a write that was
    opened and never completed. *)
Inductive blob : Type :=
| Json (j : json)
| Pickle (f : face_store)
| PickleOther
| Truncated.

Record disk : Type := mkDisk {
  at_data : option blob;
  at_data_tmp : option blob;
  at_face : option blob;
  at_face_tmp : option blob
}.

Definition read_at (d : disk) (p : path) : option blob :=
  match p with
  | DATA_FILE => at_data d
  | DATA_TMP => at_data_tmp d
  | FACE_DATA_FILE => at_face d
  | FACE_TMP => at_face_tmp d
  end.

Definition write_at (d : disk) (p : path) (b : option blob) : disk :=
  match p with
  | DATA_FILE => mkDisk b (at_data_tmp d) (at_face d) (at_face_tmp d)
  | DATA_TMP => mkDisk (at_data d) b (at_face d) (at_face_tmp d)
  | FACE_DATA_FILE => mkDisk (at_data d) (at_data_tmp d) b (at_face_tmp d)
  | FACE_TMP => mkDisk (at_data d) (at_data_tmp d) (at_face d) b
  end.

(** The whole state: the [Database] object ([data], [face_data], the number
    of observer notifications sent), the disk, and the I/O failures still to
    come: each fallible system call takes the head of [faults] ([true]: the
    call raises [OSError]); an empty list means no further failure. *)
Record state : Type := mkState {
  data : document;
  face_data : face_store;
  notified : nat;
  current_user : option string;   (* TraditionalAuthenticator.current_user *)
  environ_salt : option string;   (* os.environ["FINNOVA_PASSWORD_SALT"] *)
  fs : disk;
  faults : list bool
}.

Definition set_data (d : document) (st : state) : state :=
  mkState d (face_data st) (notified st) (current_user st) (environ_salt st)
          (fs st) (faults st).
Definition set_face_data (f : face_store) (st : state) : state :=
  mkState (data st) f (notified st) (current_user st) (environ_salt st)
          (fs st) (faults st).
Definition set_notified (n : nat) (st : state) : state :=
  mkState (data st) (face_data st) n (current_user st) (environ_salt st)
          (fs st) (faults st).
Definition set_current_user (u : option string) (st : state) : state :=
  mkState (data st) (face_data st) (notified st) u (environ_salt st)
          (fs st) (faults st).
Definition set_fs (d : disk) (st : state) : state :=
  mkState (data st) (face_data st) (notified st) (current_user st)
          (environ_salt st) d (faults st).
Definition set_faults (l : list bool) (st : state) : state :=
  mkState (data st) (face_data st) (notified st) (current_user st)
          (environ_salt st) (fs st) l.

(** ** The monad of methods: state that survives a raised exception *)

Definition M (A : Type) : Type := state -> res A * state.

Definition ret {A} (a : A) : M A := fun st => (Ok a, st).
Definition raise {A} (e : exn) : M A := fun st => (Raise e, st).
Definition bind {A B} (m : M A) (k : A -> M B) : M B :=
  fun st => match m st with
            | (Ok a, st') => k a st'
            | (Raise e, st') => (Raise e, st')
            end.
(** [try: m except Exception as e: ...], reified: the outcome of [m]. *)
Definition attempt {A} (m : M A) : M (res A) :=
  fun st => let (r, st') := m st in (Ok r, st').
Definition gets {A} (f : state -> A) : M A := fun st => (Ok (f st), st).
Definition modify (f : state -> state) : M unit := fun st => (Ok tt, f st).

Declare Scope py_scope.
Delimit Scope py_scope with py.
Notation "x <- m ;; k" := (bind m (fun x => k))
  (at level 61, m at next level, right associativity) : py_scope.
Notation "m ;; k" := (bind m (fun _ => k))
  (at level 61, right associativity) : py_scope.
Local Open Scope py_scope.

(** ** System calls *)

Definition next_fault : M bool :=
  fun st => match faults st with
            | [] => (Ok false, st)
            | b :: t => (Ok b, set_faults t st)
            end.

Definition fallible : M unit :=
  b <- next_fault ;; if b : bool then raise OSError else ret tt.

Definition put_file (p : path) (b : option blob) : M unit :=
  modify (fun st => set_fs (write_at (fs st) p b) st).

(** [os.makedirs(dir, exist_ok=True)]. *)
Definition os_makedirs : M unit := fallible.

(** [open(p, 'w')]: creates or empties the file. *)
Definition open_w (p : path) : M unit := fallible ;; put_file p (Some Truncated).

(** [json.dump] / [pickle.dump] and the close of the [with] block. *)
Definition dump (p : path) (b : blob) : M unit := fallible ;; put_file p (Some b).

(** [os.path.exists(p)]: never raises. *)
Definition os_path_exists (p : path) : M bool :=
  gets (fun st => match read_at (fs st) p with Some _ => true | None => false end).

(** [os.remove(p)]: [FileNotFoundError] (an [OSError]) when absent. *)
Definition os_remove (p : path) : M unit :=
  e <- os_path_exists p ;;
  if e : bool then fallible ;; put_file p None else raise OSError.

(** [os.rename(src, dst)]. *)
Definition os_rename (src dst : path) : M unit :=
  c <- gets (fun st => read_at (fs st) src) ;;
  match c with
  | None => raise OSError
  | Some b => fallible ;; put_file dst (Some b) ;; put_file src None
  end.

(** [open(p, 'r')] followed by [json.load]. *)
Definition json_load (p : path) : M json :=
  c <- gets (fun st => read_at (fs st) p) ;;
  match c with
  | None => raise OSError
  | Some b => fallible ;;
              match b with
              | Json j => ret j
              | _ => raise JSONDecodeError
              end
  end.

(** [open(p, 'rb')] followed by [pickle.load]; [Some f] when the object
    has both keys. *)
Definition pickle_load (p : path) : M (option face_store) :=
  c <- gets (fun st => read_at (fs st) p) ;;
  match c with
  | None => raise OSError
  | Some b => fallible ;;
              match b with
              | Pickle f => ret (Some f)
              | PickleOther => ret None
              | _ => raise UnpicklingError
              end
  end.

(** ** PersistentStore: [save_data], [save_face_data], [load_data], [load_face_data] *)

(** [notify_callbacks]: every observer is called under its own [try]. *)
Definition notify_callbacks : M unit :=
  modify (fun st => set_notified (S (notified st)) st).

(** [Database.save_data] (lines 86-117). [temp_file] is still [None] when
    [os.makedirs] raises, so the [finally] clause removes nothing then; the
    same holds when [data_to_save] is no dict and [data_to_save.get] raises
    in the first line of the [try]. *)
Definition save_data (arg : option json) : M bool :=
  data_to_save <- match arg with
                  | Some j => ret j
                  | None => gets (fun st => json_of_document (data st))
                  end ;;
  match data_to_save with
  | JDict _ =>
      r0 <- attempt os_makedirs ;;
      match r0 with
      | Raise _ => ret false
      | Ok _ =>
          r <- attempt (open_w DATA_TMP ;;
                        dump DATA_TMP (Json data_to_save) ;;
                        e <- os_path_exists DATA_FILE ;;
                        (if e : bool then os_remove DATA_FILE else ret tt) ;;
                        os_rename DATA_TMP DATA_FILE) ;;
          (* finally *)
          t <- os_path_exists DATA_TMP ;;
          (if t : bool then os_remove DATA_TMP else ret tt) ;;
          match r with
          | Ok _ => notify_callbacks ;; ret true
          | Raise _ => ret false
          end
      end
  | _ => ret false
  end.

(** [Database.save_face_data] (lines 119-137). When [os.makedirs] raises,
    the handler reads [temp_file] before it was ever assigned. *)
Definition save_face_data : M bool :=
  r0 <- attempt os_makedirs ;;
  match r0 with
  | Raise _ => raise UnboundLocalError
  | Ok _ =>
      f <- gets face_data ;;
      r <- attempt (open_w FACE_TMP ;;
                    dump FACE_TMP (Pickle f) ;;
                    e <- os_path_exists FACE_DATA_FILE ;;
                    (if e : bool then os_remove FACE_DATA_FILE else ret tt) ;;
                    os_rename FACE_TMP FACE_DATA_FILE) ;;
      match r with
      | Ok _ => ret true
      | Raise _ =>
          t <- os_path_exists FACE_TMP ;;
          (if t : bool then os_remove FACE_TMP else ret tt) ;;
          ret false
      end
  end.

(** [{'encodings': [], 'usernames': []}] *)
Definition empty_face_store : face_store := mkFaceStore [] [].

(** [Database.load_face_data] (lines 69-84). *)
Definition load_face_data : M face_store :=
  r <- attempt (e <- os_path_exists FACE_DATA_FILE ;;
                if e : bool then
                  o <- pickle_load FACE_DATA_FILE ;;
                  match o with
                  | Some f => ret f
                  | None => ret empty_face_store
                  end
                else ret empty_face_store) ;;
  match r with
  | Ok f => ret f
  | Raise _ => ret empty_face_store
  end.

(** ** SHA-256 (FIPS 180-4), the digest behind [hashlib.sha256] *)

Module Sha256.
Local Open Scope list_scope.
Local Open Scope Z_scope.

Definition w32 (x : Z) : Z := x mod 2 ^ 32.
Definition add32 (x y : Z) : Z := w32 (x + y).
Definition rotr (n x : Z) : Z := Z.lor (Z.shiftr x n) (w32 (Z.shiftl x (32 - n))).
Definition not32 (x : Z) : Z := Z.lxor x (2 ^ 32 - 1).

Definition Ch (x y z : Z) : Z := Z.lxor (Z.land x y) (Z.land (not32 x) z).
Definition Maj (x y z : Z) : Z :=
  Z.lxor (Z.land x y) (Z.lxor (Z.land x z) (Z.land y z)).
Definition Sigma0 (x : Z) : Z := Z.lxor (rotr 2 x) (Z.lxor (rotr 13 x) (rotr 22 x)).
Definition Sigma1 (x : Z) : Z := Z.lxor (rotr 6 x) (Z.lxor (rotr 11 x) (rotr 25 x)).
Definition sigma0 (x : Z) : Z := Z.lxor (rotr 7 x) (Z.lxor (rotr 18 x) (Z.shiftr x 3)).
Definition sigma1 (x : Z) : Z := Z.lxor (rotr 17 x) (Z.lxor (rotr 19 x) (Z.shiftr x 10)).

(** The constants are the first 32 bits of the fractional parts of the
    square roots (initial hash value) and cube roots (round constants) of
    the first primes. *)
Definition is_prime (n : nat) : bool :=
  (2 <=? n)%nat && forallb (fun d => negb (n mod d =? 0)%nat) (seq 2 (n - 2)).
Definition primes64 : list Z :=
  Eval vm_compute in map Z.of_nat (filter is_prime (seq 2 310)).

Fixpoint icbrt_bits (bits : nat) (n r : Z) : Z :=
  match bits with
  | O => r
  | S b => let c := r + 2 ^ Z.of_nat b in
           icbrt_bits b n (if c * c * c <=? n then c else r)
  end.
Definition icbrt (n : Z) : Z := icbrt_bits 40 n 0.

Definition H0 : list Z :=
  Eval vm_compute in map (fun p => w32 (Z.sqrt (p * 2 ^ 64))) (firstn 8 primes64).
Definition K : list Z :=
  Eval vm_compute in map (fun p => w32 (icbrt (p * 2 ^ 96))) primes64.

Definition hash_state : Type := (Z * Z * Z * Z * Z * Z * Z * Z)%type.

Definition round (s : hash_state) (kw : Z * Z) : hash_state :=
  let '(a, b, c, d, e, f, g, h) := s in
  let t1 := w32 (h + Sigma1 e + Ch e f g + fst kw + snd kw) in
  let t2 := add32 (Sigma0 a) (Maj a b c) in
  (add32 t1 t2, a, b, c, add32 d t1, e, f, g).

(** The message schedule, most recent word first. *)
Fixpoint schedule (n : nat) (rev_w : list Z) : list Z :=
  match n with
  | O => rev_w
  | S n' =>
      let w := w32 (sigma1 (nth 1 rev_w 0) + nth 6 rev_w 0
                    + sigma0 (nth 14 rev_w 0) + nth 15 rev_w 0) in
      schedule n' (w :: rev_w)
  end.

Definition compress (s : hash_state) (block : list Z) : hash_state :=
  let w := rev (schedule 48 (rev block)) in
  let '(a, b, c, d, e, f, g, h) := s in
  let '(a', b', c', d', e', f', g', h') := fold_left round (combine K w) s in
  (add32 a a', add32 b b', add32 c c', add32 d d',
   add32 e e', add32 f f', add32 g g', add32 h h').

Fixpoint be_bytes (n : nat) (x : Z) : list Z :=
  match n with
  | O => []
  | S n' => (x / 256 ^ Z.of_nat n') mod 256 :: be_bytes n' x
  end.

Definition pad (msg : list Z) : list Z :=
  let len := Z.of_nat (List.length msg) in
  let zeros := Z.to_nat ((55 - len) mod 64) in
  (msg ++ [128] ++ repeat 0 zeros ++ be_bytes 8 (8 * len))%list.

Fixpoint words (fuel : nat) (bytes : list Z) : list Z :=
  match fuel, bytes with
  | S f, b0 :: b1 :: b2 :: b3 :: t =>
      (((b0 * 256 + b1) * 256 + b2) * 256 + b3) :: words f t
  | _, _ => []
  end.

Fixpoint blocks (fuel : nat) (s : hash_state) (ws : list Z) : hash_state :=
  match fuel, ws with
  | S f, _ :: _ => blocks f (compress s (firstn 16 ws)) (skipn 16 ws)
  | _, _ => s
  end.

Definition initial : hash_state :=
  match H0 with
  | [a; b; c; d; e; f; g; h] => (a, b, c, d, e, f, g, h)
  | _ => (0, 0, 0, 0, 0, 0, 0, 0)
  end.

Definition digest (msg : list Z) : hash_state :=
  let bytes := pad msg in
  let ws := words (List.length bytes) bytes in
  blocks (List.length ws) initial ws.

Definition hex_digit (x : Z) : ascii :=
  ascii_of_nat (Z.to_nat (if x <? 10 then 48 + x else 87 + x)).

Definition hex8 (x : Z) (rest : string) : string :=
  String (hex_digit (x / 2 ^ 28 mod 16)) (String (hex_digit (x / 2 ^ 24 mod 16))
  (String (hex_digit (x / 2 ^ 20 mod 16)) (String (hex_digit (x / 2 ^ 16 mod 16))
  (String (hex_digit (x / 2 ^ 12 mod 16)) (String (hex_digit (x / 2 ^ 8 mod 16))
  (String (hex_digit (x / 2 ^ 4 mod 16)) (String (hex_digit (x mod 16)) rest))))))).

Definition bytes_of_string (s : string) : list Z :=
  map (fun c => Z.of_nat (nat_of_ascii c)) (list_ascii_of_string s).

(** [hashlib.sha256(s.encode()).hexdigest()]; a string is its UTF-8 bytes. *)
Definition hexdigest (s : string) : string :=
  let '(a, b, c, d, e, f, g, h) := digest (bytes_of_string s) in
  hex8 a (hex8 b (hex8 c (hex8 d (hex8 e (hex8 f (hex8 g (hex8 h ""))))))).

End Sha256.

(** ** [load_data] (lines 21-67) *)

Definition default_data : json :=
  JDict [("income", JList []); ("expenses", JList []); ("categories", JList []);
         ("budget", JDict []); ("goals", JList []); ("users", JList [])].

Inductive pytype : Type := list_t | dict_t.

Definition required_keys : list (string * pytype) :=
  [("income", list_t); ("expenses", list_t); ("categories", list_t);
   ("budget", dict_t); ("goals", list_t); ("users", list_t)].

Definition isinstance (v : json) (t : pytype) : bool :=
  match t, v with
  | list_t, JList _ => true
  | dict_t, JDict _ => true
  | _, _ => false
  end.

(** [expected_type()] *)
Definition empty_of (t : pytype) : json :=
  match t with list_t => JList [] | dict_t => JDict [] end.

(** One turn of the repair loop (lines 48-50). *)
Definition repair_key (d : list (string * json)) (kt : string * pytype)
  : list (string * json) :=
  match dict_get d (fst kt) with
  | Some v => if isinstance v (snd kt) then d else dict_set d (fst kt) (empty_of (snd kt))
  | None => dict_set d (fst kt) (empty_of (snd kt))
  end.

Definition repair (d : list (string * json)) : list (string * json) :=
  fold_left repair_key required_keys d.

Section LoadData.
(** Two behaviours of the Python runtime the loader relies on:
    [set_list l] is [list(set(l))], the elements of [l] without repeats in
    the set's iteration order (which the language leaves open), and
    [py_str c] is [str(c)] for a value that is not a string. *)
Variable set_list : list string -> list string.
Variable py_str : json -> string.

Definition str (c : json) : string :=
  match c with JStr s => s | _ => py_str c end.

(** [list({str(c) for c in cs if c})] (line 54). *)
Definition normalise_categories (cs : list json) : list json :=
  map JStr (set_list (map str (filter truthy cs))).

Definition load_data : M json :=
  r <- attempt
         (e <- os_path_exists DATA_FILE ;;
          loaded <- (if e : bool then json_load DATA_FILE
                     else save_data (Some default_data) ;; ret default_data) ;;
          match loaded with
          | JDict d =>
              let d := repair d in
              match dict_get d "categories" with
              | Some (JList cs) =>
                  ret (JDict (dict_set d "categories"
                                       (JList (normalise_categories cs))))
              | _ => raise TypeError
              end
          | _ => raise TypeError      (* [key in data], [data[key] = ...] *)
          end) ;;
  match r with
  | Ok d => ret d
  | Raise _ => ret default_data
  end.
End LoadData.

(** What the loader needs of the set's iteration order. *)
Definition set_order (set_list : list string -> list string) : Prop :=
  forall l, NoDup (set_list l) /\ forall x, In x (set_list l) <-> In x l.

(** ** AccountRegistry: the [Database] methods over [users] *)

Definition pepper : string := "finnova_secret_pepper".

Definition truthy_str (s : string) : bool := negb (s =? "").

(** [len(s)] of a [str]: the number of its code points. In the UTF-8
    encoding every code point starts with one byte that is not a
    continuation byte ([10xxxxxx]) and goes on with continuation bytes
    only, so [len] counts the other bytes. *)
Definition continuation_byte (c : ascii) : bool :=
  match c with Ascii _ _ _ _ _ _ b6 b7 => b7 && negb b6 end.

Fixpoint len (s : string) : nat :=
  match s with
  | EmptyString => O
  | String c s' => if continuation_byte c then len s' else S (len s')
  end.
Definition truthy_opt (o : option string) : bool :=
  match o with Some s => truthy_str s | None => false end.

(** [Database._hash_password] (lines 313-321). *)
Definition hash_with_salt (salt : string) (password : option string) : option string :=
  match password with
  | Some p => if truthy_str p then Some (Sha256.hexdigest (p ++ pepper ++ salt)) else None
  | None => None
  end.

Definition getenv_salt (st : state) : string :=
  match environ_salt st with Some s => s | None => "default_salt_value" end.

Definition _hash_password (password : option string) : M (option string) :=
  salt <- gets getenv_salt ;; ret (hash_with_salt salt password).

Definition find_user (name : string) (l : list user) : option user :=
  find (fun u => username u =? name) l.

(** [user_exists] (lines 323-325). *)
Definition user_exists (name : string) : M bool :=
  gets (fun st => existsb (fun u => username u =? name) (users (data st))).

(** [authenticate_password] (lines 276-281). *)
Definition authenticate_password (name : string) (password : option string) : M bool :=
  us <- gets (fun st => users (data st)) ;;
  match find_user name us with
  | None => ret false
  | Some u =>
      if truthy_opt (password_hash u) then
        h <- _hash_password password ;;
        match password_hash u, h with
        | Some stored, Some given => ret (stored =? given)
        | _, _ => ret false
        end
      else ret false
  end.

(** [get_user_auth_methods] (lines 327-337). *)
Definition get_user_auth_methods (name : string) : M (list string) :=
  us <- gets (fun st => users (data st)) ;;
  match find_user name us with
  | None => ret []
  | Some u =>
      ret ((if truthy_opt (password_hash u) then ["password"] else [])
           ++ (match face_encoding u with
               | Some (_ :: _) => ["face"]
               | _ => []
               end))%list
  end.

Definition set_users (us : list user) : M unit :=
  modify (fun st =>
            let d := data st in
            set_data (mkDocument (income d) (expenses d) (categories d)
                                 (budget d) (goals d) us) st).

(** [[u for u in self.data["users"] if u["username"] != username]] *)
Definition without_user (name : string) (us : list user) : list user :=
  filter (fun u => negb (username u =? name)) us.

(** [list.index]: [None] stands for [ValueError]. *)
Fixpoint index_of (name : string) (l : list string) : option nat :=
  match l with
  | [] => None
  | x :: t => if x =? name then Some O
              else match index_of name t with Some i => Some (S i) | None => None end
  end.

(** [list.pop(idx)]: [None] stands for [IndexError]. *)
Fixpoint pop {A} (l : list A) (idx : nat) : option (list A) :=
  match l, idx with
  | [], _ => None
  | _ :: t, O => Some t
  | x :: t, S i => match pop t i with Some t' => Some (x :: t') | None => None end
  end.

Definition pop_usernames (idx : nat) : M unit :=
  f <- gets face_data ;;
  match pop (usernames f) idx with
  | Some l => modify (set_face_data (mkFaceStore (encodings f) l))
  | None => raise IndexError
  end.

Definition pop_encodings (idx : nat) : M unit :=
  f <- gets face_data ;;
  match pop (encodings f) idx with
  | Some l => modify (set_face_data (mkFaceStore l (usernames f)))
  | None => raise IndexError
  end.

Definition is_some {A} (o : option A) : bool :=
  match o with Some _ => true | None => false end.

(** The face rollback, written twice in the source (lines 223-227 and
    238-242). *)
Definition rollback_face (name : string) (face : option encoding) : M unit :=
  names <- gets (fun st => usernames (face_data st)) ;;
  if is_some face && existsb (fun x => x =? name) names then
    match index_of name names with
    | Some idx => pop_usernames idx ;; pop_encodings idx ;; save_face_data ;; ret tt
    | None => raise ValueError
    end
  else ret tt.

(** Lines 203-218: enrol the face; [false] when the handler returned. *)
Definition enrol_face (name : string) (face : option encoding) : M bool :=
  match face with
  | None => ret true
  | Some e =>
      r <- attempt
             (modify (fun st =>
                        let f := face_data st in
                        set_face_data (mkFaceStore (encodings f ++ [e]) (usernames f)) st) ;;
              modify (fun st =>
                        let f := face_data st in
                        set_face_data (mkFaceStore (encodings f) (usernames f ++ [name])) st) ;;
              ok <- save_face_data ;;
              if ok : bool then ret tt else raise RuntimeError) ;;
      match r with
      | Ok _ => ret true
      | Raise _ =>
          us <- gets (fun st => users (data st)) ;;
          set_users (without_user name us) ;;
          ret false
      end
  end.

(** [Database.register_user] (lines 139-243). [now] is
    [datetime.now().isoformat()]. *)
Definition register_user (name : string) (password : option string)
           (face : option encoding) (now : string) : M bool :=
  if negb (truthy_str name) then ret false else
  ex <- user_exists name ;;
  if ex : bool then ret false else
  r <- attempt
         (if match face with
             | Some e => negb (List.length e =? 128)%nat
             | None => false
             end
          then ret false else
          h <- (if truthy_opt password then _hash_password password else ret None) ;;
          let methods := ((if truthy_opt password then ["password"] else [])
                          ++ (if is_some face then ["face"] else []))%list in
          let user_data := mkUser name h face now methods in
          match methods with
          | [] => ret false
          | _ :: _ =>
              us <- gets (fun st => users (data st)) ;;
              set_users (us ++ [user_data]) ;;
              enrolled <- enrol_face name face ;;
              if enrolled : bool then
                saved <- save_data None ;;
                if saved : bool then ret true
                else rollback_face name face ;; ret false
              else ret false
          end) ;;
  match r with
  | Ok b => ret b
  | Raise _ =>
      us <- gets (fun st => users (data st)) ;;
      (if existsb (fun x => x =? name) (map username us)
       then set_users (without_user name us) else ret tt) ;;
      rollback_face name face ;;
      ret false
  end.

(** ** CredentialVerifier: class [TraditionalAuthenticator] *)

Module TraditionalAuthenticator.

(** [TraditionalAuthenticator._hash_password] (lines 253-260). *)
Definition _hash_password (password : string) : option string :=
  if truthy_str password
  then Some (Sha256.hexdigest ("finnova_salt_" ++ password ++ "_secret_pepper"))
  else None.

(** [register_user] (lines 12-27); the message boxes are left out. *)
Definition register_user (name password now : string) : M bool :=
  if negb (truthy_str name) || negb (truthy_str password) then ret false else
  ex <- user_exists name ;;
  if ex : bool then ret false else
  ok <- register_user name (_hash_password password) None now ;;
  ret ok.

(** [authenticate] (lines 29-41). *)
Definition authenticate (name password : string) : M bool :=
  if negb (truthy_str name) || negb (truthy_str password) then ret false else
  ok <- authenticate_password name (_hash_password password) ;;
  if ok : bool then modify (set_current_user (Some name)) ;; ret true
  else ret false.

(** [db_instance.update_user_password]: class [Database] (core.py, lines
    13-376) defines no attribute of that name and no [__getattr__], so
    the attribute lookup raises. *)
Definition update_user_password (name : string) (hashed : option string) : M bool :=
  raise AttributeError.

(** [change_password] (lines 43-57). *)
Definition change_password (name old_password new_password : string) : M bool :=
  verified <- (if truthy_str old_password then authenticate name old_password
               else ret true) ;;
  if negb verified then ret false else
  if (len new_password <? 8)%nat then ret false else
  ok <- update_user_password name (_hash_password new_password) ;;
  if ok : bool then ret true else ret false.

End TraditionalAuthenticator.

(** ** EmbeddingMatcher: the [face_recognition] calls *)

(** numpy computes in IEEE 754 binary64. [float] is the Standard
    Library's specification of that arithmetic with 53 bits of mantissa and
    infinities at exponent 1024, the one Rocq's own primitive floats are
    held to: every operation is the exact one rounded to the nearest float,
    ties to even, with signed zeros, infinities and NaN. *)
Definition float : Type := spec_float.
Definition fadd : float -> float -> float := SFadd 53 1024.
Definition fsub : float -> float -> float := SFsub 53 1024.
Definition fmul : float -> float -> float := SFmul 53 1024.
Definition fsqrt : float -> float := SFsqrt 53 1024.
(** [x <= y], [x < y], [x == y]: all false when one side is NaN. *)
Definition fle : float -> float -> bool := SFleb.
Definition flt : float -> float -> bool := SFltb.
Definition feq : float -> float -> bool := SFeqb.
Definition is_nan (x : float) : bool :=
  match x with S754_nan => true | _ => false end.
Definition is_finite (x : float) : bool :=
  match x with S754_zero _ | S754_finite _ _ _ => true | _ => false end.

(** The float a number stands for: the one nearest to [q], ties to even,
    and an infinity beyond the largest float. This is the value of the
    Python literal [0.4] for [4 # 10], and of [float(q)] for a number held
    exactly. The quotient is rounded once, as a float division is. *)
Definition to_float (q : Q) : float :=
  match Qnum q with
  | Z0 => S754_zero false
  | Zpos n =>
      let '(m, e, l) := SFdiv_core_binary 53 1024 (Zpos n) 0 (Zpos (Qden q)) 0 in
      binary_round_aux 53 1024 false m e l
  | Zneg n =>
      let '(m, e, l) := SFdiv_core_binary 53 1024 (Zpos n) 0 (Zpos (Qden q)) 0 in
      binary_round_aux 53 1024 true m e l
  end.

(** numpy's pairwise summation of a row of float64 ([DOUBLE_pairwise_sum]).
    Fewer than 8 numbers are added from left to right, starting from zero;
    up to 128 are added into 8 running sums, the [j]-th taking the entries
    at [j], [j + 8], [j + 16], ..., which are then added as
    [((r0 + r1) + (r2 + r3)) + ((r4 + r5) + (r6 + r7))], followed by the
    entries left over when the length is no multiple of 8; a longer row is
    split in two parts, the first of a length that is a multiple of 8,
    whose sums are added. *)
Definition add8 (r c : list float) : list float :=
  map (fun p => fadd (fst p) (snd p)) (combine r c).

Fixpoint accumulate8 (fuel : nat) (r l : list float) : list float * list float :=
  match fuel with
  | O => (r, l)
  | S fuel' =>
      if (8 <=? List.length l)%nat
      then accumulate8 fuel' (add8 r (firstn 8 l)) (skipn 8 l)
      else (r, l)
  end.

Definition tree8 (r : list float) : float :=
  match r with
  | [r0; r1; r2; r3; r4; r5; r6; r7] =>
      fadd (fadd (fadd r0 r1) (fadd r2 r3)) (fadd (fadd r4 r5) (fadd r6 r7))
  | _ => S754_zero false
  end.

Definition block_sum (l : list float) : float :=
  let (r, rest) := accumulate8 (List.length l) (firstn 8 l) (skipn 8 l) in
  fold_left fadd rest (tree8 r).

Fixpoint pairwise_sum (fuel : nat) (l : list float) : float :=
  let n := List.length l in
  if (n <? 8)%nat then fold_left fadd l (S754_zero false)
  else if (n <=? 128)%nat then block_sum l
  else match fuel with
       | O => S754_zero false
       | S fuel' =>
           let n2 := (n / 2 - (n / 2) mod 8)%nat in
           fadd (pairwise_sum fuel' (firstn n2 l)) (pairwise_sum fuel' (skipn n2 l))
       end.

(** [np.add.reduce] along the contiguous axis of a float64 array: the
    result starts at the identity of the addition, [0.0], and the pairwise
    sum of the row is added to it. (Later versions of numpy start the
    short sums at [-0.0]; that bears on the sign of a sum that is zero
    only, and added to [0.0] both give [+0.0].) *)
Definition add_reduce (l : list float) : float :=
  fadd (S754_zero false) (pairwise_sum (List.length l) l).

(** A distance is the float [np.linalg.norm] returns. *)
Definition distance : Type := float.

(** [d <= t] for a tolerance written as a literal, and [d < t]. *)
Definition dist_le_tol (d : distance) (t : Q) : bool := fle d (to_float t).
Definition dist_lt_tol (d : distance) (t : float) : bool := flt d t.

(** One row of [known - probe] under numpy's broadcasting: entry by entry
    when both have the same length, and a row or a probe of one entry is
    repeated along the other. *)
Definition broadcast_sub (e probe : encoding) : list float :=
  match probe, e with
  | [p], _ => map (fun x => fsub (to_float x) (to_float p)) e
  | _, [x] => map (fun p => fsub (to_float x) (to_float p)) probe
  | _, _ => map (fun xp => fsub (to_float (fst xp)) (to_float (snd xp))) (combine e probe)
  end.

(** The shapes numpy can broadcast. *)
Definition broadcastable (e probe : encoding) : bool :=
  (List.length e =? List.length probe)%nat
  || (List.length probe =? 1)%nat || (List.length e =? 1)%nat.

(** [np.linalg.norm(known - probe, axis=1)] for one row:
    [sqrt(add.reduce(x * x))] of the row [x] of differences. *)
Definition norm_diff (e probe : encoding) : distance :=
  fsqrt (add_reduce (map (fun x => fmul x x) (broadcast_sub e probe))).

(** [face_recognition.face_distance(known, probe)]: the empty array for
    no row, else [np.linalg.norm(known - probe, axis=1)]. numpy raises
    [ValueError] when the rows do not all have one length (they make no
    array of two dimensions) and when that length and the probe's cannot
    be broadcast. *)
Definition face_distance (known : list encoding) (probe : encoding)
  : res (list distance) :=
  match known with
  | [] => Ok []
  | e :: rest =>
      if forallb (fun e' => (List.length e' =? List.length e)%nat) rest
         && broadcastable e probe
      then Ok (map (fun e => norm_diff e probe) known)
      else Raise ValueError
  end.

(** [face_recognition.compare_faces(known, probe, tolerance)]:
    [list(face_distance(known, probe) <= tolerance)]. *)
Definition compare_faces (known : list encoding) (probe : encoding) (tolerance : Q)
  : res (list bool) :=
  match face_distance known probe with
  | Ok ds => Ok (map (fun d => dist_le_tol d tolerance) ds)
  | Raise e => Raise e
  end.

(** [matches.index(True)], guarded by [True in matches]. *)
Fixpoint index_true (l : list bool) : option nat :=
  match l with
  | [] => None
  | b :: t => if b then Some O
              else match index_true t with Some i => Some (S i) | None => None end
  end.

(** [np.argmin] (of a non-empty array): the first index of a least
    element, and the index of the first NaN when there is one. The loop
    takes a later entry [d] when [not (d >= best)] and stops at a NaN. *)
Fixpoint argmin_from (best : distance) (best_i i : nat) (l : list distance) : nat :=
  match l with
  | [] => best_i
  | d :: t =>
      if is_nan best then best_i
      else if negb (fle best d) then argmin_from d i (S i) t
      else argmin_from best best_i (S i) t
  end.

Definition argmin (l : list distance) : option nat :=
  match l with
  | [] => None
  | d :: t => Some (argmin_from d O 1 t)
  end.

Definition lift {A} (r : res A) : M A := fun st => (r, st).

Definition tolerance_login : Q := 4 # 10.
Definition tolerance_duplicate : Q := 35 # 100.

(** [Database.authenticate_face] (lines 283-311); the tolerances are the
    literals [0.4] and [0.35]. *)
Definition authenticate_face (probe : encoding) : M (option string) :=
  f <- gets face_data ;;
  match encodings f with
  | [] => ret None
  | _ :: _ =>
      matches <- lift (compare_faces (encodings f) probe tolerance_login) ;;
      match index_true matches with
      | Some idx =>
          match nth_error (usernames f) idx with
          | Some name =>
              ex <- user_exists name ;;
              if ex : bool then ret (Some name) else ret None
          | None => raise IndexError
          end
      | None => ret None
      end
  end.

Module FaceAuthenticator.

(** The duplicate check of [FaceAuthenticator.register_user]
    (lines 317-325): [any(compare_faces(known, probe, tolerance=0.35))]. *)
Definition face_already_registered (known : list encoding) (probe : encoding)
  : res bool :=
  match compare_faces known probe tolerance_duplicate with
  | Ok matches => Ok (existsb (fun b => b) matches)
  | Raise e => Raise e
  end.

(** What a caller gives as [face_encoding]: nothing (the default [None]),
    a list of floats, or a numpy array, here one with at least one entry,
    [x :: rest]. *)
Inductive argument : Type :=
| NoArgument
| PyList (l : list Q)
| NdArray (x : Q) (rest : list Q).

Definition is_zero (x : float) : bool :=
  match x with S754_zero _ => true | _ => false end.

(** [face_encoding or ...] evaluates its right side when the left one is
    false: [None], an empty list, an array whose one entry is zero. The
    truth value of an array of two entries or more raises [ValueError]. *)
Definition falsy (face_encoding : argument) : res bool :=
  match face_encoding with
  | NoArgument => Ok true
  | PyList [] => Ok true
  | PyList (_ :: _) => Ok false
  | NdArray x [] => Ok (is_zero (to_float x))
  | NdArray _ (_ :: _) => Raise ValueError
  end.

(** [current_encoding = face_encoding or self.capture_face_encoding()]
    (line 361), given what the camera would return. A list that is not
    empty is taken as it is and is not [None]; the first use made of it,
    [known - probe] in [compare_faces] with a list on both sides, raises
    [TypeError], and nothing happens in between. *)
Definition current_encoding (face_encoding : argument) (captured : option encoding)
  : res (option encoding) :=
  match falsy face_encoding with
  | Raise e => Raise e
  | Ok true => Ok captured
  | Ok false =>
      match face_encoding with
      | NdArray x rest => Ok (Some (x :: rest))
      | _ => Raise TypeError
      end
  end.

(** One turn of the loop of [authenticate] (lines 360-390), given what
    [capture_face_encoding] would return in that turn: [Some r] when the
    turn returns [r], [None] when the loop goes on (no face, no match, or
    an exception caught by the turn's handler). *)
Definition attempt_once (known : list encoding) (names : list string)
           (face_encoding : argument) (captured : option encoding)
           (confidence_threshold : Q)
  : M (option (option string)) :=
  r <- attempt
         (current <- lift (current_encoding face_encoding captured) ;;
          match current with
          | None => ret None
          | Some probe =>
              matches <- lift (compare_faces known probe tolerance_login) ;;
              ds <- lift (face_distance known probe) ;;
              match argmin ds with
              | None => raise ValueError
              | Some best =>
                  match nth_error matches best, nth_error ds best with
                  | Some m, Some d =>
                      if m && dist_lt_tol d (fsub (to_float 1)
                                                  (to_float confidence_threshold)) then
                        match nth_error names best with
                        | Some name =>
                            ex <- user_exists name ;;
                            if ex : bool then ret (Some (Some name))
                            else ret (Some None)
                        | None => raise IndexError
                        end
                      else ret None
                  | _, _ => raise IndexError
                  end
              end
          end) ;;
  match r with
  | Ok o => ret o
  | Raise _ => ret None
  end.

(** The loop of [authenticate] (lines 359-392). [captures] lists what
    [capture_face_encoding] returns call by call ([None]: no face, or the
    camera is not running); a turn that does not get to the call leaves
    the list as it is. *)
Fixpoint attempts (n : nat) (known : list encoding) (names : list string)
         (face_encoding : argument) (captures : list (option encoding))
         (confidence_threshold : Q)
  : M (option string) :=
  match n with
  | O => ret None
  | S n' =>
      o <- attempt_once known names face_encoding (hd None captures)
                        confidence_threshold ;;
      match o with
      | Some r => ret r
      | None =>
          attempts n' known names face_encoding
                   (match falsy face_encoding with
                    | Ok true => tl captures
                    | _ => captures
                    end)
                   confidence_threshold
      end
  end.

(** [FaceAuthenticator.authenticate] (lines 353-392) with all its
    parameters. [self.known_face_encodings] and [self.known_face_names]
    are [known] and [names]. *)
Definition authenticate_with (face_encoding : argument) (known : list encoding)
           (names : list string) (captures : list (option encoding))
           (max_attempts : nat) (confidence_threshold : Q) : M (option string) :=
  match known with
  | [] => ret None
  | _ :: _ => attempts max_attempts known names face_encoding captures
                       confidence_threshold
  end.

(** The call without [face_encoding], which is then [None]: every turn
    takes its probe from the camera. *)
Definition authenticate (known : list encoding) (names : list string)
           (captures : list (option encoding)) (max_attempts : nat)
           (confidence_threshold : Q) : M (option string) :=
  authenticate_with NoArgument known names captures max_attempts
                    confidence_threshold.

End FaceAuthenticator.

(** * The rest of class [Database]: queries and transactions *)

(** [get_user_face_encoding] (lines 339-348). *)
Definition get_user_face_encoding (name : string) : M (option encoding) :=
  us <- gets (fun st => users (data st)) ;;
  match find_user name us with
  | None => ret None
  | Some u =>
      match face_encoding u with
      | Some (x :: e) => ret (Some (x :: e))
      | _ => ret None
      end
  end.

(** [s in l] for a string [s]: an element equals a string only if it is
    that string. *)
Definition str_in (s : string) (l : list json) : bool :=
  existsb (fun c => match c with JStr c' => c' =? s | _ => false end) l.

(** [category in current_data['categories']]. The list was just rebuilt by
    [load_data] and holds strings only, which no value but a string
    equals. *)
Definition in_categories (category : json) (cs : list json) : bool :=
  match category with
  | JStr s => str_in s cs
  | _ => false
  end.

Section AddTransaction.
Variable set_list : list string -> list string.
Variable py_str : json -> string.

(** Lines 260-266: an expense with a category that is not listed yet adds
    it to the categories. *)
Definition preserve_category (transaction_type : string)
           (transaction_data : list (string * json)) (d : list (string * json))
  : M (list (string * json)) :=
  match (if transaction_type =? "expenses"
         then dict_get transaction_data "category" else None) with
  | Some category =>
      let d := match dict_get d "categories" with
               | Some _ => d
               | None => dict_set d "categories" (JList [])
               end in
      match dict_get d "categories" with
      | Some (JList cs) =>
          ret (if in_categories category cs then d
               else dict_set d "categories" (JList (cs ++ [category])))
      | _ => raise TypeError
      end
  | None => ret d
  end.

(** [Database.add_transaction] (lines 245-274); [transaction_data] is the
    dict the forms build. *)
Definition add_transaction (transaction_type : string)
           (transaction_data : list (string * json)) : M bool :=
  if negb ((transaction_type =? "income") || (transaction_type =? "expenses"))
  then raise ValueError else
  current_data <- load_data set_list py_str ;;
  match current_data with
  | JDict d =>
      let d := match dict_get d transaction_type with
               | Some _ => d
               | None => dict_set d transaction_type (JList [])
               end in
      match dict_get d transaction_type with
      | Some (JList l) =>
          let d := dict_set d transaction_type (JList (l ++ [JDict transaction_data])) in
          d <- preserve_category transaction_type transaction_data d ;;
          success <- save_data (Some (JDict d)) ;;
          if success : bool then notify_callbacks ;; ret true else ret false
      | _ => raise AttributeError
      end
  | _ => raise TypeError
  end.

End AddTransaction.

(** * The authenticator's own face store, the registration dialog and the login window *)

(** Class [FaceAuthenticator] keeps the templates a second time, in
    [self.known_face_encodings] and [self.known_face_names], and pickles
    them as [{'encodings': ..., 'names': ...}] to [self.known_faces_path]
    (face_auth.py, line 16), written through a temporary file beside it.
    The path is built from the module's own location,
    [src/assets/face_models/known_faces.dat], and not from the working
    directory as [FACE_DATA_FILE] is: the two name one file in a process
    started in [src/], and two files in a process started anywhere else.
    The process of this development is of the second kind, and the file is
    one of its own. What it holds: a pickle with both keys, a pickle of
    anything else, or the leftover of a write that was never completed. *)
Inductive known_blob : Type :=
| KnownFaces (es : list encoding) (ns : list string)
| KnownOther
| KnownTruncated.

(** The process: [db_instance] with the files and the pending failures,
    and the login window's [face_auth] with its file. *)
Record process : Type := mkProcess {
  db : state;
  known_face_encodings : list encoding;
  known_face_names : list string;
  known_faces_path : option known_blob;
  known_faces_tmp : option known_blob     (* str(known_faces_path) + ".tmp" *)
}.

Definition set_db (s : state) (a : process) : process :=
  mkProcess s (known_face_encodings a) (known_face_names a)
        (known_faces_path a) (known_faces_tmp a).
Definition set_known_face_encodings (es : list encoding) (a : process) : process :=
  mkProcess (db a) es (known_face_names a) (known_faces_path a) (known_faces_tmp a).
Definition set_known_face_names (ns : list string) (a : process) : process :=
  mkProcess (db a) (known_face_encodings a) ns (known_faces_path a) (known_faces_tmp a).
Definition set_known_faces_path (b : option known_blob) (a : process) : process :=
  mkProcess (db a) (known_face_encodings a) (known_face_names a) b (known_faces_tmp a).
Definition set_known_faces_tmp (b : option known_blob) (a : process) : process :=
  mkProcess (db a) (known_face_encodings a) (known_face_names a) (known_faces_path a) b.

(** The monad of the methods outside class [Database]: the same, over
    [process]. *)
Definition P (A : Type) : Type := process -> res A * process.

Definition pret {A} (x : A) : P A := fun a => (Ok x, a).
Definition praise {A} (e : exn) : P A := fun a => (Raise e, a).
Definition pbind {A B} (m : P A) (k : A -> P B) : P B :=
  fun a => match m a with
           | (Ok x, a') => k x a'
           | (Raise e, a') => (Raise e, a')
           end.
Definition pattempt {A} (m : P A) : P (res A) :=
  fun a => let (r, a') := m a in (Ok r, a').
Definition pgets {A} (f : process -> A) : P A := fun a => (Ok (f a), a).
Definition pmodify (f : process -> process) : P unit := fun a => (Ok tt, f a).
Definition plift {A} (r : res A) : P A := fun a => (r, a).
(** A call on [db_instance]. *)
Definition on_db {A} (m : M A) : P A :=
  fun a => let (r, s) := m (db a) in (r, set_db s a).

Declare Scope proc_scope.
Delimit Scope proc_scope with proc.
Notation "x <- m ;; k" := (pbind m (fun x => k))
  (at level 61, m at next level, right associativity) : proc_scope.
Notation "m ;; k" := (pbind m (fun _ => k))
  (at level 61, right associativity) : proc_scope.

Module KnownFaces.

(** [FaceAuthenticator.load_known_faces] (lines 32-44). Of a pickle
    without both keys, [data['encodings']] or [data['names']] raises
    ([KeyError] for a dict, [TypeError] otherwise; the handler does not
    tell them apart), after the first assignment or before it: the handler
    resets both lists. *)
Definition load_known_faces : P unit :=
  (r <- pattempt
          (c <- pgets known_faces_path ;;
           match c with
           | None => pret tt
           | Some b =>
               on_db fallible ;;
               match b with
               | KnownFaces es ns =>
                   pmodify (set_known_face_encodings es) ;;
                   pmodify (set_known_face_names ns)
               | KnownOther => praise TypeError
               | KnownTruncated => praise UnpicklingError
               end
           end) ;;
   match r with
   | Ok _ => pret tt
   | Raise _ =>
       pmodify (set_known_face_encodings []) ;;
       pmodify (set_known_face_names [])
   end)%proc.

(** [FaceAuthenticator.__init__] (lines 15-30), as far as the lists go. *)
Definition __init__ : P unit :=
  (pmodify (set_known_face_encodings []) ;;
   pmodify (set_known_face_names []) ;;
   load_known_faces)%proc.

(** [os.remove] of the temporary file. *)
Definition remove_tmp : P unit :=
  (c <- pgets known_faces_tmp ;;
   match c with
   | Some _ => on_db fallible ;; pmodify (set_known_faces_tmp None)
   | None => praise OSError
   end)%proc.

(** [FaceAuthenticator.save_known_faces] (lines 46-67). As in
    [Database.save_face_data], the handler reads [temp_path] before it was
    assigned when [os.makedirs] raised. *)
Definition save_known_faces : P bool :=
  (r0 <- pattempt (on_db os_makedirs) ;;
   match r0 with
   | Raise _ => praise UnboundLocalError
   | Ok _ =>
       r <- pattempt
              (on_db fallible ;;
               pmodify (set_known_faces_tmp (Some KnownTruncated)) ;;
               on_db fallible ;;
               es <- pgets known_face_encodings ;;
               ns <- pgets known_face_names ;;
               pmodify (set_known_faces_tmp (Some (KnownFaces es ns))) ;;
               c <- pgets known_faces_path ;;
               match c with
               | Some _ => on_db fallible ;; pmodify (set_known_faces_path None)
               | None => pret tt
               end ;;
               on_db fallible ;;
               t <- pgets known_faces_tmp ;;
               pmodify (set_known_faces_path t) ;;
               pmodify (set_known_faces_tmp None)) ;;
       match r with
       | Ok _ => pret true
       | Raise _ =>
           t <- pgets known_faces_tmp ;;
           match t with
           | Some _ => remove_tmp
           | None => pret tt
           end ;;
           pret false
       end
   end)%proc.

(** The handler of [register_user] (lines 341-345). *)
Definition rollback (username : string) : P unit :=
  (names <- pgets known_face_names ;;
   if existsb (fun x => x =? username) names then
     match index_of username names with
     | None => praise ValueError
     | Some idx =>
         match pop names idx with
         | None => praise IndexError
         | Some names' =>
             pmodify (set_known_face_names names') ;;
             es <- pgets known_face_encodings ;;
             match pop es idx with
             | None => praise IndexError
             | Some es' => pmodify (set_known_face_encodings es')
             end
         end
     end
   else pret tt)%proc.

(** One turn of the loop of [register_user] (lines 309-349), given what
    [capture_face_encoding] returned in that turn and what the clock reads
    in it: [Some b] when the turn returns [b], [None] when the loop goes
    on. *)
Definition register_turn (username : string) (captured : option encoding)
           (now : string) : P (option bool) :=
  (r <- pattempt
          match captured with
          | None => pret None
          | Some e =>
              known <- pgets known_face_encodings ;;
              dup <- plift (FaceAuthenticator.face_already_registered known e) ;;
              if dup : bool then pret (Some false) else
              pmodify (fun a => set_known_face_encodings
                                  (known_face_encodings a ++ [e]) a) ;;
              pmodify (fun a => set_known_face_names
                                  (known_face_names a ++ [username]) a) ;;
              ok <- on_db (register_user username None (Some e) now) ;;
              if negb ok then praise RuntimeError else
              saved <- save_known_faces ;;
              if negb saved then praise RuntimeError else
              pret (Some true)
          end ;;
   match r with
   | Ok o => pret o
   | Raise _ => rollback username ;; pret None
   end)%proc.

Fixpoint register_turns (n : nat) (username : string)
         (turns : list (option encoding * string)) : P bool :=
  match n with
  | O => pret false
  | S n' =>
      (o <- register_turn username (fst (hd (None, ""%string) turns))
                          (snd (hd (None, ""%string) turns)) ;;
       match o with
       | Some b => pret b
       | None => register_turns n' username (tl turns)
       end)%proc
  end.

(** [FaceAuthenticator.register_user] (lines 299-351); [turns] lists,
    turn by turn, what the camera gives and what the clock reads. *)
Definition register_user (username : string)
           (turns : list (option encoding * string)) (max_attempts : nat) : P bool :=
  (if negb (truthy_str username) then pret false else
   names <- pgets known_face_names ;;
   ex <- on_db (user_exists username) ;;
   if existsb (fun x => x =? username) names || ex then pret false else
   register_turns max_attempts username turns)%proc.

End KnownFaces.

Module CombinedRegisterWindow.

(** [user_data['face_encoding'] = face_encoding_list] on
    [next(u for u in users if u['username'] == username)]: the first
    record of that name, updated in place. *)
Fixpoint attach_face (name : string) (e : encoding) (us : list user) : list user :=
  match us with
  | [] => []
  | u :: t =>
      if username u =? name
      then mkUser (username u) (password_hash u) (Some e)
                  (registration_date u) (auth_methods u) :: t
      else u :: attach_face name e t
  end.

(** [_complete_registration] (gui.py, lines 1706-1753). [username] is the
    entry's text after [strip()]; [face_captured] and [face_encoding] are
    the dialog's fields; the result tells whether the dialog got to its
    success message and closed. *)
Definition _complete_registration (username password confirm : string)
           (face_captured : bool) (face_encoding : option encoding) (now : string)
  : P bool :=
  (r <- pattempt
          (if negb (truthy_str username) then praise ValueError else
           if negb (truthy_str password) || negb (truthy_str confirm)
           then praise ValueError else
           if negb (password =? confirm) then praise ValueError else
           if (len password <? 8)%nat then praise ValueError else
           if negb face_captured then praise ValueError else
           ok <- on_db (TraditionalAuthenticator.register_user username password now) ;;
           if negb ok then praise RuntimeError else
           match face_encoding with
           | None => praise AttributeError
           | Some e =>
               us <- pgets (fun a => users (data (db a))) ;;
               match find_user username us with
               | Some _ =>
                   on_db (set_users (attach_face username e us)) ;;
                   saved <- on_db (save_data None) ;;
                   if negb saved then praise RuntimeError else pret tt
               | None => pret tt
               end ;;
               pmodify (fun a => set_known_face_encodings
                                   (known_face_encodings a ++ [e]) a) ;;
               pmodify (fun a => set_known_face_names
                                   (known_face_names a ++ [username]) a) ;;
               saved <- KnownFaces.save_known_faces ;;
               if negb saved then praise RuntimeError else pret true
           end) ;;
   match r with
   | Ok b => pret b
   | Raise _ => pret false
   end)%proc.

End CombinedRegisterWindow.

Module LoginWindow.

(** [_combined_login] (gui.py, lines 2180-2223). [username] is the entry's
    text after [strip()]. The result is the user [_launch_app] is called
    for, if any, with the value [self.login_face_encoding] has
    afterwards. *)
Definition _combined_login (username password : string)
           (login_face_encoding : option encoding)
  : P (option string * option encoding) :=
  (if negb (truthy_str username) || negb (truthy_str password)
   then pret (None, login_face_encoding) else
   ok <- on_db (TraditionalAuthenticator.authenticate username password) ;;
   if negb ok then pret (None, login_face_encoding) else
   match login_face_encoding with
   | None => pret (None, login_face_encoding)
   | Some probe =>
       us <- pgets (fun a => users (data (db a))) ;;
       match find_user username us with
       | None => pret (None, login_face_encoding)
       | Some u =>
           match face_encoding u with
           | Some (x :: e) =>
               r <- pattempt
                      (matches <- plift (compare_faces [x :: e] probe tolerance_login) ;;
                       if existsb (fun b => b) matches
                       then pret (Some username, login_face_encoding)
                       else pret (None, None)) ;;
               match r with
               | Ok o => pret o
               | Raise _ => pret (None, login_face_encoding)
               end
           | _ => pret (None, login_face_encoding)
           end
       end
   end)%proc.

End LoginWindow.

(** * Specification vocabulary and scenarios *)

Local Open Scope list_scope.

Definition keeps {X A : Type} (proj : state -> X) (m : M A) : Prop :=
  forall st, proj (snd (m st)) = proj st.

(** The parts of the state no system call touches. *)
Definition in_memory (st : state) : document * face_store * option string * option string :=
  (data st, face_data st, current_user st, environ_salt st).

Definition parallel (f : face_store) : Prop :=
  List.length (encodings f) = List.length (usernames f).

(** The store read as (username, encoding) pairs, position by position. *)
Definition templates (f : face_store) : list (string * encoding) :=
  combine (usernames f) (encodings f).

(** The pairs of every user but [name]. *)
Definition others (name : string) (l : list (string * encoding))
  : list (string * encoding) :=
  filter (fun p => negb (fst p =? name)) l.

(** One step of a registration of [name] with [face]: the store stays
    parallel, no other user's template moves, and every pair of the store
    was a pair before or is the one being enrolled. *)
Definition face_step (name : string) (face : option encoding)
           (f f' : face_store) : Prop :=
  parallel f'
  /\ others name (templates f') = others name (templates f)
  /\ forall p, In p (templates f') ->
               In p (templates f) \/ Some p = option_map (pair name) face.

Definition face_ok {A} (name : string) (face : option encoding) (m : M A) : Prop :=
  forall st, parallel (face_data st) ->
             face_step name face (face_data st) (face_data (snd (m st))).

(** Every pickled face store on disk has parallel lists. *)
Definition disk_parallel (d : disk) : Prop :=
  forall p f, read_at d p = Some (Pickle f) -> parallel f.

Definition pickle_parallel (b : option blob) : Prop :=
  forall f, b = Some (Pickle f) -> parallel f.

(** A computation that keeps the files well-formed whenever the store in
    memory is. *)
Definition disk_ok {A} (m : M A) : Prop :=
  forall st, parallel (face_data st) -> disk_parallel (fs st) ->
             disk_parallel (fs (snd (m st))).

(** The four rejections that come before any write: an empty username, a
    username already registered, an embedding that has not 128 entries, and
    no authentication method (no password, or an empty one, and no face). *)
Definition rejected_before_persistence (st : state) (name : string)
           (password : option string) (face : option encoding) : Prop :=
  name = ""
  \/ existsb (fun u => username u =? name) (users (data st)) = true
  \/ (exists e, face = Some e /\ List.length e <> 128%nat)
  \/ (truthy_opt password = false /\ face = None).

Definition empty_document : document := mkDocument [] [] [] [] [] [].
Definition empty_disk : disk := mkDisk None None None None.
(** A freshly started process on an empty disk, with the I/O failures [fl]
    ahead. *)
Definition fresh_state (fl : list bool) : state :=
  mkState empty_document empty_face_store 0 None None empty_disk fl.

Definition alice_pw : state :=
  snd (register_user "alice" (Some "longpassword1") None "2024-01-01T00:00:00"
                     (fresh_state [true])).

Definition alice_registered : state :=
  snd (TraditionalAuthenticator.register_user "alice" "longpassword1" "2024-01-01T00:00:00"
                                 (fresh_state [])).

Definition old_document : json :=
  JDict [("income", JList [JInt 100]); ("expenses", JList []);
         ("categories", JList [JStr "Food"]); ("budget", JDict []);
         ("goals", JList []); ("users", JList [])].

(** The data file holds [old_document]; the fifth system call of the next
    [save_data], [os.rename], is going to fail. *)
Definition before_rename_failure : state :=
  mkState empty_document empty_face_store 0 None None
          (mkDisk (Some (Json old_document)) None None None)
          [false; false; false; false; true].

(** The digest the registry keeps for a plaintext password: the
    authenticator's digest, hashed again by the database with pepper and
    salt. *)
Definition stored_digest (salt pw : string) : string :=
  Sha256.hexdigest
    ((Sha256.hexdigest ("finnova_salt_" ++ pw ++ "_secret_pepper")%string
      ++ pepper ++ salt)%string).

(** A document with the six keys, each of its expected type. *)
Definition well_formed (d : list (string * json)) : Prop :=
  forall k t, In (k, t) required_keys ->
              exists v, dict_get d k = Some v /\ isinstance v t = true.

Definition food_twice : list (string * json) :=
  [("income", JList []); ("expenses", JList []);
   ("categories", JList [JStr "Food"; JStr "Food"]);
   ("budget", JDict []); ("goals", JList []); ("users", JList [])].

(** Every entry is a finite float: none is rounded to an infinity. *)
Definition finite_entries (e : encoding) : Prop :=
  forall q, In q e -> is_finite (to_float q) = true.



(** Every float of the list is [+0.0]. *)
Definition all_zero (l : list float) : Prop :=
  forall d, In d l -> d = S754_zero false.

(** The place of a float that is not NaN in the order of the comparisons:
    first by sign class, then by exponent, then by mantissa, the last two
    reversed below zero. *)
Definition key (x : float) : Z * Z * Z :=
  match x with
  | S754_nan => (0, 0, 0)
  | S754_zero _ => (0, 0, 0)
  | S754_infinity true => (-2, 0, 0)
  | S754_infinity false => (2, 0, 0)
  | S754_finite true m e => (-1, - e, - Zpos m)
  | S754_finite false m e => (1, e, Zpos m)
  end%Z.

Definition key_le (a b : Z * Z * Z) : Prop :=
  match a, b with
  | (a1, a2, a3), (b1, b2, b3) =>
      (a1 < b1 \/ (a1 = b1 /\ (a2 < b2 \/ (a2 = b2 /\ a3 <= b3))))%Z
  end.

Definition zeros : encoding := repeat (0 : Q) 128.
Definition axis (x : Q) : encoding := x :: repeat (0 : Q) 127.

(** A template left in the store for "ghost", who has no account: the
    registration failed at the face-template save, whose handler (lines
    214-218) takes the record out of [users] and leaves the two entries
    appended to the face store. *)
Definition ghost_state : state :=
  snd (register_user "ghost" None (Some zeros) "2024-01-01T00:00:00"
                     (fresh_state [true])).

(** "bob" enrolled with a template at distance exactly 0.4 from [zeros]. *)
Definition bob_at_login_tolerance : state :=
  snd (register_user "bob" None (Some (axis (4 # 10))) "2024-01-01T00:00:00"
                     (fresh_state [])).

(** "alice" and "bob" enrolled with templates 0.38 apart, which the
    duplicate check (0.35) lets pass; the probe is bob's own template. *)
Definition near_duplicates : state :=
  snd (register_user "bob" None (Some zeros) "2024-01-02T00:00:00"
         (snd (register_user "alice" None (Some (axis (38 # 100))) "2024-01-01T00:00:00"
                             (fresh_state [])))).

(** The type [load_data] expects under a key, if any. *)
Definition expected_type (k : string) : option pytype :=
  option_map snd (find (fun kt => k =? fst kt) required_keys).

(** What the repair loop leaves under a required key. *)
Definition repaired (d : list (string * json)) (k : string) (t : pytype) : json :=
  match dict_get d k with
  | Some v => if isinstance v t then v else empty_of t
  | None => empty_of t
  end.

Definition list_items (o : option json) : list json :=
  match o with Some (JList l) => l | _ => [] end.

(** What [load_data] makes of a dict it has read. *)
Definition healed (set_list : list string -> list string) (py_str : json -> string)
           (d : list (string * json)) : json :=
  JDict (dict_set (repair d) "categories"
                  (JList (normalise_categories set_list py_str
                            (list_items (dict_get (repair d) "categories"))))).

(** The document a call of [save_data] writes. *)
Definition data_to_save (arg : option json) (st : state) : json :=
  match arg with
  | Some j => j
  | None => json_of_document (data st)
  end.

(** The dict [add_transaction] hands to [save_data], from the dict [h] that
    [load_data] returned, its list [l] under the transaction type and its
    categories [cs]. *)
Definition with_transaction (transaction_type : string)
           (transaction_data h : list (string * json)) (l cs : list json)
  : list (string * json) :=
  let d := dict_set h transaction_type (JList (l ++ [JDict transaction_data])) in
  match (if transaction_type =? "expenses"
         then dict_get transaction_data "category" else None) with
  | Some category =>
      if in_categories category cs then d
      else dict_set d "categories" (JList (cs ++ [category]))
  | None => d
  end.

(** The record [register_user] builds (lines 180-192). *)
Definition new_user (st : state) (name : string) (password : option string)
           (face : option encoding) (now : string) : user :=
  mkUser name
         (if truthy_opt password
          then hash_with_salt (getenv_salt st) password else None)
         face now
         ((if truthy_opt password then ["password"%string] else [])
          ++ (if is_some face then ["face"%string] else [])).

Definition with_user (u : user) (st : state) : state :=
  set_data (mkDocument (income (data st)) (expenses (data st)) (categories (data st))
                       (budget (data st)) (goals (data st))
                       (users (data st) ++ [u])) st.

Definition with_template (name : string) (face : option encoding) (st : state) : state :=
  match face with
  | Some e => set_face_data (mkFaceStore (encodings (face_data st) ++ [e])
                                         (usernames (face_data st) ++ [name])) st
  | None => st
  end.

(** * Frame facts: what a computation leaves alone *)

Section Keeps.
Context {X : Type} (proj : state -> X).

Lemma keeps_ret {A} (a : A) : keeps proj (ret a).
Proof. intro st; reflexivity. Qed.

Lemma keeps_raise {A} (e : exn) : keeps proj (@raise A e).
Proof. intro st; reflexivity. Qed.

Lemma keeps_gets {A} (f : state -> A) : keeps proj (gets f).
Proof. intro st; reflexivity. Qed.

Lemma keeps_bind {A B} (m : M A) (k : A -> M B) :
  keeps proj m -> (forall a, keeps proj (k a)) -> keeps proj (bind m k).
Proof.
  intros Hm Hk st. unfold bind. specialize (Hm st).
  destruct (m st) as [[a | e] st']; simpl in *.
  - rewrite Hk. exact Hm.
  - exact Hm.
Qed.

Lemma keeps_attempt {A} (m : M A) : keeps proj m -> keeps proj (attempt m).
Proof.
  intros Hm st. unfold attempt. specialize (Hm st).
  destruct (m st) as [r st']. exact Hm.
Qed.

Lemma keeps_if {A} (b : bool) (m1 m2 : M A) :
  keeps proj m1 -> keeps proj m2 -> keeps proj (if b then m1 else m2).
Proof. destruct b; auto. Qed.

Lemma keeps_modify (f : state -> state) :
  (forall st, proj (f st) = proj st) -> keeps proj (modify f).
Proof. intros H st. apply H. Qed.
End Keeps.

Create HintDb keeps.

Ltac keeps_tac :=
  repeat first
    [ solve [auto with keeps nocore]
    | apply keeps_ret | apply keeps_raise | apply keeps_gets
    | apply keeps_attempt | apply keeps_modify; intros; reflexivity
    | apply keeps_bind; [| intros ?]
    | apply keeps_if
    | match goal with
      | |- keeps _ (match ?x with _ => _ end) => destruct x
      end ].

Lemma keeps_fallible : keeps in_memory fallible.
Proof.
  intro st. unfold fallible, bind, next_fault.
  destruct (faults st) as [| [|] t]; reflexivity.
Qed.
#[local] Hint Resolve keeps_fallible : keeps.

Lemma keeps_put_file p b : keeps in_memory (put_file p b).
Proof. intro st. reflexivity. Qed.
#[local] Hint Resolve keeps_put_file : keeps.

Lemma keeps_os_path_exists p : keeps in_memory (os_path_exists p).
Proof. intro st. reflexivity. Qed.
#[local] Hint Resolve keeps_os_path_exists : keeps.

Lemma keeps_os_remove p : keeps in_memory (os_remove p).
Proof. unfold os_remove. keeps_tac. Qed.
#[local] Hint Resolve keeps_os_remove : keeps.

Lemma keeps_os_rename p q : keeps in_memory (os_rename p q).
Proof. unfold os_rename. keeps_tac. Qed.
#[local] Hint Resolve keeps_os_rename : keeps.

Lemma keeps_open_w p : keeps in_memory (open_w p).
Proof. unfold open_w. keeps_tac. Qed.
#[local] Hint Resolve keeps_open_w : keeps.

Lemma keeps_dump p b : keeps in_memory (dump p b).
Proof. unfold dump. keeps_tac. Qed.
#[local] Hint Resolve keeps_dump : keeps.

Lemma keeps_os_makedirs : keeps in_memory os_makedirs.
Proof. exact keeps_fallible. Qed.
#[local] Hint Resolve keeps_os_makedirs : keeps.

Lemma keeps_notify_callbacks : keeps in_memory notify_callbacks.
Proof. intro st. reflexivity. Qed.
#[local] Hint Resolve keeps_notify_callbacks : keeps.

Lemma keeps_save_face_data : keeps in_memory save_face_data.
Proof. unfold save_face_data. keeps_tac. Qed.

Lemma keeps_save_data arg : keeps in_memory (save_data arg).
Proof. unfold save_data. keeps_tac. Qed.

Lemma keeps_in_memory_face {A} (m : M A) : keeps in_memory m -> keeps face_data m.
Proof. intros H st. specialize (H st). unfold in_memory in H. congruence. Qed.

Lemma keeps_in_memory_data {A} (m : M A) : keeps in_memory m -> keeps data m.
Proof. intros H st. specialize (H st). unfold in_memory in H. congruence. Qed.

(** * The parallel lists of the face-template store *)

Lemma pop_length {A} (l l' : list A) i :
  pop l i = Some l' -> (i < List.length l)%nat /\ List.length l = S (List.length l').
Proof.
  revert l' i. induction l as [| x t IH]; intros l' i H; [discriminate |].
  destruct i as [| i]; simpl in H.
  - injection H as <-. simpl. lia.
  - destruct (pop t i) as [t' |] eqn:E; [| discriminate].
    injection H as <-. apply IH in E. simpl. lia.
Qed.

Lemma pop_some {A} (l : list A) i : (i < List.length l)%nat -> exists l', pop l i = Some l'.
Proof.
  revert i. induction l as [| x t IH]; intros i H; simpl in H; [lia |].
  destruct i as [| i]; simpl; [eauto |].
  destruct (IH i) as [t' E]; [lia |]. rewrite E. eauto.
Qed.

Lemma index_of_nth name l i : index_of name l = Some i -> nth_error l i = Some name.
Proof.
  revert i. induction l as [| x t IH]; intros i H; simpl in H; [discriminate |].
  destruct (String.eqb_spec x name) as [-> | _].
  - injection H as <-. reflexivity.
  - destruct (index_of name t) as [j |]; [| discriminate].
    injection H as <-. simpl. auto.
Qed.

Lemma index_of_existsb name l :
  existsb (fun x => x =? name) l = true -> exists i, index_of name l = Some i.
Proof.
  induction l as [| x t IH]; simpl; [discriminate |].
  destruct (x =? name); simpl; [eauto |].
  intro H. destruct (IH H) as [i ->]. eauto.
Qed.

(** Popping one position of both lists pops that pair, and the pairs of
    the users with another name stay as they are. *)
Lemma pop_pair_others name (us us' : list string) (es es' : list encoding) i :
  nth_error us i = Some name ->
  pop us i = Some us' -> pop es i = Some es' ->
  others name (combine us' es') = others name (combine us es).
Proof.
  revert us' es es' i. induction us as [| u t IH]; intros us' es es' i Hn Hu He.
  - discriminate.
  - destruct es as [| e et]; [discriminate |].
    destruct i as [| i]; simpl in *.
    + injection Hn as ->. injection Hu as <-. injection He as <-.
      rewrite String.eqb_refl. reflexivity.
    + destruct (pop t i) as [t' |] eqn:Et; [| discriminate].
      destruct (pop et i) as [et' |] eqn:Ee; [| discriminate].
      injection Hu as <-. injection He as <-. simpl.
      rewrite (IH t' et et' i Hn Et Ee). reflexivity.
Qed.

Lemma pop_pair_incl (us us' : list string) (es es' : list encoding) i p :
  pop us i = Some us' -> pop es i = Some es' ->
  In p (combine us' es') -> In p (combine us es).
Proof.
  revert us' es es' i. induction us as [| u t IH]; intros us' es es' i Hu He Hin.
  - discriminate.
  - destruct es as [| e et]; [discriminate |].
    destruct i as [| i]; simpl in *.
    + injection Hu as <-. injection He as <-. right. exact Hin.
    + destruct (pop t i) as [t' |] eqn:Et; [| discriminate].
      destruct (pop et i) as [et' |] eqn:Ee; [| discriminate].
      injection Hu as <-. injection He as <-. simpl in Hin.
      destruct Hin as [<- | Hin]; [left; reflexivity | right; eauto].
Qed.

Lemma combine_snoc {A B} (l : list A) (l' : list B) a b :
  List.length l = List.length l' ->
  combine (l ++ [a]) (l' ++ [b]) = combine l l' ++ [(a, b)].
Proof.
  revert l'. induction l as [| x t IH]; intros [| y t'] H; simpl in *;
    try discriminate; [reflexivity |].
  rewrite IH by lia. reflexivity.
Qed.

Lemma others_snoc name l e : others name (l ++ [(name, e)]) = others name l.
Proof.
  unfold others. rewrite filter_app. simpl. rewrite String.eqb_refl. simpl.
  apply app_nil_r.
Qed.

Section FaceStore.
(** The registration under way: of [name], with [face]. *)
Variable name : string.
Variable face : option encoding.

Lemma face_step_refl f : parallel f -> face_step name face f f.
Proof. intro H; split; [exact H | split; [reflexivity | auto]]. Qed.

Lemma face_step_trans f g h :
  face_step name face f g -> face_step name face g h -> face_step name face f h.
Proof.
  intros (_ & H1 & I1) (H2 & H3 & I2). split; [exact H2 |]. split; [congruence |].
  intros p Hp. destruct (I2 p Hp) as [Hg | Hnew]; auto.
Qed.

Lemma face_ok_keeps {A} (m : M A) : keeps face_data m -> face_ok name face m.
Proof. intros H st Hp. rewrite H. apply face_step_refl, Hp. Qed.

Lemma face_ok_bind {A B} (m : M A) (k : A -> M B) :
  face_ok name face m -> (forall a, face_ok name face (k a)) -> face_ok name face (bind m k).
Proof.
  intros Hm Hk st Hp. unfold bind. specialize (Hm st Hp).
  destruct (m st) as [[a | e] st']; simpl in *.
  - eapply face_step_trans; [exact Hm |]. apply Hk, Hm.
  - exact Hm.
Qed.

Lemma face_ok_attempt {A} (m : M A) : face_ok name face m -> face_ok name face (attempt m).
Proof.
  intros Hm st Hp. unfold attempt. specialize (Hm st Hp).
  destruct (m st) as [r st']. exact Hm.
Qed.

Lemma face_ok_save_face_data : face_ok name face save_face_data.
Proof. apply face_ok_keeps, keeps_in_memory_face, keeps_save_face_data. Qed.

Lemma face_ok_save_data arg : face_ok name face (save_data arg).
Proof. apply face_ok_keeps, keeps_in_memory_face, keeps_save_data. Qed.

Lemma face_ok_set_users us : face_ok name face (set_users us).
Proof. apply face_ok_keeps. intro st. reflexivity. Qed.

(** The rollback pops the same position of both lists. *)
Lemma face_ok_rollback_face : face_ok name face (rollback_face name face).
Proof.
  intros st Hp. unfold rollback_face, bind at 1, gets. simpl.
  destruct (is_some face && existsb (fun x => x =? name) (usernames (face_data st)))
    eqn:Hc; simpl; [| apply face_step_refl, Hp].
  destruct (index_of name (usernames (face_data st))) as [idx |] eqn:Hi; simpl;
    [| apply face_step_refl, Hp].
  pose proof (index_of_nth _ _ _ Hi) as Hn.
  unfold bind at 1, pop_usernames, bind at 1, gets. simpl.
  destruct (pop (usernames (face_data st)) idx) as [us' |] eqn:Hu; simpl;
    [| apply face_step_refl, Hp].
  unfold bind at 1, pop_encodings, bind at 1, gets. simpl.
  destruct (pop_length _ _ _ Hu) as [Hlt Hlen].
  destruct (pop_some (encodings (face_data st)) idx) as [es' He];
    [rewrite Hp; exact Hlt |].
  rewrite He. simpl.
  match goal with
  | |- face_step _ _ _ (face_data (snd (bind save_face_data ?k ?s))) =>
      assert (Hk : keeps face_data (bind save_face_data k))
        by (apply keeps_bind; [apply keeps_in_memory_face, keeps_save_face_data
                              | intro; apply keeps_ret]);
      rewrite (Hk s)
  end.
  simpl. split; [| split].
  - unfold parallel; simpl. apply pop_length in He. unfold parallel in Hp. lia.
  - unfold templates; simpl. eapply pop_pair_others; eauto.
  - unfold templates; simpl. intros p Hin. left.
    eapply pop_pair_incl; eauto.
Qed.

(** The enrolment appends to both lists. *)
Lemma face_ok_enrol fc :
  (forall e, fc = Some e -> face = Some e) ->
  face_ok name face (enrol_face name fc).
Proof.
  intros Hfc st Hp. unfold enrol_face.
  destruct fc as [e |]; [specialize (Hfc e eq_refl) | apply face_step_refl, Hp].
  unfold bind at 1, attempt, bind at 1, modify at 1, bind at 1, modify at 1. simpl.
  match goal with
  | |- context [bind save_face_data ?k ?s] =>
      assert (Hk : keeps face_data (bind save_face_data k))
        by (apply keeps_bind; [apply keeps_in_memory_face, keeps_save_face_data
                              | intros []; [apply keeps_ret | apply keeps_raise]]);
      pose proof (Hk s) as Hs;
      destruct (bind save_face_data k s) as [r s']
  end.
  simpl in Hs.
  assert (Hstep : face_step name face (face_data st) (face_data s')).
  { rewrite Hs. split; [| split].
    - unfold parallel in *; simpl. rewrite !length_app. simpl. lia.
    - unfold templates; simpl. rewrite combine_snoc by (symmetry; exact Hp).
      apply others_snoc.
    - unfold templates; simpl. rewrite combine_snoc by (symmetry; exact Hp).
      intros p Hin. apply in_app_or in Hin. destruct Hin as [Hin | [<- | []]].
      + left. exact Hin.
      + right. rewrite Hfc. reflexivity. }
  destruct r as [[] | ex]; simpl; exact Hstep.
Qed.

Lemma face_ok_enrol_face : face_ok name face (enrol_face name face).
Proof. apply face_ok_enrol. auto. Qed.

Lemma face_ok_ret {A} (a : A) : face_ok name face (ret a).
Proof. apply face_ok_keeps, keeps_ret. Qed.

Lemma face_ok_gets {A} (f : state -> A) : face_ok name face (gets f).
Proof. apply face_ok_keeps, keeps_gets. Qed.

Lemma face_ok_hash p : face_ok name face (_hash_password p).
Proof.
  apply face_ok_keeps. unfold _hash_password.
  apply keeps_bind; [apply keeps_gets | intro; apply keeps_ret].
Qed.

Lemma face_ok_user_exists n : face_ok name face (user_exists n).
Proof. apply face_ok_gets. Qed.

Ltac face_ok_tac :=
  repeat first
    [ apply face_ok_ret | apply face_ok_gets | apply face_ok_hash
    | apply face_ok_user_exists
    | apply face_ok_save_data | apply face_ok_save_face_data
    | apply face_ok_set_users | apply face_ok_rollback_face
    | apply face_ok_enrol_face
    | apply face_ok_attempt
    | apply face_ok_bind; [| intros ?]
    | match goal with
      | |- face_ok _ _ (if ?b then _ else _) => destruct b
      | |- face_ok _ _ (match ?x with _ => _ end) => destruct x
      end ].

Lemma face_ok_register_user password now :
  face_ok name face (register_user name password face now).
Proof. unfold register_user. face_ok_tac. Qed.

(** ** The face-template file *)

Lemma disk_parallel_write d p b :
  disk_parallel d -> pickle_parallel b -> disk_parallel (write_at d p b).
Proof.
  intros Hd Hb q f. pose proof (Hd q f) as Hq.
  destruct p, q; simpl in *; auto.
Qed.

Lemma disk_ok_keeps {A} (m : M A) : keeps fs m -> disk_ok m.
Proof. intros H st _ Hd. rewrite H. exact Hd. Qed.

Lemma disk_ok_bind {A B} (m : M A) (k : A -> M B) :
  face_ok name face m -> disk_ok m ->
  (forall a, disk_ok (k a)) -> disk_ok (bind m k).
Proof.
  intros Hf Hm Hk st Hp Hd. unfold bind.
  specialize (Hf st Hp). specialize (Hm st Hp Hd).
  destruct (m st) as [[a | e] st']; simpl in *.
  - apply Hk; [apply Hf | exact Hm].
  - exact Hm.
Qed.

Lemma disk_ok_attempt {A} (m : M A) : disk_ok m -> disk_ok (attempt m).
Proof.
  intros Hm st Hp Hd. unfold attempt. specialize (Hm st Hp Hd).
  destruct (m st) as [r st']. exact Hm.
Qed.

Lemma disk_ok_fallible : disk_ok fallible.
Proof.
  intros st _ Hd. unfold fallible, bind, next_fault.
  destruct (faults st) as [| [|] t]; exact Hd.
Qed.

Lemma disk_ok_put_file p b : pickle_parallel b -> disk_ok (put_file p b).
Proof. intros Hb st _ Hd. simpl. apply disk_parallel_write; assumption. Qed.

Lemma pickle_parallel_none : pickle_parallel None.
Proof. intros f H. discriminate. Qed.

Lemma pickle_parallel_truncated : pickle_parallel (Some Truncated).
Proof. intros f H. discriminate. Qed.

Lemma pickle_parallel_json j : pickle_parallel (Some (Json j)).
Proof. intros f H. discriminate. Qed.

Lemma pickle_parallel_pickle f : parallel f -> pickle_parallel (Some (Pickle f)).
Proof. intros Hf g H. injection H as <-. exact Hf. Qed.

Create HintDb disk.
#[local] Hint Resolve disk_ok_fallible disk_ok_put_file pickle_parallel_none
  pickle_parallel_truncated pickle_parallel_json pickle_parallel_pickle : disk.

Lemma face_ok_in_memory {A} (m : M A) : keeps in_memory m -> face_ok name face m.
Proof. intro H. apply face_ok_keeps, keeps_in_memory_face, H. Qed.

(** Splits a computation along its binds; the system calls leave the
    store in memory alone, which settles their [face_ok] side. *)
Ltac disk_tac :=
  repeat first
    [ solve [auto with disk nocore]
    | solve [apply face_ok_in_memory; keeps_tac]
    | solve [face_ok_tac]
    | apply disk_ok_keeps; solve [intro; reflexivity]
    | apply disk_ok_attempt
    | apply disk_ok_bind; [| | intros ?]
    | match goal with
      | |- disk_ok (if ?b then _ else _) => destruct b
      | |- disk_ok (match ?x with _ => _ end) => destruct x
      end ].

Lemma disk_ok_os_remove p : disk_ok (os_remove p).
Proof. unfold os_remove, os_path_exists. disk_tac. Qed.

Lemma disk_ok_open_w p : disk_ok (open_w p).
Proof. unfold open_w. disk_tac. Qed.

Lemma disk_ok_dump p b : pickle_parallel (Some b) -> disk_ok (dump p b).
Proof. intro H. unfold dump. disk_tac. Qed.

Lemma disk_ok_os_rename p q : disk_ok (os_rename p q).
Proof.
  intros st Hp Hd. unfold os_rename, bind at 1, gets. simpl.
  destruct (read_at (fs st) p) as [b |] eqn:Hb; [| exact Hd].
  assert (Hbp : pickle_parallel (Some b)).
  { intros f Hf. injection Hf as ->. exact (Hd p f Hb). }
  revert st Hp Hd Hb.
  change (forall st : state, parallel (face_data st) -> disk_parallel (fs st) ->
          read_at (fs st) p = Some b ->
          disk_parallel (fs (snd ((fallible ;; put_file q (Some b) ;; put_file p None) st)))).
  intros st Hp Hd _. revert st Hp Hd.
  change (disk_ok (fallible ;; put_file q (Some b) ;; put_file p None)).
  disk_tac.
Qed.

#[local] Hint Resolve disk_ok_os_remove disk_ok_open_w disk_ok_dump disk_ok_os_rename
  : disk.

Lemma disk_ok_save_data arg : disk_ok (save_data arg).
Proof. unfold save_data, os_makedirs, os_path_exists, notify_callbacks. disk_tac. Qed.

Lemma disk_ok_gets_bind {A B} (g : state -> A) (k : A -> M B) :
  (forall st, parallel (face_data st) -> disk_parallel (fs st) ->
              disk_parallel (fs (snd (k (g st) st)))) ->
  disk_ok (bind (gets g) k).
Proof. intros H st Hp Hd. unfold bind, gets. apply H; assumption. Qed.

(** [save_face_data] pickles the store in memory, which is parallel. *)
Lemma disk_ok_save_face_data : disk_ok save_face_data.
Proof.
  unfold save_face_data, os_makedirs.
  apply disk_ok_bind; [apply face_ok_in_memory; keeps_tac | disk_tac |].
  intros [_ | e0]; [| apply disk_ok_keeps; intro; reflexivity].
  apply disk_ok_gets_bind. intros st Hp Hd.
  remember (face_data st) as f eqn:Hf in |- *.
  assert (Hpf : pickle_parallel (Some (Pickle f)))
    by (apply pickle_parallel_pickle; rewrite Hf; exact Hp).
  clear Hf.
  match goal with
  | |- disk_parallel (fs (snd (?m st))) =>
      assert (H : disk_ok m) by (unfold os_path_exists; disk_tac);
      apply H; assumption
  end.
Qed.

#[local] Hint Resolve disk_ok_save_data disk_ok_save_face_data : disk.

Lemma disk_ok_rollback_face : disk_ok (rollback_face name face).
Proof.
  intros st Hp Hd. unfold rollback_face, bind at 1, gets. simpl.
  destruct (is_some face && existsb (fun x => x =? name) (usernames (face_data st)));
    simpl; [| exact Hd].
  destruct (index_of name (usernames (face_data st))) as [idx |]; simpl; [| exact Hd].
  unfold bind at 1, pop_usernames, bind at 1, gets. simpl.
  destruct (pop (usernames (face_data st)) idx) as [us' |] eqn:Hu; simpl; [| exact Hd].
  unfold bind at 1, pop_encodings, bind at 1, gets. simpl.
  destruct (pop (encodings (face_data st)) idx) as [es' |] eqn:He; simpl; [| exact Hd].
  match goal with
  | |- disk_parallel (fs (snd (bind save_face_data ?k ?s))) =>
      assert (Hdk : disk_ok (bind save_face_data k))
        by (apply disk_ok_bind;
            [apply face_ok_save_face_data | apply disk_ok_save_face_data
            | intro; apply disk_ok_keeps; intro; reflexivity]);
      apply Hdk; [| exact Hd]
  end.
  unfold parallel in *; simpl.
  apply pop_length in Hu, He. lia.
Qed.

Lemma disk_ok_enrol_face fc : disk_ok (enrol_face name fc).
Proof.
  intros st Hp Hd. unfold enrol_face. destruct fc as [e |]; [| exact Hd].
  unfold bind at 1, attempt, bind at 1, modify at 1, bind at 1, modify at 1. simpl.
  match goal with
  | |- context [bind save_face_data ?k ?s] =>
      assert (Hdk : disk_ok (bind save_face_data k))
        by (apply disk_ok_bind;
            [apply face_ok_save_face_data | apply disk_ok_save_face_data
            | intros []; apply disk_ok_keeps; intro; reflexivity]);
      assert (Hs : disk_parallel (fs (snd (bind save_face_data k s))));
      [ apply Hdk; [| exact Hd] | destruct (bind save_face_data k s) as [r s'] ]
  end.
  - unfold parallel in *; simpl. rewrite !length_app. simpl. lia.
  - simpl in Hs. destruct r as [[] | ex]; simpl; exact Hs.
Qed.

#[local] Hint Resolve disk_ok_rollback_face disk_ok_enrol_face : disk.

Lemma disk_ok_register_user password now :
  disk_ok (register_user name password face now).
Proof.
  unfold register_user, user_exists, _hash_password, set_users.
  disk_tac.
Qed.

End FaceStore.

(** [load_face_data] never raises, and what it returns is parallel when the
    files are. *)
Lemma load_face_data_parallel st :
  disk_parallel (fs st) ->
  exists f, fst (load_face_data st) = Ok f /\ parallel f.
Proof.
  intro Hd.
  assert (Hload : forall g, at_face (fs st) = Some (Pickle g) -> parallel g)
    by (intros g Hg; exact (Hd FACE_DATA_FILE g Hg)).
  destruct st as [d f n cu es [a at_ fa ft] fl]. simpl in Hload. clear Hd.
  destruct fa as [[j | g | |] |]; destruct fl as [| [|] t]; cbn;
    eexists; (split; [reflexivity |]);
    first [apply Hload; reflexivity | reflexivity].
Qed.

(** C10: [register_user] keeps the two lists of the face-template store of
    equal length, on every path and under every pattern of I/O failure:
    the enrolment appends to both, each rollback pops the same index of
    both. Entry by entry the lists stay in correspondence: the (username,
    encoding) pairs of all other users stay as they are, in their order,
    and every pair of the store was a pair before or is the one enrolled.
    Every face store written to disk is parallel too, and so is what
    [load_face_data] then returns. *)
Theorem register_user_keeps_lists_parallel :
  forall (st : state) (name : string) (password : option string)
         (face : option encoding) (now : string),
    parallel (face_data st) ->
    disk_parallel (fs st) ->
    let st' := snd (register_user name password face now st) in
    let f' := face_data st' in
    List.length (encodings f') = List.length (usernames f')
    /\ others name (templates f') = others name (templates (face_data st))
    /\ (forall p, In p (templates f') ->
                  In p (templates (face_data st))
                  \/ Some p = option_map (pair name) face)
    /\ disk_parallel (fs st')
    /\ forall fl, exists f,
         fst (load_face_data (set_faults fl st')) = Ok f
         /\ List.length (encodings f) = List.length (usernames f).
Proof.
  intros st name password face now Hp Hd st' f'.
  destruct (face_ok_register_user name face password now st Hp) as (Hp' & Ho & Hin).
  pose proof (disk_ok_register_user name face password now st Hp Hd) as Hd'.
  repeat split; try assumption.
  intro fl. apply load_face_data_parallel. exact Hd'.
Qed.

Lemma empty_disk_parallel : disk_parallel empty_disk.
Proof. intros [] f H; discriminate H. Qed.

(** "bob" enrols a face; the face file is written, then the account save
    fails at [os.makedirs] and the enrolment is popped again. *)
Lemma register_user_keeps_lists_parallel_witness :
  let st' := snd (register_user "bob" None (Some zeros) "2024-01-01T00:00:00"
                                (fresh_state [false; false; false; false; true])) in
  List.length (encodings (face_data st')) = List.length (usernames (face_data st'))
  /\ others "bob" (templates (face_data st')) = []
  /\ disk_parallel (fs st').
Proof.
  destruct (register_user_keeps_lists_parallel
              (fresh_state [false; false; false; false; true]) "bob" None
              (Some zeros) "2024-01-01T00:00:00" eq_refl empty_disk_parallel)
    as (Hlen & Hothers & _ & Hdisk & _).
  exact (conj Hlen (conj Hothers Hdisk)).
Defined.

(** * Validation *)

(** C8: a registration that fails validation (empty username, embedding
    of a length other than 128, no authentication method) or names a user
    that exists returns [False] and leaves the whole state as it was: the
    records, the face store, the files, and the I/O still to come, so no
    save was attempted. *)
Theorem register_user_rejects_without_effect :
  forall (st : state) (name : string) (password : option string)
         (face : option encoding) (now : string),
    rejected_before_persistence st name password face ->
    register_user name password face now st = (Ok false, st).
Proof.
  intros st name password face now H.
  unfold register_user.
  destruct (truthy_str name) eqn:Hn; simpl; [| reflexivity].
  unfold bind at 1, user_exists, gets. cbv beta iota.
  destruct (existsb (fun u => username u =? name) (users (data st))) eqn:Hex;
    [reflexivity |].
  destruct H as [-> | [H | [[e [-> He]] | [Hpw ->]]]].
  - discriminate Hn.
  - congruence.
  - apply Nat.eqb_neq in He. unfold bind, attempt. rewrite He. reflexivity.
  - unfold bind, attempt. rewrite Hpw. reflexivity.
Qed.

(** Scenario C: "carol" with an embedding of 127 numbers. *)
Lemma register_user_rejects_without_effect_witness :
  register_user "carol" None (Some (repeat (0 : Q) 127)) "2024-01-01T00:00:00"
                (fresh_state [])
  = (Ok false, fresh_state []).
Proof.
  apply (register_user_rejects_without_effect (fresh_state []) "carol" None
           (Some (repeat (0 : Q) 127)) "2024-01-01T00:00:00").
  right. right. left. exists (repeat (0 : Q) 127). split.
  - reflexivity.
  - rewrite repeat_length. discriminate.
Defined.

(** * Rollback on a failed save *)

(** C1 fails on the code: when [save_data] returns [False] (here
    [os.makedirs] raises), [register_user] returns [False] and rolls back
    the face store only; the record appended to [users] stays, so the user
    exists and has the password method although nothing was written. When
    it is the face-template save that fails, the user is gone afterwards,
    but the template appended for it stays in the store in memory. *)
Theorem register_user_failed_account_save_keeps_user :
  fst (register_user "alice" (Some "longpassword1") None "2024-01-01T00:00:00"
                     (fresh_state [true])) = Ok false
  /\ at_data (fs alice_pw) = None
  /\ fst (user_exists "alice" alice_pw) = Ok true
  /\ fst (get_user_auth_methods "alice" alice_pw) = Ok ["password"]
  /\ fst (user_exists "ghost" ghost_state) = Ok false
  /\ usernames (face_data ghost_state) = ["ghost"].
Proof. vm_compute. repeat split. Qed.

(** In general: a password-only registration whose [save_data] returns
    [False] keeps the appended record. *)
Lemma register_user_keeps_user_when_save_data_fails :
  forall (st : state) (name pw now : string),
    truthy_str name = true ->
    truthy_str pw = true ->
    existsb (fun u => username u =? name) (users (data st)) = false ->
    let u := mkUser name (hash_with_salt (getenv_salt st) (Some pw)) None now
                    ["password"] in
    let st1 := snd (set_users (users (data st) ++ [u]) st) in
    fst (save_data None st1) = Ok false ->
    fst (register_user name (Some pw) None now st) = Ok false
    /\ users (data (snd (register_user name (Some pw) None now st)))
       = users (data st) ++ [u].
Proof.
  intros st name pw now Hn Hpw Hex u st1 Hsave.
  assert (E : register_user name (Some pw) None now st
              = (Ok false, snd (save_data None st1))).
  { cbv beta iota zeta
        delta [register_user bind attempt user_exists gets ret _hash_password
               set_users modify enrol_face rollback_face is_some truthy_opt].
    rewrite Hn; cbn [negb]; cbv beta iota.
    rewrite Hex; cbv beta iota.
    rewrite Hpw; cbn [app]; cbv beta iota zeta.
    change (set_data _ st) with st1.
    destruct (save_data None st1) as [[[] | e] st2]; simpl in Hsave;
      try discriminate.
    reflexivity. }
  rewrite E. simpl. split; [reflexivity |].
  rewrite (keeps_in_memory_data _ (keeps_save_data None) st1). reflexivity.
Qed.

Lemma without_user_fresh name us u :
  existsb (fun v => username v =? name) us = false ->
  username u = name ->
  without_user name (us ++ [u]) = us.
Proof.
  intros H Hu. unfold without_user. rewrite filter_app. simpl.
  rewrite Hu, String.eqb_refl. simpl. rewrite app_nil_r.
  induction us as [| v t IH]; simpl in *; [reflexivity |].
  destruct (username v =? name); [discriminate |]. simpl. rewrite IH; auto.
Qed.

(** The other order is rolled back: when the face-template save fails (it
    returns [False] or raises), the record appended to [users] is removed
    again, and the user does not exist afterwards. *)
Lemma register_user_rolls_back_when_face_save_fails :
  forall (st : state) (name : string) (password : option string)
         (e : encoding) (now : string),
    truthy_str name = true ->
    existsb (fun u => username u =? name) (users (data st)) = false ->
    List.length e = 128%nat ->
    let h := if truthy_opt password
             then hash_with_salt (getenv_salt st) password else None in
    let u := mkUser name h (Some e) now
                    ((if truthy_opt password then ["password"] else []) ++ ["face"]) in
    let st1 :=
      set_face_data (mkFaceStore (encodings (face_data st) ++ [e])
                                 (usernames (face_data st) ++ [name]))
                    (snd (set_users (users (data st) ++ [u]) st)) in
    fst (save_face_data st1) <> Ok true ->
    let st' := snd (register_user name password (Some e) now st) in
    fst (register_user name password (Some e) now st) = Ok false
    /\ users (data st') = users (data st)
    /\ fst (user_exists name st') = Ok false
    /\ fst (get_user_auth_methods name st') = Ok [].
Proof.
  intros st name password e now Hn Hex Hlen h u st1 Hsave.
  assert (E : register_user name password (Some e) now st
              = (Ok false,
                 snd (set_users (users (data st)) (snd (save_face_data st1))))
              /\ data (snd (save_face_data st1)) = data st1).
  { split; [| apply (keeps_in_memory_data _ keeps_save_face_data)].
    pose proof (keeps_in_memory_data _ keeps_save_face_data st1) as Hk.
    cbv beta iota zeta
        delta [register_user bind attempt user_exists gets ret raise _hash_password
               set_users modify enrol_face rollback_face is_some].
    rewrite Hn; cbn [negb]; cbv beta iota.
    rewrite Hex; cbv beta iota.
    rewrite Hlen. cbn [Nat.eqb negb]. cbv beta iota.
    assert (Hh : forall s : state,
               (if truthy_opt password
                then fun st0 : state => (Ok (hash_with_salt (getenv_salt st0) password), st0)
                else fun st0 : state => (Ok None, st0)) s
               = (Ok (if truthy_opt password
                      then hash_with_salt (getenv_salt s) password else None), s))
      by (intro s; destruct (truthy_opt password); reflexivity).
    rewrite Hh. cbv beta iota. fold h.
    assert (Hm : (if truthy_opt password then ["password"] else []) ++ ["face"]
                 = (hd "face" ((if truthy_opt password then ["password"] else [])
                               ++ ["face"]))
                     :: tl ((if truthy_opt password then ["password"] else [])
                            ++ ["face"]))
      by (destruct (truthy_opt password); reflexivity).
    revert Hm. fold u.
    generalize ((if truthy_opt password then ["password"] else []) ++ ["face"]) at 1 4.
    intros ms ->. cbv beta iota.
    change (set_face_data _ (set_face_data _ (set_data _ st))) with st1.
    destruct (save_face_data st1) as [[[] | ex] st2]; simpl in Hsave, Hk;
      [exfalso; apply Hsave; reflexivity | |];
      cbv beta iota; cbn [snd]; rewrite !Hk; unfold st1; simpl;
        rewrite (without_user_fresh name (users (data st)) u Hex eq_refl);
        reflexivity. }
  destruct E as [E Hd]. cbv zeta. rewrite E. simpl.
  unfold user_exists, get_user_auth_methods, bind, gets, find_user. simpl.
  rewrite Hex. repeat split.
  assert (Hf : find (fun u0 => username u0 =? name) (users (data st)) = None).
  { clear - Hex. induction (users (data st)) as [| v t IH]; simpl in *; [reflexivity |].
    destruct (username v =? name); [discriminate | auto]. }
  rewrite Hf. reflexivity.
Qed.

(** The registration of "ghost" whose face-template save fails at
    [os.makedirs]. *)
Lemma register_user_rolls_back_when_face_save_fails_witness :
  fst (register_user "ghost" None (Some zeros) "2024-01-01T00:00:00"
                     (fresh_state [true])) = Ok false
  /\ users (data ghost_state) = []
  /\ fst (user_exists "ghost" ghost_state) = Ok false
  /\ fst (get_user_auth_methods "ghost" ghost_state) = Ok [].
Proof.
  apply (register_user_rolls_back_when_face_save_fails
           (fresh_state [true]) "ghost" None zeros "2024-01-01T00:00:00");
    try reflexivity.
  vm_compute. discriminate.
Defined.

(** * The password change *)

Lemma change_password_never_succeeds :
  forall (st : state) (name old_password new_password : string),
    fst (TraditionalAuthenticator.change_password name old_password new_password st) <> Ok true.
Proof.
  intros st name old new. unfold TraditionalAuthenticator.change_password, bind at 1.
  destruct ((if truthy_str old
             then TraditionalAuthenticator.authenticate name old
             else ret true) st)
    as [[[] | e] st']; simpl; try discriminate.
  destruct (len new <? 8)%nat; simpl; discriminate.
Qed.

(** C5 fails on the code: for the registered user "alice" and her right
    old password, [change_password] raises [AttributeError] at
    [db_instance.update_user_password]; the stored record is unchanged and
    the new password does not verify. *)
Theorem change_password_raises_attribute_error :
  fst (TraditionalAuthenticator.authenticate "alice" "longpassword1" alice_registered) = Ok true
  /\ fst (TraditionalAuthenticator.change_password "alice" "longpassword1" "newpassword1"
                                      alice_registered) = Raise AttributeError
  /\ data (snd (TraditionalAuthenticator.change_password "alice" "longpassword1" "newpassword1"
                                            alice_registered))
     = data alice_registered
  /\ fst (TraditionalAuthenticator.authenticate "alice" "newpassword1" alice_registered) = Ok false.
Proof. vm_compute. repeat split. Qed.

(** * save: failure points *)

(** C6 fails on the code: when [os.rename] fails after [os.remove] took
    the data file away, [save_data] returns [False] and neither the old file
    nor the temporary one is left; [save_face_data] raises
    [UnboundLocalError] when [os.makedirs] fails; and [save_data] lets the
    [OSError] of a failing clean-up [os.remove] out, the temporary file
    staying behind. *)
Theorem save_data_failed_rename_loses_the_file :
  fst (save_data (Some default_data) before_rename_failure) = Ok false
  /\ at_data (fs before_rename_failure) = Some (Json old_document)
  /\ at_data (fs (snd (save_data (Some default_data) before_rename_failure))) = None
  /\ at_data_tmp (fs (snd (save_data (Some default_data) before_rename_failure))) = None
  /\ fst (save_face_data (fresh_state [true])) = Raise UnboundLocalError
  /\ fst (save_data (Some default_data) (fresh_state [false; false; true; true]))
     = Raise OSError
  /\ at_data_tmp (fs (snd (save_data (Some default_data)
                                     (fresh_state [false; false; true; true]))))
     = Some Truncated.
Proof. vm_compute. repeat split. Qed.

(** * Password verification *)

Lemma hexdigest_truthy s : truthy_str (Sha256.hexdigest s) = true.
Proof.
  unfold Sha256.hexdigest.
  destruct (Sha256.digest (Sha256.bytes_of_string s)) as [[[[[[[a b] c] d] e] f] g] h].
  reflexivity.
Qed.

Lemma stored_digest_truthy salt pw : truthy_str (stored_digest salt pw) = true.
Proof. apply hexdigest_truthy. Qed.

Lemma hash_of_hashed salt pw :
  truthy_str pw = true ->
  hash_with_salt salt (TraditionalAuthenticator._hash_password pw) = Some (stored_digest salt pw).
Proof.
  intro H. unfold TraditionalAuthenticator._hash_password. rewrite H.
  unfold hash_with_salt. rewrite hexdigest_truthy. reflexivity.
Qed.

Lemma find_user_fresh name us u :
  existsb (fun v => username v =? name) us = false ->
  username u = name ->
  find_user name (us ++ [u]) = Some u.
Proof.
  intros H Hu. unfold find_user. induction us as [| v t IH]; simpl in *.
  - rewrite Hu, String.eqb_refl. reflexivity.
  - destruct (username v =? name); [discriminate | auto].
Qed.

(** What a successful password registration leaves in memory. *)
Lemma traditional_register_user_success st name pw now st' :
  TraditionalAuthenticator.register_user name pw now st = (Ok true, st') ->
  truthy_str name = true /\ truthy_str pw = true
  /\ existsb (fun u => username u =? name) (users (data st)) = false
  /\ environ_salt st' = environ_salt st
  /\ users (data st')
     = users (data st)
       ++ [mkUser name (Some (stored_digest (getenv_salt st) pw)) None now ["password"]].
Proof.
  unfold TraditionalAuthenticator.register_user.
  destruct (truthy_str name) eqn:Hn; [| discriminate].
  destruct (truthy_str pw) eqn:Hpw; [| discriminate].
  cbn [negb orb].
  unfold bind at 1, user_exists at 1, gets at 1.
  destruct (existsb (fun u => username u =? name) (users (data st))) eqn:Hex;
    [discriminate |].
  cbv beta iota zeta
      delta [register_user bind attempt user_exists gets ret _hash_password
             set_users modify enrol_face rollback_face is_some].
  rewrite Hn; cbn [negb]; cbv beta iota.
  rewrite Hex; cbv beta iota.
  unfold TraditionalAuthenticator._hash_password. rewrite Hpw. cbn [truthy_opt].
  rewrite !hexdigest_truthy. cbn [app]; cbv beta iota zeta.
  unfold hash_with_salt. rewrite hexdigest_truthy.
  fold (stored_digest (getenv_salt st) pw).
  match goal with
  | |- context [save_data None ?s] =>
      pose proof (keeps_save_data None s) as Hk;
      destruct (save_data None s) as [[[] | e] st2]
  end; cbn [andb existsb]; cbv beta iota; intro H; try discriminate;
    try (match type of H with
         | context [if ?c then _ else _] => destruct c
         end; discriminate).
  injection H as <-. unfold in_memory in Hk. simpl in Hk.
  injection Hk as Hd _ _ Hsalt.
  repeat split; try assumption. rewrite Hd. reflexivity.
Qed.

Lemma save_data_none_without_faults st :
  faults st = [] ->
  save_data None st
  = (Ok true,
     mkState (data st) (face_data st) (S (notified st)) (current_user st)
             (environ_salt st)
             (mkDisk (Some (Json (json_of_document (data st)))) None
                     (at_face (fs st)) (at_face_tmp (fs st)))
             []).
Proof.
  destruct st as [dc f n cu es [a at_ fa ft] fl]. simpl. intros ->.
  destruct a; reflexivity.
Qed.





(** ** Two passwords with one digest *)













(** * Save and load *)

Lemma repair_key_id d k t v :
  dict_get d k = Some v -> isinstance v t = true -> repair_key d (k, t) = d.
Proof. intros Hg Hi. unfold repair_key. simpl. rewrite Hg, Hi. reflexivity. Qed.

Lemma repair_well_formed d : well_formed d -> repair d = d.
Proof.
  intro H. unfold repair, required_keys. simpl.
  repeat match goal with
         | |- context [repair_key d (?k, ?t)] =>
             let v := fresh "v" in
             let Hg := fresh "Hg" in
             let Hi := fresh "Hi" in
             destruct (H k t) as (v & Hg & Hi);
             [unfold required_keys; simpl; tauto |];
             rewrite (repair_key_id d k t v Hg Hi)
         end.
  reflexivity.
Qed.

(** With no I/O failure ahead, [save_data] replaces the data file, leaves
    no temporary file and notifies the observers once. *)
Lemma save_data_without_faults d st :
  faults st = [] ->
  save_data (Some (JDict d)) st
  = (Ok true,
     mkState (data st) (face_data st) (S (notified st)) (current_user st)
             (environ_salt st)
             (mkDisk (Some (Json (JDict d))) None (at_face (fs st)) (at_face_tmp (fs st)))
             []).
Proof.
  destruct st as [dc f n cu es [a at_ fa ft] fl]. simpl. intros ->.
  destruct a; reflexivity.
Qed.

Lemma dict_set_other d k k' v :
  (k' =? k) = false -> dict_get (dict_set d k v) k' = dict_get d k'.
Proof.
  intro Hne. induction d as [| [k0 v0] t IH]; simpl.
  - rewrite String.eqb_sym, Hne. reflexivity.
  - destruct (k0 =? k) eqn:E0; simpl.
    + apply String.eqb_eq in E0. subst k0.
      rewrite String.eqb_sym, Hne. reflexivity.
    + destruct (k0 =? k'); [reflexivity | exact IH].
Qed.

Lemma dict_get_set d k v v0 :
  dict_get d k = Some v0 -> dict_get (dict_set d k v) k = Some v.
Proof.
  induction d as [| [k0 w] t IH]; simpl; [discriminate |].
  destruct (k0 =? k) eqn:E; simpl; rewrite E; auto.
Qed.

Lemma dict_set_keys d k v v0 :
  dict_get d k = Some v0 -> map fst (dict_set d k v) = map fst d.
Proof.
  induction d as [| [k0 w] t IH]; simpl; [discriminate |].
  destruct (k0 =? k); simpl; [reflexivity |].
  intro H. rewrite IH by exact H. reflexivity.
Qed.

Lemma load_after_save set_list py_str d cs st :
  well_formed d ->
  dict_get d "categories" = Some (JList cs) ->
  faults st = [] ->
  fst (save_data (Some (JDict d)) st) = Ok true
  /\ fst (load_data set_list py_str (snd (save_data (Some (JDict d)) st)))
     = Ok (JDict (dict_set d "categories"
                           (JList (normalise_categories set_list py_str cs)))).
Proof.
  intros Hwf Hcs Hf.
  rewrite (save_data_without_faults _ _ Hf). simpl fst. simpl snd.
  split; [reflexivity |].
  cbv beta iota zeta
      delta [load_data bind attempt os_path_exists gets ret json_load fallible
             next_fault read_at fs at_data faults fst snd].
  rewrite (repair_well_formed d Hwf), Hcs. reflexivity.
Qed.

(** The normalised list holds each string once: the [str] of every truthy
    entry, and nothing else. *)
Lemma normalise_categories_spec set_list py_str cs :
  set_order set_list ->
  exists l, normalise_categories set_list py_str cs = map JStr l
            /\ NoDup l
            /\ forall x, In x l <->
                         exists c, In c cs /\ truthy c = true /\ str py_str c = x.
Proof.
  intro Hord. unfold normalise_categories.
  destruct (Hord (map (str py_str) (filter truthy cs))) as [Hnd Hin].
  eexists. split; [reflexivity |]. split; [exact Hnd |].
  intro x. rewrite Hin, in_map_iff. split.
  - intros (c & Hc & Hf). apply filter_In in Hf. destruct Hf. eauto.
  - intros (c & Hc & Ht & Hx). exists c. split; [exact Hx |].
    apply filter_In. auto.
Qed.

(** C2 (as amended): a well-formed document that is saved and loaded back,
    with no I/O failure, comes back with every key in its place and every
    value but that of "categories" unchanged; the categories come back as
    [list({str(c) for c in categories if c})]: the string of every truthy
    entry, once each, in the iteration order of a set. *)
Theorem save_then_load_normalises_categories :
  forall (set_list : list string -> list string) (py_str : json -> string)
         (d : list (string * json)) (cs : list json) (st : state),
    well_formed d ->
    dict_get d "categories" = Some (JList cs) ->
    faults st = [] ->
    set_order set_list ->
    let st1 := snd (save_data (Some (JDict d)) st) in
    let d' := dict_set d "categories"
                       (JList (normalise_categories set_list py_str cs)) in
    fst (save_data (Some (JDict d)) st) = Ok true
    /\ fst (load_data set_list py_str st1) = Ok (JDict d')
    /\ map fst d' = map fst d
    /\ (forall k, (k =? "categories") = false -> dict_get d' k = dict_get d k)
    /\ exists l, dict_get d' "categories" = Some (JList (map JStr l))
                 /\ NoDup l
                 /\ forall x, In x l <->
                              exists c, In c cs /\ truthy c = true
                                        /\ str py_str c = x.
Proof.
  intros set_list py_str d cs st Hwf Hcs Hf Hord st1 d'.
  destruct (load_after_save set_list py_str d cs st Hwf Hcs Hf) as [Hs Hl].
  split; [exact Hs |]. split; [exact Hl |]. split; [| split].
  - subst d'. eapply dict_set_keys. exact Hcs.
  - intros k Hk. apply dict_set_other. exact Hk.
  - destruct (normalise_categories_spec set_list py_str cs Hord) as (l & El & Hnd & Hin).
    exists l. split; [| split; assumption].
    subst d'. rewrite El. eapply dict_get_set. exact Hcs.
Qed.

Lemma food_twice_well_formed : well_formed food_twice.
Proof.
  intros k t H. unfold required_keys in H. simpl in H.
  repeat (destruct H as [H | H];
          [injection H as <- <-; eexists; split; reflexivity |]).
  contradiction.
Qed.

Lemma nodup_set_order : set_order (nodup string_dec).
Proof.
  intro l. split; [apply NoDup_nodup |]. intro x. apply nodup_In.
Qed.

(** With the set iterated in order of first occurrence, "Food" listed
    twice comes back once. *)
Lemma save_then_load_normalises_categories_witness :
  fst (load_data (nodup string_dec) (fun _ => "")
                 (snd (save_data (Some (JDict food_twice)) (fresh_state []))))
  = Ok (JDict [("income", JList []); ("expenses", JList []);
               ("categories", JList [JStr "Food"]);
               ("budget", JDict []); ("goals", JList []); ("users", JList [])]).
Proof.
  exact (proj1 (proj2 (save_then_load_normalises_categories
                         (nodup string_dec) (fun _ => "")
                         food_twice [JStr "Food"; JStr "Food"] (fresh_state [])
                         food_twice_well_formed eq_refl eq_refl nodup_set_order))).
Defined.

(** C2 (as stated) fails: a well-formed document that lists the category
    "Food" twice does not come back equal, whatever order the set is
    iterated in. *)
Lemma save_then_load_drops_duplicate_category :
  well_formed food_twice
  /\ ~ (exists (set_list : list string -> list string) (py_str : json -> string),
           set_order set_list
           /\ fst (load_data set_list py_str
                             (snd (save_data (Some (JDict food_twice)) (fresh_state []))))
              = Ok (JDict food_twice)).
Proof.
  split; [exact food_twice_well_formed |].
  intros (set_list & py_str & Hord & H).
  destruct (load_after_save set_list py_str food_twice [JStr "Food"; JStr "Food"]
                            (fresh_state []) food_twice_well_formed eq_refl eq_refl)
    as (_ & Hl).
  rewrite Hl in H. injection H as H.
  unfold normalise_categories in H. simpl in H.
  destruct (Hord ["Food"; "Food"]) as [Hnd _].
  destruct (set_list ["Food"; "Food"]) as [| a [| b [| c l]]]; try discriminate.
  simpl in H. injection H as -> ->.
  inversion Hnd as [| x l Hnin _]. apply Hnin. left. reflexivity.
Qed.

(** * Matching *)

(** ** The order of the float comparisons *)

Lemma fle_lt_or_eq a b : fle a b = true <-> flt a b = true \/ feq a b = true.
Proof.
  unfold fle, flt, feq, SFleb, SFltb, SFeqb.
  destruct (SFcompare a b) as [[] |]; split; intro H; auto;
    try discriminate; destruct H; discriminate.
Qed.

(** Among floats that are not NaN, [<=] is the order of the keys. *)
Lemma fle_key a b :
  is_nan a = false -> is_nan b = false ->
  (fle a b = true <-> key_le (key a) (key b)).
Proof.
  unfold fle, SFleb.
  destruct a as [sa | sa | | sa ma ea], b as [sb | sb | | sb mb eb];
    try discriminate; intros _ _;
    try destruct sa; try destruct sb; simpl;
    try (split; [intros _; lia | reflexivity]);
    try (split; [discriminate | intro H; exfalso; lia]).
  all: change (Pos.compare_cont Eq ma mb) with (Pos.compare ma mb);
    destruct (Z.compare_spec ea eb); destruct (Pos.compare_spec ma mb); simpl;
    (split; [try discriminate; intros _; lia | try reflexivity; intro; exfalso; lia]).
Qed.

Lemma fle_not_nan a b : fle a b = true -> is_nan a = false /\ is_nan b = false.
Proof.
  unfold fle, SFleb.
  destruct a as [sa | sa | | sa ma ea], b as [sb | sb | | sb mb eb];
    simpl; try discriminate; auto;
    try destruct sa; try discriminate; auto.
Qed.

Lemma fle_refl a : is_nan a = false -> fle a a = true.
Proof.
  intro H. apply (fle_key a a H H).
  unfold key_le. destruct (key a) as [[a1 a2] a3]. lia.
Qed.

Lemma fle_trans a b c : fle a b = true -> fle b c = true -> fle a c = true.
Proof.
  intros Hab Hbc.
  destruct (fle_not_nan _ _ Hab) as [Ha Hb].
  destruct (fle_not_nan _ _ Hbc) as [_ Hc].
  apply (fle_key a b Ha Hb) in Hab. apply (fle_key b c Hb Hc) in Hbc.
  apply (fle_key a c Ha Hc).
  unfold key_le in *.
  destruct (key a) as [[a1 a2] a3], (key b) as [[b1 b2] b3], (key c) as [[c1 c2] c3].
  lia.
Qed.

Lemma fle_total a b :
  is_nan a = false -> is_nan b = false -> fle a b = false -> fle b a = true.
Proof.
  intros Ha Hb H. apply (fle_key b a Hb Ha).
  assert (Hn : ~ key_le (key a) (key b)).
  { intro Hk. apply (fle_key a b Ha Hb) in Hk. congruence. }
  unfold key_le in *.
  destruct (key a) as [[a1 a2] a3], (key b) as [[b1 b2] b3]. lia.
Qed.


(** ** [compare_faces] and [authenticate_face] *)

Lemma face_distance_ok known probe ds :
  face_distance known probe = Ok ds ->
  ds = map (fun e => norm_diff e probe) known.
Proof.
  unfold face_distance. destruct known as [| e rest].
  - intro H. injection H as <-. reflexivity.
  - destruct (forallb (fun e' => (List.length e' =? List.length e)%nat) rest
              && broadcastable e probe); [| discriminate].
    intro H. injection H as <-. reflexivity.
Qed.

Lemma compare_faces_ok known probe t ms :
  compare_faces known probe t = Ok ms ->
  ms = map (fun e => dist_le_tol (norm_diff e probe) t) known.
Proof.
  unfold compare_faces.
  destruct (face_distance known probe) as [ds | ex] eqn:E; [| discriminate].
  intro H. injection H as <-. rewrite (face_distance_ok _ _ _ E). apply map_map.
Qed.

Lemma compare_faces_nth known probe t ms i e :
  compare_faces known probe t = Ok ms ->
  nth_error known i = Some e ->
  nth_error ms i = Some (dist_le_tol (norm_diff e probe) t).
Proof.
  intros H Hn. rewrite (compare_faces_ok _ _ _ _ H).
  rewrite nth_error_map, Hn. reflexivity.
Qed.

Lemma compare_faces_length known probe t ms :
  compare_faces known probe t = Ok ms -> List.length ms = List.length known.
Proof.
  intro H. rewrite (compare_faces_ok _ _ _ _ H). apply length_map.
Qed.

Lemma index_true_nth l i : index_true l = Some i -> nth_error l i = Some true.
Proof.
  revert i. induction l as [| b t IH]; intros i H; simpl in H; [discriminate |].
  destruct b.
  - injection H as <-. reflexivity.
  - destruct (index_true t) as [j |]; [| discriminate].
    injection H as <-. simpl. auto.
Qed.

Lemma index_true_first l i j :
  index_true l = Some i -> (j < i)%nat -> nth_error l j = Some false.
Proof.
  revert i j. induction l as [| b t IH]; intros i j H Hlt; simpl in H; [discriminate |].
  destruct b.
  - injection H as <-. lia.
  - destruct (index_true t) as [k |] eqn:E; [| discriminate].
    injection H as <-. destruct j as [| j]; [reflexivity |].
    simpl. apply (IH k); [reflexivity | lia].
Qed.

Lemma index_true_none l : index_true l = None -> forall b, In b l -> b = false.
Proof.
  induction l as [| b t IH]; simpl; [contradiction |].
  destruct b; [discriminate |].
  destruct (index_true t); [discriminate |].
  intros _ b [<- | H]; [reflexivity | auto].
Qed.

(** What [authenticate_face] returns, case by case. *)
Lemma authenticate_face_cases st probe r :
  fst (authenticate_face probe st) = Ok r ->
  snd (authenticate_face probe st) = st
  /\ match r with
     | Some name =>
         exists ms idx,
         compare_faces (encodings (face_data st)) probe tolerance_login = Ok ms
         /\ index_true ms = Some idx
         /\ nth_error (usernames (face_data st)) idx = Some name
         /\ existsb (fun u => username u =? name) (users (data st)) = true
     | None =>
         encodings (face_data st) = []
         \/ exists ms,
            compare_faces (encodings (face_data st)) probe tolerance_login = Ok ms
            /\ (index_true ms = None
                \/ exists idx name,
                   index_true ms = Some idx
                   /\ nth_error (usernames (face_data st)) idx = Some name
                   /\ existsb (fun u => username u =? name) (users (data st)) = false)
     end.
Proof.
  cbv beta iota zeta delta [authenticate_face bind gets lift user_exists ret raise].
  destruct (encodings (face_data st)) as [| e0 es] eqn:He.
  - cbn. intro H. injection H as <-. auto.
  - destruct (compare_faces (e0 :: es) probe tolerance_login) as [ms | ex] eqn:Hc;
      cbv beta iota; [| discriminate].
    destruct (index_true ms) as [idx |] eqn:Hi.
    + destruct (nth_error (usernames (face_data st)) idx) as [name |] eqn:Hn;
        cbv beta iota; [| discriminate].
      destruct (existsb (fun u => username u =? name) (users (data st))) eqn:Hex;
        cbn; intro H; injection H as <-; (split; [reflexivity |]).
      * exists ms, idx. auto.
      * right. exists ms. split; [reflexivity |]. right. exists idx, name. auto.
    + cbn. intro H. injection H as <-. split; [reflexivity |].
      right. exists ms. auto.
Qed.

(** C7: [authenticate_face] returns a username only if [user_exists]
    holds for it, and when the template it resolves the probe to belongs to
    no account it returns [None] and changes nothing. *)
Theorem authenticate_face_needs_an_account :
  forall (st : state) (probe : encoding),
    (forall name,
        fst (authenticate_face probe st) = Ok (Some name) ->
        fst (user_exists name st) = Ok true)
    /\ (forall ms idx name,
           compare_faces (encodings (face_data st)) probe tolerance_login = Ok ms ->
           index_true ms = Some idx ->
           nth_error (usernames (face_data st)) idx = Some name ->
           fst (user_exists name st) = Ok false ->
           authenticate_face probe st = (Ok None, st)).
Proof.
  intros st probe. split.
  - intros name H. apply authenticate_face_cases in H.
    destruct H as (_ & ms & idx & _ & _ & _ & Hex).
    unfold user_exists, gets. simpl. rewrite Hex. reflexivity.
  - intros ms idx name Hc Hi Hn Hex.
    unfold user_exists, gets in Hex. simpl in Hex. injection Hex as Hex.
    cbv beta iota zeta delta [authenticate_face bind gets lift user_exists ret raise].
    destruct (encodings (face_data st)) as [| e0 es] eqn:He.
    + cbn in Hc. injection Hc as <-. discriminate.
    + rewrite Hc. cbv beta iota. rewrite Hi, Hn. cbv beta iota. rewrite Hex.
      reflexivity.
Qed.

(** The template left behind by the failed registration of "ghost"
    matches the probe and authenticates nobody. *)
Lemma authenticate_face_needs_an_account_witness :
  authenticate_face zeros ghost_state = (Ok None, ghost_state).
Proof.
  apply (proj2 (authenticate_face_needs_an_account ghost_state zeros) [true] 0%nat "ghost");
    reflexivity.
Defined.


(** C4 (as amended): a template matches exactly when the distance numpy
    computes for it is at most the tolerance, [d <= t] on binary64 floats,
    that is [d < t] or [d == t]; a distance equal to the tolerance is a
    match. This is the decision of the duplicate check (tolerance 0.35)
    and of [authenticate_face] (tolerance 0.4). *)
Theorem match_decision_includes_the_tolerance :
  forall (known : list encoding) (probe : encoding) (t : Q),
    (forall ms i e,
        compare_faces known probe t = Ok ms ->
        nth_error known i = Some e ->
        (nth_error ms i = Some true <->
         flt (norm_diff e probe) (to_float t) = true
         \/ feq (norm_diff e probe) (to_float t) = true))
    /\ (forall e, broadcastable e probe = true ->
                  feq (norm_diff e probe) (to_float t) = true ->
                  compare_faces [e] probe t = Ok [true])
    /\ (FaceAuthenticator.face_already_registered known probe = Ok true <->
        (exists ms, compare_faces known probe tolerance_duplicate = Ok ms)
        /\ exists e, In e known
                     /\ fle (norm_diff e probe) (to_float tolerance_duplicate) = true)
    /\ (forall st name,
           fst (authenticate_face probe st) = Ok (Some name) ->
           exists idx e,
             nth_error (encodings (face_data st)) idx = Some e
             /\ nth_error (usernames (face_data st)) idx = Some name
             /\ fle (norm_diff e probe) (to_float tolerance_login) = true).
Proof.
  intros known probe t. split; [| split; [| split]].
  - intros ms i e Hc Hn. rewrite (compare_faces_nth _ _ _ _ _ _ Hc Hn).
    unfold dist_le_tol. rewrite <- fle_lt_or_eq.
    split; [intro H; injection H; auto | congruence].
  - intros e Hb Heq. unfold compare_faces, face_distance.
    cbn [forallb andb]. rewrite Hb. cbn [map].
    unfold dist_le_tol. replace (fle (norm_diff e probe) (to_float t)) with true;
      [reflexivity |].
    symmetry. apply fle_lt_or_eq. right. exact Heq.
  - unfold FaceAuthenticator.face_already_registered.
    destruct (compare_faces known probe tolerance_duplicate) as [ms | ex] eqn:Hc.
    + pose proof (compare_faces_ok _ _ _ _ Hc) as ->. split.
      * intro H. injection H as H. apply existsb_exists in H.
        destruct H as (b & Hin & ->). apply in_map_iff in Hin.
        destruct Hin as (e & He & Hin). split; [eauto |].
        exists e. split; [exact Hin |]. exact He.
      * intros (_ & e & Hin & He). f_equal. apply existsb_exists.
        exists true. split; [| reflexivity]. apply in_map_iff.
        exists e. split; [| exact Hin]. exact He.
    + split; [discriminate |]. intros ((ms & H) & _). discriminate.
  - intros st name H. apply authenticate_face_cases in H.
    destruct H as (_ & ms & idx & Hc & Hi & Hn & _).
    pose proof (index_true_nth _ _ Hi) as Ht.
    pose proof (compare_faces_length _ _ _ _ Hc) as Hlen.
    destruct (nth_error (encodings (face_data st)) idx) as [e |] eqn:He.
    + exists idx, e. split; [exact He |]. split; [exact Hn |].
      rewrite (compare_faces_nth _ _ _ _ _ _ Hc He) in Ht.
      injection Ht as Ht. exact Ht.
    + apply nth_error_None in He. assert (nth_error ms idx <> None) by congruence.
      apply nth_error_Some in H. lia.
Qed.

(** C4 (as stated) fails: the distance numpy computes from the template
    [(0.4, 0, ..., 0)] to the probe [(0, ..., 0)] is the float [0.4],
    equal to the tolerance and not below it, and the template
    authenticates; one at distance [0.35] counts as a duplicate face. *)
Lemma distance_equal_to_tolerance_is_a_match :
  feq (norm_diff (axis (4 # 10)) zeros) (to_float tolerance_login) = true
  /\ flt (norm_diff (axis (4 # 10)) zeros) (to_float tolerance_login) = false
  /\ fst (authenticate_face zeros bob_at_login_tolerance) = Ok (Some "bob")
  /\ feq (norm_diff (axis (35 # 100)) zeros) (to_float tolerance_duplicate) = true
  /\ flt (norm_diff (axis (35 # 100)) zeros) (to_float tolerance_duplicate) = false
  /\ FaceAuthenticator.face_already_registered [axis (35 # 100)] zeros = Ok true.
Proof. vm_compute. repeat split. Qed.

(** At the boundary: a template at distance 0.4 is matched at 0.4. *)
Lemma match_decision_includes_the_tolerance_witness :
  compare_faces [axis (4 # 10)] zeros tolerance_login = Ok [true].
Proof.
  apply (proj1 (proj2 (match_decision_includes_the_tolerance
                         [] zeros tolerance_login)) (axis (4 # 10)));
    vm_compute; reflexivity.
Defined.

(** The comparison is made on the rounded distance. The squares of
    [0.2363202073151147] and [0.3227270667522965] add up to more than
    [0.16], and the float numpy returns for the distance is [0.4]: the
    template matches. *)
Lemma distance_is_rounded_before_it_is_compared :
  let e := [2363202073151147 # 10000000000000000;
            3227270667522965 # 10000000000000000] in
  (4 # 10) * (4 # 10)
  < (2363202073151147 # 10000000000000000) * (2363202073151147 # 10000000000000000)
    + (3227270667522965 # 10000000000000000) * (3227270667522965 # 10000000000000000)
  /\ norm_diff e [0; 0] = to_float (4 # 10)
  /\ compare_faces [e] [0; 0] tolerance_login = Ok [true].
Proof. vm_compute. repeat split. Qed.

(** * Nearest neighbour *)

(** C3 fails on the code: with "alice" and "bob" enrolled 0.38 apart
    (no duplicates for the 0.35 check) and bob's own template as the probe,
    the nearest template is bob's (index 1, distance 0), yet
    [authenticate_face] returns "alice", the first template within the
    tolerance; [FaceAuthenticator.authenticate], which takes the [argmin],
    returns "bob" for the same probe. *)
Theorem authenticate_face_returns_first_match :
  usernames (face_data near_duplicates) = ["alice"; "bob"]
  /\ encodings (face_data near_duplicates) = [axis (38 # 100); zeros]
  /\ FaceAuthenticator.face_already_registered [axis (38 # 100)] zeros = Ok false
  /\ fst (user_exists "bob" near_duplicates) = Ok true
  /\ match face_distance (encodings (face_data near_duplicates)) zeros with
     | Ok ds => argmin ds
     | Raise _ => None
     end = Some 1%nat
  /\ fst (authenticate_face zeros near_duplicates) = Ok (Some "alice")
  /\ fst (FaceAuthenticator.authenticate [axis (38 # 100); zeros] ["alice"; "bob"]
                                         [Some zeros] 3 (6 # 10) near_duplicates)
     = Ok (Some "bob").
Proof. vm_compute. repeat split. Qed.

(** A NaN ends [np.argmin]. *)
Lemma argmin_from_nan l best bi i :
  is_nan best = true -> argmin_from best bi i l = bi.
Proof. intro H. destruct l; simpl; [| rewrite H]; reflexivity. Qed.

(** [argmin_from] returns the running best, or a later entry; when what
    it returns is not NaN, nothing in the list is below it. *)
Lemma argmin_from_spec l :
  forall best bi i,
    is_nan best = false ->
    let r := argmin_from best bi i l in
    (r = bi /\ forall d, In d l -> fle best d = true)
    \/ (exists k d, r = (i + k)%nat /\ nth_error l k = Some d
                    /\ (is_nan d = false ->
                        fle d best = true
                        /\ forall d', In d' l -> fle d d' = true)).
Proof.
  induction l as [| d t IH]; intros best bi i Hbest; simpl.
  - left. split; [reflexivity | contradiction].
  - rewrite Hbest. destruct (fle best d) eqn:Hd; cbn [negb].
    + destruct (IH best bi (S i) Hbest) as [[Hr Hall] | (k & d' & Hr & Hn & Hmin)].
      * left. split; [exact Hr |]. intros d' [<- | Hin]; auto.
      * right. exists (S k), d'. rewrite Hr. split; [lia |]. split; [exact Hn |].
        intro Hnan. destruct (Hmin Hnan) as [Hle Hall]. split; [exact Hle |].
        intros d'' [<- | Hin]; [| auto]. apply (fle_trans _ best); assumption.
    + right. destruct (is_nan d) eqn:Hnan.
      * exists 0%nat, d. rewrite (argmin_from_nan _ _ _ _ Hnan), Nat.add_0_r.
        split; [reflexivity |]. split; [reflexivity |]. intro; congruence.
      * pose proof (fle_total _ _ Hbest Hnan Hd) as Hdb.
        destruct (IH d i (S i) Hnan) as [[Hr Hall] | (k & d' & Hr & Hn & Hmin)].
        -- exists 0%nat, d. rewrite Hr, Nat.add_0_r.
           split; [reflexivity |]. split; [reflexivity |]. intros _.
           split; [exact Hdb |].
           intros d' [<- | Hin]; [apply fle_refl; exact Hnan | auto].
        -- exists (S k), d'. rewrite Hr. split; [lia |]. split; [exact Hn |].
           intro Hnan'. destruct (Hmin Hnan') as [Hle Hall].
           split; [apply (fle_trans _ d); assumption |].
           intros d'' [<- | Hin]; [exact Hle | auto].
Qed.

Lemma argmin_least ds best :
  argmin ds = Some best ->
  exists d, nth_error ds best = Some d
            /\ (is_nan d = false -> forall d', In d' ds -> fle d d' = true).
Proof.
  destruct ds as [| d0 t]; simpl; [discriminate |].
  intro H. injection H as <-.
  destruct (is_nan d0) eqn:Hnan.
  - rewrite (argmin_from_nan _ _ _ _ Hnan). exists d0.
    split; [reflexivity |]. congruence.
  - destruct (argmin_from_spec t d0 0%nat 1%nat Hnan)
      as [[Hr Hall] | (k & d & Hr & Hn & Hmin)]; simpl in *; rewrite Hr.
    + exists d0. split; [reflexivity |]. intros _ d' [<- | Hin]; [| auto].
      apply fle_refl. exact Hnan.
    + exists d. split; [exact Hn |]. intros Hd. destruct (Hmin Hd) as [Hle Hall].
      intros d' [<- | Hin]; [exact Hle | auto].
Qed.

(** Where the probe of a turn comes from. *)
Lemma current_encoding_cases fe captured probe :
  FaceAuthenticator.current_encoding fe captured = Ok (Some probe) ->
  (FaceAuthenticator.falsy fe = Ok true /\ captured = Some probe)
  \/ (exists x, fe = FaceAuthenticator.NdArray x []
                /\ FaceAuthenticator.is_zero (to_float x) = false
                /\ probe = [x]).
Proof.
  unfold FaceAuthenticator.current_encoding.
  destruct fe as [| [| y l] | x [| y rest]]; simpl; try discriminate.
  - intro H. injection H as ->. auto.
  - intro H. injection H as ->. auto.
  - destruct (FaceAuthenticator.is_zero (to_float x)) eqn:Hz; intro H; injection H as H.
    + left. auto.
    + right. exists x. auto.
Qed.

(** One turn of [FaceAuthenticator.authenticate] that returns a username
    returns the nearest template's. *)
Lemma attempt_once_nearest known names fe captured c st name :
  fst (FaceAuthenticator.attempt_once known names fe captured c st)
  = Ok (Some (Some name)) ->
  exists probe best e,
    FaceAuthenticator.current_encoding fe captured = Ok (Some probe)
    /\ nth_error known best = Some e
    /\ nth_error names best = Some name
    /\ (forall e', In e' known -> fle (norm_diff e probe) (norm_diff e' probe) = true)
    /\ fle (norm_diff e probe) (to_float tolerance_login) = true
    /\ flt (norm_diff e probe) (fsub (to_float 1) (to_float c)) = true
    /\ fst (user_exists name st) = Ok true.
Proof.
  cbv beta iota zeta
      delta [FaceAuthenticator.attempt_once bind attempt lift gets ret raise user_exists].
  destruct (FaceAuthenticator.current_encoding fe captured) as [[probe |] | ex];
    cbv beta iota; try discriminate.
  destruct (compare_faces known probe tolerance_login) as [ms | ex] eqn:Hc;
    cbv beta iota; [| discriminate].
  pose proof Hc as Hc'. unfold compare_faces in Hc'.
  destruct (face_distance known probe) as [ds | ex] eqn:Hd; [| discriminate].
  cbv beta iota.
  destruct (argmin ds) as [best |] eqn:Ha; cbv beta iota; [| discriminate].
  destruct (argmin_least _ _ Ha) as (d & Hnd & Hmin).
  rewrite Hnd.
  pose proof (face_distance_ok _ _ _ Hd) as ->.
  rewrite nth_error_map in Hnd.
  destruct (nth_error known best) as [e |] eqn:He; [| discriminate].
  injection Hnd as <-.
  rewrite (compare_faces_nth _ _ _ _ _ _ Hc He).
  destruct (dist_le_tol (norm_diff e probe) tolerance_login) eqn:Hle;
    cbn [andb]; [| discriminate].
  unfold dist_lt_tol.
  destruct (flt (norm_diff e probe) (fsub (to_float 1) (to_float c))) eqn:Hlt;
    cbv beta iota; [| discriminate].
  destruct (nth_error names best) as [n |] eqn:Hn; cbv beta iota; [| discriminate].
  destruct (existsb (fun u => username u =? n) (users (data st))) eqn:Hex;
    cbn; intro H; [| discriminate].
  injection H as <-.
  exists probe, best, e. repeat split; try assumption; try reflexivity.
  - intros e' Hin. apply Hmin.
    + apply (fle_not_nan _ _ Hle).
    + apply (in_map (fun x => norm_diff x probe)). exact Hin.
  - rewrite Hex. reflexivity.
Qed.

Lemma attempt_once_state known names fe captured c st :
  snd (FaceAuthenticator.attempt_once known names fe captured c st) = st.
Proof.
  cbv beta iota zeta
      delta [FaceAuthenticator.attempt_once bind attempt lift gets ret raise user_exists].
  destruct (FaceAuthenticator.current_encoding fe captured) as [[probe |] | ex];
    cbv beta iota; try reflexivity.
  destruct (compare_faces known probe tolerance_login) as [ms | ex];
    cbv beta iota; [| reflexivity].
  destruct (face_distance known probe) as [ds | ex]; cbv beta iota; [| reflexivity].
  destruct (argmin ds) as [best |]; cbv beta iota; [| reflexivity].
  destruct (nth_error ms best) as [[] |], (nth_error ds best) as [d |];
    cbn [andb]; cbv beta iota; try reflexivity.
  destruct (dist_lt_tol d (fsub (to_float 1) (to_float c))); cbv beta iota;
    [| reflexivity].
  destruct (nth_error names best) as [n |]; cbv beta iota; [| reflexivity].
  destruct (existsb (fun u => username u =? n) (users (data st))); reflexivity.
Qed.

(** A turn whose probe cannot be taken (the truth value of an array of two
    entries or more, the subtraction of a list) goes on to the next. *)
Lemma attempt_once_raises known names fe captured c st ex :
  FaceAuthenticator.current_encoding fe captured = Raise ex ->
  FaceAuthenticator.attempt_once known names fe captured c st = (Ok None, st).
Proof.
  intro H.
  cbv beta iota zeta
      delta [FaceAuthenticator.attempt_once bind attempt lift gets ret raise user_exists].
  rewrite H. reflexivity.
Qed.

(** [FaceAuthenticator.authenticate] resolves its probe to the nearest
    template. The probe is what the camera returned in one of the turns,
    or the array of one entry given as [face_encoding]; the distance numpy
    computes from the template whose username is returned is at most
    every other template's, it is the one tested (at most 0.4 and below
    the float [1 - confidence_threshold]), and the username has an
    account. *)
Theorem face_authenticate_nearest_neighbour :
  forall (face_encoding : FaceAuthenticator.argument)
         (known : list encoding) (names : list string)
         (captures : list (option encoding))
         (max_attempts : nat) (c : Q) (st : state) (name : string),
    fst (FaceAuthenticator.authenticate_with face_encoding known names captures
                                              max_attempts c st)
    = Ok (Some name) ->
    exists probe best e,
      ((FaceAuthenticator.falsy face_encoding = Ok true /\ In (Some probe) captures)
       \/ (exists x, face_encoding = FaceAuthenticator.NdArray x []
                     /\ FaceAuthenticator.is_zero (to_float x) = false
                     /\ probe = [x]))
      /\ nth_error known best = Some e
      /\ nth_error names best = Some name
      /\ (forall e', In e' known ->
                     fle (norm_diff e probe) (norm_diff e' probe) = true)
      /\ fle (norm_diff e probe) (to_float tolerance_login) = true
      /\ flt (norm_diff e probe) (fsub (to_float 1) (to_float c)) = true
      /\ fst (user_exists name st) = Ok true.
Proof.
  intros fe known names captures n c st name.
  unfold FaceAuthenticator.authenticate_with.
  destruct known as [| e0 es]; [discriminate |].
  revert captures. induction n as [| n IH]; intro captures; [discriminate |].
  simpl FaceAuthenticator.attempts. unfold bind at 1.
  pose proof (attempt_once_nearest (e0 :: es) names fe (hd None captures) c st) as Hone.
  pose proof (attempt_once_state (e0 :: es) names fe (hd None captures) c st) as Hst.
  destruct (FaceAuthenticator.attempt_once (e0 :: es) names fe (hd None captures) c st)
    as [[o | ex] st']; simpl in *; [| discriminate].
  subst st'. destruct o as [[n' |] |]; simpl.
  - intro H. injection H as ->.
    destruct (Hone name eq_refl) as (probe & best & e & Hcur & Hrest).
    exists probe, best, e. split; [| exact Hrest].
    destruct (current_encoding_cases _ _ _ Hcur) as [[Hf Hcap] | Hx]; [| right; exact Hx].
    left. split; [exact Hf |].
    destruct captures as [| c0 t]; simpl in Hcap; [discriminate |].
    left. exact Hcap.
  - discriminate.
  - intro H. apply IH in H. destruct H as (probe & best & e & Horigin & Hrest).
    exists probe, best, e. split; [| exact Hrest].
    destruct Horigin as [[Hf Hin] | Hx]; [| right; exact Hx].
    left. split; [exact Hf |]. rewrite Hf in Hin.
    destruct captures as [| c0 t]; simpl in Hin; [contradiction |].
    right. exact Hin.
Qed.

(** The probe captured is bob's own template; the username returned is
    the one at the index of the least distance. *)
Lemma face_authenticate_nearest_neighbour_witness :
  exists probe best e,
    ((FaceAuthenticator.falsy FaceAuthenticator.NoArgument = Ok true
      /\ In (Some probe) [Some zeros])
     \/ (exists x, FaceAuthenticator.NoArgument = FaceAuthenticator.NdArray x []
                   /\ FaceAuthenticator.is_zero (to_float x) = false
                   /\ probe = [x]))
    /\ nth_error [axis (38 # 100); zeros] best = Some e
    /\ nth_error ["alice"; "bob"] best = Some "bob"
    /\ (forall e', In e' [axis (38 # 100); zeros] ->
                   fle (norm_diff e probe) (norm_diff e' probe) = true)
    /\ fle (norm_diff e probe) (to_float tolerance_login) = true
    /\ flt (norm_diff e probe) (fsub (to_float 1) (to_float (6 # 10))) = true
    /\ fst (user_exists "bob" near_duplicates) = Ok true.
Proof.
  apply (face_authenticate_nearest_neighbour FaceAuthenticator.NoArgument
           [axis (38 # 100); zeros] ["alice"; "bob"] [Some zeros] 3 (6 # 10)
           near_duplicates "bob").
  vm_compute. reflexivity.
Defined.

(** With a face encoding of the usual kind given as [face_encoding], an
    array of two entries or more or a list that is not empty, every turn
    raises and nobody is authenticated. *)
Lemma face_authenticate_given_encoding :
  forall (face_encoding : FaceAuthenticator.argument)
         (known : list encoding) (names : list string)
         (captures : list (option encoding))
         (max_attempts : nat) (c : Q) (st : state),
    (exists x y rest, face_encoding = FaceAuthenticator.NdArray x (y :: rest))
    \/ (exists x l, face_encoding = FaceAuthenticator.PyList (x :: l)) ->
    FaceAuthenticator.authenticate_with face_encoding known names captures
                                        max_attempts c st
    = (Ok None, st).
Proof.
  intros fe known names captures n c st Hfe.
  assert (Hraise : forall captured, exists ex,
             FaceAuthenticator.current_encoding fe captured = Raise ex).
  { intro captured. destruct Hfe as [(x & y & rest & ->) | (x & l & ->)];
      [exists ValueError | exists TypeError]; reflexivity. }
  assert (Hf : FaceAuthenticator.falsy fe <> Ok true).
  { destruct Hfe as [(x & y & rest & ->) | (x & l & ->)]; discriminate. }
  unfold FaceAuthenticator.authenticate_with.
  destruct known as [| e0 es]; [reflexivity |].
  induction n as [| n IH]; [reflexivity |].
  simpl FaceAuthenticator.attempts. unfold bind at 1.
  destruct (Hraise (hd None captures)) as [ex Hex].
  rewrite (attempt_once_raises _ _ _ _ _ _ _ Hex).
  destruct (FaceAuthenticator.falsy fe) as [[] | ex']; try exact IH.
  congruence.
Qed.

(** An empty enrolled set matches no probe. *)
Lemma authenticate_face_empty_store :
  forall (st : state) (probe : encoding),
    encodings (face_data st) = [] ->
    authenticate_face probe st = (Ok None, st).
Proof.
  intros st probe H. unfold authenticate_face, bind, gets. rewrite H. reflexivity.
Qed.

Lemma authenticate_face_empty_store_witness :
  authenticate_face zeros (fresh_state []) = (Ok None, fresh_state []).
Proof.
  apply (authenticate_face_empty_store (fresh_state []) zeros). reflexivity.
Defined.

(** * [load_data]: repair *)

Lemma dict_get_set_same d k v : dict_get (dict_set d k v) k = Some v.
Proof.
  induction d as [| [k0 w] t IH]; simpl.
  - rewrite String.eqb_refl. reflexivity.
  - destruct (k0 =? k) eqn:E; simpl; rewrite E; auto.
Qed.

Lemma dict_get_set_any d k v k' :
  dict_get (dict_set d k v) k' = if k' =? k then Some v else dict_get d k'.
Proof.
  destruct (k' =? k) eqn:E.
  - apply String.eqb_eq in E. subst k'. apply dict_get_set_same.
  - apply dict_set_other. exact E.
Qed.

Lemma repair_key_get d k t k' :
  dict_get (repair_key d (k, t)) k'
  = if k' =? k then Some (repaired d k t) else dict_get d k'.
Proof.
  unfold repair_key, repaired. simpl.
  destruct (dict_get d k) as [v |] eqn:Hg.
  - destruct (isinstance v t).
    + destruct (String.eqb_spec k' k) as [-> | _]; [exact Hg | reflexivity].
    + apply dict_get_set_any.
  - apply dict_get_set_any.
Qed.

Lemma repaired_isinstance d k t : isinstance (repaired d k t) t = true.
Proof.
  unfold repaired. destruct (dict_get d k) as [v |]; [| destruct t; reflexivity].
  destruct (isinstance v t) eqn:E; [exact E | destruct t; reflexivity].
Qed.

(** The loop, key by key: a required key gets its repaired value, any
    other key keeps what it had. *)
Lemma repair_get d k :
  dict_get (repair d) k
  = match expected_type k with
    | Some t => Some (repaired d k t)
    | None => dict_get d k
    end.
Proof.
  unfold repair, expected_type, required_keys.
  cbv beta iota delta [fold_left find fst snd].
  rewrite !repair_key_get.
  repeat match goal with
         | |- context [k =? ?s] =>
             destruct (String.eqb_spec k s) as [-> | ?];
             [unfold repaired; rewrite ?repair_key_get; reflexivity |]
         end.
  reflexivity.
Qed.

Lemma repair_is_well_formed d : well_formed (repair d).
Proof.
  intros k t Hin. rewrite repair_get.
  unfold required_keys in Hin. simpl in Hin.
  repeat (destruct Hin as [Hin | Hin];
          [injection Hin as <- <-; eexists; split;
           [reflexivity | apply repaired_isinstance] |]).
  contradiction.
Qed.

Lemma well_formed_set_categories d l :
  well_formed d -> well_formed (dict_set d "categories" (JList l)).
Proof.
  intros H k t Hin. rewrite dict_get_set_any.
  destruct (String.eqb_spec k "categories") as [-> | _]; [| exact (H k t Hin)].
  unfold required_keys in Hin. simpl in Hin.
  repeat (destruct Hin as [Hin | Hin];
          [try discriminate Hin; injection Hin as <-; eexists; split; reflexivity |]).
  contradiction.
Qed.

Lemma repair_categories_is_list d :
  exists cs, dict_get (repair d) "categories" = Some (JList cs).
Proof.
  rewrite repair_get. cbn.
  pose proof (repaired_isinstance d "categories" list_t) as H.
  destruct (repaired d "categories" list_t); try discriminate H. eauto.
Qed.

Lemma default_data_well_formed :
  exists d, default_data = JDict d /\ well_formed d
            /\ dict_get d "categories" = Some (JList (map JStr [])).
Proof.
  eexists. split; [reflexivity |]. split; [| reflexivity].
  intros k t Hin. unfold required_keys in Hin. simpl in Hin.
  repeat (destruct Hin as [Hin | Hin];
          [injection Hin as <- <-; eexists; split; reflexivity |]).
  contradiction.
Qed.

(** The three ways [load_data] can end. *)
Lemma load_data_cases set_list py_str st :
  fst (load_data set_list py_str st) = Ok default_data
  \/ (exists d, at_data (fs st) = Some (Json (JDict d))
                /\ hd false (faults st) = false
                /\ fst (load_data set_list py_str st) = Ok (healed set_list py_str d))
  \/ (at_data (fs st) = None
      /\ fst (load_data set_list py_str st)
         = Ok (healed set_list py_str
                      [("income", JList []); ("expenses", JList []);
                       ("categories", JList []); ("budget", JDict []);
                       ("goals", JList []); ("users", JList [])])).
Proof.
  destruct st as [dc f n cu es [a tmp fa ft] fl].
  cbv beta iota zeta
      delta [load_data bind attempt os_path_exists gets json_load fallible
             next_fault read_at fs at_data faults fst snd hd].
  destruct a as [b |]; cbv beta iota.
  - destruct fl as [| [|] t]; cbv beta iota delta [ret raise fst snd];
      try (left; reflexivity);
      (destruct b as [j | p | |]; try (left; reflexivity);
       destruct j; try (left; reflexivity);
       right; left; eexists; split; [reflexivity |]; split; [reflexivity |];
       cbv beta iota zeta; unfold healed;
       match goal with
       | |- context [repair ?d] => destruct (repair_categories_is_list d) as [cs ->]
       end; reflexivity).
  - match goal with
    | |- context [save_data ?a ?s] => destruct (save_data a s) as [[b | e] st1]
    end; cbv beta iota delta [ret raise fst snd]; [| left; reflexivity].
    right. right. split; [reflexivity |].
    unfold default_data, healed. cbv beta iota zeta.
    match goal with
    | |- context [repair ?d] => destruct (repair_categories_is_list d) as [cs ->]
    end.
    reflexivity.
Qed.

Lemma healed_well_formed set_list py_str d :
  exists d', healed set_list py_str d = JDict d' /\ well_formed d'
             /\ exists l, dict_get d' "categories" = Some (JList (map JStr l)).
Proof.
  unfold healed. eexists. split; [reflexivity |]. split.
  - apply well_formed_set_categories, repair_is_well_formed.
  - rewrite dict_get_set_same. unfold normalise_categories. eauto.
Qed.

(** A data file that holds a dict and is read without failure. *)
Lemma load_data_readable set_list py_str st d :
  at_data (fs st) = Some (Json (JDict d)) ->
  hd false (faults st) = false ->
  load_data set_list py_str st
  = (Ok (healed set_list py_str d), set_faults (tl (faults st)) st).
Proof.
  destruct st as [dc f n cu es [a tmp fa ft] fl]. simpl. intros -> Hfault.
  cbv beta iota zeta
      delta [load_data bind attempt os_path_exists gets json_load fallible
             next_fault read_at fs at_data faults fst snd].
  unfold healed.
  destruct fl as [| [|] t]; try discriminate Hfault;
    cbv beta iota delta [ret raise fst snd];
    (destruct (repair_categories_is_list d) as [cs ->]; reflexivity).
Qed.

Lemma load_data_well_formed set_list py_str st :
  exists d, fst (load_data set_list py_str st) = Ok (JDict d)
            /\ well_formed d
            /\ exists l, dict_get d "categories" = Some (JList (map JStr l)).
Proof.
  destruct (load_data_cases set_list py_str st) as [H | [(d & _ & _ & H) | (_ & H)]];
    rewrite H.
  - destruct default_data_well_formed as (d & -> & Hwf & Hc). eauto.
  - destruct (healed_well_formed set_list py_str d) as (d' & -> & Hwf & Hc). eauto.
  - match goal with
    | |- context [healed _ _ ?d] =>
        destruct (healed_well_formed set_list py_str d) as (d' & -> & Hwf & Hc)
    end. eauto.
Qed.

(** [load_data] never raises and always returns a dict that has
    the six required keys with a list (a dict for "budget") under each,
    and a list of strings under "categories": whatever the data file holds
    (nothing, a truncated or foreign file, any JSON value) and whichever
    system call fails. *)
Theorem load_data_always_well_formed :
  forall (set_list : list string -> list string) (py_str : json -> string)
         (st : state),
  exists d, fst (load_data set_list py_str st) = Ok (JDict d)
            /\ well_formed d
            /\ exists l, dict_get d "categories" = Some (JList (map JStr l)).
Proof.
  exact load_data_well_formed.
Qed.

(** What [load_data] does to each field of a data file it can
    read. A key that is not one of the six required ones comes back as it
    is in the file; a required key other than "categories" whose value has
    the expected type comes back unchanged; a required key that is missing
    or holds a value of another type comes back as the empty list (the
    empty dict for "budget"); "categories" comes back as
    [list({str(c) for c in cs if c})] of the list in the file, or of the
    empty list. *)
Theorem load_data_repairs_field_by_field :
  forall (set_list : list string -> list string) (py_str : json -> string)
         (st : state) (d : list (string * json)),
    at_data (fs st) = Some (Json (JDict d)) ->
    hd false (faults st) = false ->
    exists d',
      fst (load_data set_list py_str st) = Ok (JDict d')
      /\ (forall k, expected_type k = None -> dict_get d' k = dict_get d k)
      /\ (forall k t v, expected_type k = Some t -> k <> "categories" ->
                        dict_get d k = Some v -> isinstance v t = true ->
                        dict_get d' k = Some v)
      /\ (forall k t, expected_type k = Some t -> k <> "categories" ->
                      (forall v, dict_get d k = Some v -> isinstance v t = false) ->
                      dict_get d' k = Some (empty_of t))
      /\ dict_get d' "categories"
         = Some (JList (normalise_categories set_list py_str
                          (match dict_get d "categories" with
                           | Some (JList cs) => cs
                           | _ => []
                           end))).
Proof.
  intros set_list py_str st d Hfile Hfault.
  pose proof (f_equal fst (load_data_readable set_list py_str st d Hfile Hfault)) as H.
  simpl in H.
  - eexists. split; [exact H |].
    assert (Hother : forall k, k <> "categories" ->
              dict_get (dict_set (repair d) "categories"
                          (JList (normalise_categories set_list py_str
                                    (list_items (dict_get (repair d) "categories"))))) k
              = dict_get (repair d) k).
    { intros k Hk. apply dict_set_other. now apply String.eqb_neq. }
    split; [| split; [| split]].
    + intros k Hk. rewrite Hother, repair_get, Hk; [reflexivity |].
      intros ->. discriminate Hk.
    + intros k t v Hk Hne Hv Hi.
      rewrite (Hother k Hne), repair_get, Hk. unfold repaired. rewrite Hv, Hi.
      reflexivity.
    + intros k t Hk Hne Hbad.
      rewrite (Hother k Hne), repair_get, Hk. unfold repaired.
      destruct (dict_get d k) as [v |]; [| reflexivity].
      rewrite (Hbad v eq_refl). reflexivity.
    + rewrite dict_get_set_same. do 3 f_equal.
      rewrite repair_get. cbn [expected_type]. unfold repaired.
      change (expected_type "categories") with (Some list_t). cbv beta iota.
      unfold repaired.
      destruct (dict_get d "categories") as [[] |]; reflexivity.
Qed.

Lemma load_data_repairs_field_by_field_witness :
  exists d',
    fst (load_data (fun l => l) (fun _ => "?"%string)
           (mkState empty_document empty_face_store 0 None None
              (mkDisk (Some (Json (JDict [("income", JInt 3);
                                          ("note", JStr "kept");
                                          ("goals", JList [JInt 1])])))
                      None None None) []))
    = Ok (JDict d')
    /\ dict_get d' "note" = Some (JStr "kept")
    /\ dict_get d' "goals" = Some (JList [JInt 1])
    /\ dict_get d' "income" = Some (JList []).
Proof.
  destruct (load_data_repairs_field_by_field (fun l => l) (fun _ => "?"%string)
              (mkState empty_document empty_face_store 0 None None
                 (mkDisk (Some (Json (JDict [("income", JInt 3);
                                             ("note", JStr "kept");
                                             ("goals", JList [JInt 1])])))
                         None None None) [])
              [("income", JInt 3); ("note", JStr "kept"); ("goals", JList [JInt 1])]
              eq_refl eq_refl)
    as (d' & H & Hother & Hgood & Hbad & _).
  exists d'. split; [exact H |]. split; [| split].
  - rewrite (Hother "note"%string); reflexivity.
  - apply (Hgood "goals"%string list_t); [reflexivity | discriminate | reflexivity | reflexivity].
  - apply (Hbad "income"%string list_t); [reflexivity | discriminate |].
    intros v Hv. injection Hv as <-. reflexivity.
Defined.

(** * [save_data] and [save_face_data] under every failure pattern *)

(** Runs a method on a state whose files and pending failures are taken
    apart as far as the method looks at them. *)
Ltac run_io :=
  repeat (cbv beta iota zeta
              delta [bind attempt ret raise gets modify fallible next_fault
                     os_makedirs open_w dump os_path_exists os_remove os_rename
                     put_file json_load pickle_load notify_callbacks
                     read_at write_at set_fs set_faults set_notified
                     fs faults notified data face_data current_user environ_salt
                     at_data at_data_tmp at_face at_face_tmp fst snd];
          match goal with
          | |- context [match ?l with nil => _ | cons _ _ => _ end] =>
              is_var l; destruct l as [| [|] l]
          | |- context [match ?o with Some _ => _ | None => _ end] =>
              is_var o; destruct o
          end).

Lemma save_data_cases (arg : option json) (st : state) :
    (fst (save_data arg st) = Ok true ->
       at_data (fs (snd (save_data arg st))) = Some (Json (data_to_save arg st))
       /\ at_data_tmp (fs (snd (save_data arg st))) = None
       /\ notified (snd (save_data arg st)) = S (notified st))
    /\ (fst (save_data arg st) <> Ok true ->
          notified (snd (save_data arg st)) = notified st)
    /\ (at_data (fs (snd (save_data arg st))) = at_data (fs st)
        \/ at_data (fs (snd (save_data arg st))) = None
        \/ at_data (fs (snd (save_data arg st))) = Some (Json (data_to_save arg st)))
    /\ at_face (fs (snd (save_data arg st))) = at_face (fs st)
    /\ at_face_tmp (fs (snd (save_data arg st))) = at_face_tmp (fs st)
    /\ in_memory (snd (save_data arg st)) = in_memory st.
Proof.
  replace (save_data arg st) with (save_data (Some (data_to_save arg st)) st)
    by (destruct arg; reflexivity).
  generalize (data_to_save arg st). intro j.
  destruct st as [dc f n cu es [a tmp fa ft] fl].
  unfold save_data, in_memory.
  destruct j; run_io;
    repeat split; auto; try discriminate; try (intro H; exfalso; apply H; reflexivity).
Qed.

(** The outcomes of [save_data], over every failure pattern of
    its system calls. [arg] is the optional argument: Python's [None] is
    the absent one, so no caller passes [Some JNull]. When it returns [True] the data file holds exactly
    the document it was given, no temporary file is left and the observers
    were notified once. In every other case (it returns [False], or the
    clean-up raises) nobody is notified. In all cases the data file
    afterwards is the old one, the new one or absent, never a partly
    written one; the face-template files and everything in memory are
    untouched. *)
Theorem save_data_outcomes :
  forall (arg : option json) (st : state),
    arg <> Some JNull ->
    (fst (save_data arg st) = Ok true ->
       at_data (fs (snd (save_data arg st))) = Some (Json (data_to_save arg st))
       /\ at_data_tmp (fs (snd (save_data arg st))) = None
       /\ notified (snd (save_data arg st)) = S (notified st))
    /\ (fst (save_data arg st) <> Ok true ->
          notified (snd (save_data arg st)) = notified st)
    /\ (at_data (fs (snd (save_data arg st))) = at_data (fs st)
        \/ at_data (fs (snd (save_data arg st))) = None
        \/ at_data (fs (snd (save_data arg st))) = Some (Json (data_to_save arg st)))
    /\ at_face (fs (snd (save_data arg st))) = at_face (fs st)
    /\ at_face_tmp (fs (snd (save_data arg st))) = at_face_tmp (fs st)
    /\ in_memory (snd (save_data arg st)) = in_memory st.
Proof.
  intros arg st _. apply save_data_cases.
Qed.

Lemma save_data_outcomes_witness :
  at_data (fs (snd (save_data (Some old_document) before_rename_failure))) = None
  /\ notified (snd (save_data (Some old_document) before_rename_failure)) = 0%nat.
Proof.
  destruct (save_data_outcomes (Some old_document) before_rename_failure)
    as (_ & Hn & _); [discriminate |].
  split; [reflexivity | apply Hn; discriminate].
Defined.

(** A face store that [save_face_data] reports saved is the one
    [load_face_data] reads back, whatever failed on the way and whatever the
    files held before: the pickle is in place, no temporary file is left. *)
Theorem save_face_data_then_load :
  forall st : state,
    fst (save_face_data st) = Ok true ->
    hd false (faults (snd (save_face_data st))) = false ->
    at_face (fs (snd (save_face_data st))) = Some (Pickle (face_data st))
    /\ at_face_tmp (fs (snd (save_face_data st))) = None
    /\ fst (load_face_data (snd (save_face_data st))) = Ok (face_data st).
Proof.
  intro st.
  destruct st as [dc f n cu es [a tmp fa ft] fl].
  unfold save_face_data, load_face_data.
  run_io; intros Hr Hf; try discriminate Hr; try discriminate Hf;
    repeat split; reflexivity.
Qed.

Lemma save_face_data_then_load_witness :
  fst (load_face_data
         (snd (save_face_data
                 (mkState empty_document (mkFaceStore [zeros] ["alice"%string])
                          0 None None
                          (mkDisk None None (Some Truncated) None) []))))
  = Ok (mkFaceStore [zeros] ["alice"%string]).
Proof.
  apply (save_face_data_then_load
           (mkState empty_document (mkFaceStore [zeros] ["alice"%string])
                    0 None None
                    (mkDisk None None (Some Truncated) None) []));
    reflexivity.
Defined.

(** [load_face_data] never raises and never writes. What it returns is
    settled by the face file and by the read: the store pickled in the
    file when the read succeeds, and the empty store in every other case
    (the file is absent or cannot be read, is no pickle, or is a pickle
    without both keys). The read is its only system call. *)
Theorem load_face_data_reads_or_starts_empty :
  forall st : state,
    fst (load_face_data st)
    = Ok (match at_face (fs st) with
          | Some (Pickle f) => if hd false (faults st) then empty_face_store else f
          | _ => empty_face_store
          end)
    /\ faults (snd (load_face_data st))
       = match at_face (fs st) with
         | Some _ => tl (faults st)
         | None => faults st
         end
    /\ fs (snd (load_face_data st)) = fs st
    /\ in_memory (snd (load_face_data st)) = in_memory st.
Proof.
  intro st.
  destruct st as [dc f n cu es [a tmp fa ft] fl].
  unfold load_face_data, in_memory.
  run_io; try (destruct b); run_io; repeat split; reflexivity.
Qed.

(** * [add_transaction] *)

Lemma load_data_keeps_in_memory set_list py_str :
  keeps in_memory (load_data set_list py_str).
Proof.
  unfold load_data, json_load.
  pose proof keeps_save_data.
  keeps_tac.
Qed.

Lemma add_transaction_steps set_list py_str tt td st :
  tt = "income"%string \/ tt = "expenses"%string ->
  exists h l cs,
    fst (load_data set_list py_str st) = Ok (JDict h)
    /\ well_formed h
    /\ dict_get h tt = Some (JList l)
    /\ dict_get h "categories" = Some (JList cs)
    /\ add_transaction set_list py_str tt td st
       = (success <- save_data (Some (JDict (with_transaction tt td h l cs))) ;;
          if success : bool then notify_callbacks ;; ret true else ret false)
           (snd (load_data set_list py_str st)).
Proof.
  intro Htt.
  destruct (load_data_well_formed set_list py_str st) as (h & Hl & Hwf & lc & Hc).
  assert (Hin : In (tt, list_t) required_keys).
  { destruct Htt as [-> | ->]; simpl; auto. }
  destruct (Hwf tt list_t Hin) as (v & Hv & Hi).
  destruct v; try discriminate Hi.
  exists h, l, (map JStr lc). repeat split; auto.
  unfold add_transaction.
  replace (negb ((tt =? "income") || (tt =? "expenses"))) with false
    by (destruct Htt as [-> | ->]; reflexivity).
  unfold bind at 1.
  destruct (load_data set_list py_str st) as [r st1]. simpl in Hl. subst r.
  cbv beta iota zeta. rewrite Hv. cbv beta iota. rewrite Hv. cbv beta iota.
  unfold bind at 1. unfold preserve_category, with_transaction.
  assert (Hcat : forall x, dict_get (dict_set h tt x) "categories" = Some (JList (map JStr lc))).
  { intro x. rewrite dict_set_other; [exact Hc |].
    destruct Htt as [-> | ->]; reflexivity. }
  simpl snd.
  destruct (if tt =? "expenses" then dict_get td "category" else None) as [c |];
    [| reflexivity].
  rewrite !Hcat. cbv beta iota. rewrite ?Hcat. reflexivity.
Qed.

Lemma load_data_without_faults set_list py_str st :
  faults st = [] -> faults (snd (load_data set_list py_str st)) = [].
Proof.
  destruct st as [dc f n cu es [a tmp fa ft] fl]. simpl. intros ->.
  destruct a as [b |].
  - cbv beta iota zeta
        delta [load_data bind attempt os_path_exists gets json_load fallible
               next_fault read_at fs at_data faults fst snd ret raise].
    destruct b as [j | p | |]; try reflexivity.
    destruct j; try reflexivity.
    destruct (repair_categories_is_list d) as [cs ->]. reflexivity.
  - unfold load_data, bind at 1, attempt, bind at 1, os_path_exists, gets.
    cbn [read_at fs at_data]. cbv beta iota. unfold bind at 1, bind at 1.
    unfold default_data at 1. rewrite save_data_without_faults by reflexivity.
    cbv beta iota. unfold ret at 1. cbv beta iota.
    unfold default_data at 1. cbv beta iota zeta.
    match goal with
    | |- context [repair ?d] => destruct (repair_categories_is_list d) as [cs ->]
    end.
    reflexivity.
Qed.

Lemma with_transaction_gets tt td h l cs :
  tt = "income"%string \/ tt = "expenses"%string ->
  dict_get h "categories" = Some (JList cs) ->
  dict_get (with_transaction tt td h l cs) tt = Some (JList (l ++ [JDict td]))
  /\ dict_get (with_transaction tt td h l cs) "categories"
     = Some (JList (match (if tt =? "expenses"
                           then dict_get td "category" else None) with
                    | Some category =>
                        if in_categories category cs then cs else cs ++ [category]
                    | None => cs
                    end))
  /\ (forall k, k <> tt -> k <> "categories"%string ->
                dict_get (with_transaction tt td h l cs) k = dict_get h k)
  /\ incl (map fst h) (map fst (with_transaction tt td h l cs)).
Proof.
  intros Htt Hc. unfold with_transaction.
  assert (Hne : ("categories" =? tt) = false)
    by (destruct Htt as [-> | ->]; reflexivity).
  assert (Hne' : (tt =? "categories") = false)
    by (destruct Htt as [-> | ->]; reflexivity).
  assert (Hkeys : forall d k v, incl (map fst d) (map fst (dict_set d k v))).
  { intros d k v. induction d as [| [k0 v0] t IH]; simpl.
    - intros x [].
    - destruct (k0 =? k); simpl.
      + apply incl_refl.
      + intros x [<- | Hx]; [left; reflexivity | right; apply IH, Hx]. }
  destruct (if tt =? "expenses" then dict_get td "category" else None) as [c |];
    [destruct (in_categories c cs) |].
  - repeat split.
    + apply dict_get_set_same.
    + rewrite dict_set_other; assumption.
    + intros k Hk _. apply dict_set_other. now apply String.eqb_neq.
    + apply Hkeys.
  - repeat split.
    + rewrite dict_set_other by exact Hne'. apply dict_get_set_same.
    + apply dict_get_set_same.
    + intros k Hk Hk'. rewrite !dict_set_other; [reflexivity | |];
        now apply String.eqb_neq.
    + eapply incl_tran; apply Hkeys.
  - repeat split.
    + apply dict_get_set_same.
    + rewrite dict_set_other; assumption.
    + intros k Hk _. apply dict_set_other. now apply String.eqb_neq.
    + apply Hkeys.
Qed.

Lemma add_transaction_valid_type set_list py_str tt td st :
  fst (add_transaction set_list py_str tt td st) = Ok true ->
  tt = "income"%string \/ tt = "expenses"%string.
Proof.
  unfold add_transaction.
  destruct (String.eqb_spec tt "income") as [-> | _]; [auto |].
  destruct (String.eqb_spec tt "expenses") as [-> | _]; [auto |].
  discriminate.
Qed.

(** A transaction that [add_transaction] reports added is in the
    data file: the file holds the dict [load_data] returned, with the
    transaction appended at the end of the list of its type, with the
    category of an expense appended to "categories" unless it is listed
    already, and with every other field as it was. The observers were
    notified twice (by [save_data] and by [add_transaction] itself), and
    the document in memory, [self.data], is not updated. *)
Theorem add_transaction_appends :
  forall (set_list : list string -> list string) (py_str : json -> string)
         (transaction_type : string) (transaction_data : list (string * json))
         (st : state),
    fst (add_transaction set_list py_str transaction_type transaction_data st)
    = Ok true ->
    exists h l cs d',
      fst (load_data set_list py_str st) = Ok (JDict h)
      /\ dict_get h transaction_type = Some (JList l)
      /\ dict_get h "categories" = Some (JList cs)
      /\ at_data (fs (snd (add_transaction set_list py_str transaction_type
                                           transaction_data st)))
         = Some (Json (JDict d'))
      /\ dict_get d' transaction_type = Some (JList (l ++ [JDict transaction_data]))
      /\ dict_get d' "categories"
         = Some (JList (match (if transaction_type =? "expenses"
                               then dict_get transaction_data "category"
                               else None) with
                        | Some category =>
                            if in_categories category cs then cs
                            else cs ++ [category]
                        | None => cs
                        end))
      /\ (forall k, k <> transaction_type -> k <> "categories"%string ->
                    dict_get d' k = dict_get h k)
      /\ notified (snd (add_transaction set_list py_str transaction_type
                                        transaction_data st))
         = S (S (notified (snd (load_data set_list py_str st))))
      /\ data (snd (add_transaction set_list py_str transaction_type
                                    transaction_data st))
         = data st.
Proof.
  intros set_list py_str tt td st Hok.
  pose proof (add_transaction_valid_type _ _ _ _ _ Hok) as Htt.
  destruct (add_transaction_steps set_list py_str tt td st Htt)
    as (h & l & cs & Hl & Hwf & Hv & Hc & Heq).
  rewrite Heq in *. clear Heq.
  pose proof (load_data_keeps_in_memory set_list py_str st) as Hmem.
  destruct (load_data set_list py_str st) as [r st1]. simpl in Hl, Hmem. simpl snd in *.
  destruct (with_transaction_gets tt td h l cs Htt Hc) as (G1 & G2 & G3 & _).
  destruct (save_data_cases (Some (JDict (with_transaction tt td h l cs))) st1)
    as (Hs & _ & _ & _ & _ & Hm).
  unfold bind in *.
  destruct (save_data (Some (JDict (with_transaction tt td h l cs))) st1)
    as [[[|] | e] st2]; try discriminate Hok.
  destruct (Hs eq_refl) as (Hfile & _ & Hn). simpl in Hfile, Hn, Hm.
  exists h, l, cs, (with_transaction tt td h l cs).
  repeat split; auto.
  - simpl. rewrite Hn. reflexivity.
  - simpl. unfold in_memory in Hm, Hmem. congruence.
Qed.

Lemma add_transaction_appends_witness :
  exists d',
    at_data (fs (snd (add_transaction (fun l => l) (fun _ => "?"%string) "expenses"
                        [("amount", JInt 5); ("category", JStr "Food")]
                        (fresh_state []))))
    = Some (Json (JDict d'))
    /\ dict_get d' "expenses"
       = Some (JList [JDict [("amount", JInt 5); ("category", JStr "Food")]])
    /\ dict_get d' "categories" = Some (JList [JStr "Food"]).
Proof.
  destruct (add_transaction_appends (fun l => l) (fun _ => "?"%string) "expenses"
              [("amount", JInt 5); ("category", JStr "Food")] (fresh_state [])
              eq_refl)
    as (h & l & cs & d' & Hl & Hv & Hc & Hfile & He & Hcat & _).
  vm_compute in Hl. injection Hl as <-.
  vm_compute in Hv. injection Hv as <-.
  vm_compute in Hc. injection Hc as <-.
  exists d'. split; [exact Hfile |]. split; [exact He | exact Hcat].
Defined.

(** With a valid type and no failing system call [add_transaction] does
    return [True], whatever the data file holds (nothing, a damaged file,
    any JSON value) and whatever the transaction is. *)
Theorem add_transaction_succeeds_without_faults :
  forall (set_list : list string -> list string) (py_str : json -> string)
         (transaction_type : string) (transaction_data : list (string * json))
         (st : state),
    transaction_type = "income"%string \/ transaction_type = "expenses"%string ->
    faults st = [] ->
    fst (add_transaction set_list py_str transaction_type transaction_data st)
    = Ok true.
Proof.
  intros set_list py_str tt td st Htt Hf.
  destruct (add_transaction_steps set_list py_str tt td st Htt)
    as (h & l & cs & _ & _ & _ & _ & ->).
  unfold bind at 1.
  rewrite save_data_without_faults
    by (apply load_data_without_faults; exact Hf).
  reflexivity.
Qed.

Lemma add_transaction_succeeds_without_faults_witness :
  fst (add_transaction (fun l => l) (fun _ => "?"%string) "income"
         [("amount", JInt 100)]
         (mkState empty_document empty_face_store 0 None None
                  (mkDisk (Some Truncated) None None None) []))
  = Ok true.
Proof.
  apply (add_transaction_succeeds_without_faults (fun l => l) (fun _ => "?"%string)
           "income" [("amount", JInt 100)]
           (mkState empty_document empty_face_store 0 None None
                    (mkDisk (Some Truncated) None None None) []));
    [left; reflexivity | reflexivity].
Defined.

Lemma add_transaction_keeps_in_memory set_list py_str tt td :
  keeps in_memory (add_transaction set_list py_str tt td).
Proof.
  unfold add_transaction, preserve_category.
  pose proof (load_data_keeps_in_memory set_list py_str).
  pose proof keeps_save_data.
  keeps_tac.
Qed.

(** A transaction type other than "income" and "expenses" raises
    [ValueError] before anything is read or written; and for every input,
    accepted or not, saved or not, [add_transaction] leaves [self.data],
    the document in memory, as it was. *)
Theorem add_transaction_never_updates_the_document_in_memory :
  forall (set_list : list string -> list string) (py_str : json -> string)
         (transaction_type : string) (transaction_data : list (string * json))
         (st : state),
    in_memory (snd (add_transaction set_list py_str transaction_type
                                    transaction_data st))
    = in_memory st
    /\ ((transaction_type =? "income") || (transaction_type =? "expenses") = false ->
        add_transaction set_list py_str transaction_type transaction_data st
        = (Raise ValueError, st)).
Proof.
  intros set_list py_str tt td st. split.
  - apply add_transaction_keeps_in_memory.
  - intro H. unfold add_transaction. rewrite H. reflexivity.
Qed.

(** How [add_transaction] and [save_data()] compose: the document in
    memory knows nothing of the transactions added, so a later [save_data()]
    that succeeds (the one of [register_user], say) leaves in the data file
    the document as it was in memory before the transaction. *)
Theorem save_data_after_add_transaction_writes_the_old_document :
  forall (set_list : list string -> list string) (py_str : json -> string)
         (transaction_type : string) (transaction_data : list (string * json))
         (st : state),
    fst (save_data None (snd (add_transaction set_list py_str transaction_type
                                              transaction_data st)))
    = Ok true ->
    at_data (fs (snd (save_data None
                        (snd (add_transaction set_list py_str transaction_type
                                              transaction_data st)))))
    = Some (Json (json_of_document (data st))).
Proof.
  intros set_list py_str tt td st Hok.
  destruct (save_data_cases None (snd (add_transaction set_list py_str tt td st)))
    as (Hs & _).
  destruct (Hs Hok) as (Hfile & _). rewrite Hfile. simpl.
  pose proof (add_transaction_keeps_in_memory set_list py_str tt td st) as Hm.
  unfold in_memory in Hm. congruence.
Qed.

(** The expense added is in the file after [add_transaction] and gone
    after the next [save_data()]. *)
Lemma save_data_after_add_transaction_writes_the_old_document_witness :
  dict_get
    match at_data (fs (snd (add_transaction (fun l => l) (fun _ => "?"%string)
                              "expenses" [("amount", JInt 5)] (fresh_state []))))
    with Some (Json (JDict d)) => d | _ => [] end "expenses"
  = Some (JList [JDict [("amount", JInt 5)]])
  /\ at_data (fs (snd (save_data None
                         (snd (add_transaction (fun l => l) (fun _ => "?"%string)
                                 "expenses" [("amount", JInt 5)] (fresh_state []))))))
     = Some (Json (json_of_document empty_document)).
Proof.
  split; [reflexivity |].
  apply (save_data_after_add_transaction_writes_the_old_document
           (fun l => l) (fun _ => "?"%string) "expenses" [("amount", JInt 5)]
           (fresh_state [])).
  reflexivity.
Defined.

(** * A registration that succeeds *)

Lemma save_face_data_cases st :
  fst (save_face_data st) = Ok true ->
  at_face (fs (snd (save_face_data st))) = Some (Pickle (face_data st))
  /\ at_face_tmp (fs (snd (save_face_data st))) = None
  /\ at_data (fs (snd (save_face_data st))) = at_data (fs st)
  /\ in_memory (snd (save_face_data st)) = in_memory st
  /\ notified (snd (save_face_data st)) = notified st.
Proof.
  destruct st as [dc f n cu es [a tmp fa ft] fl].
  unfold save_face_data, in_memory.
  run_io; intros Hr; try discriminate Hr; repeat split; reflexivity.
Qed.

Ltac hide_conclusion :=
  match goal with
  | |- _ = _ -> ?G => let C := fresh "Concl" in set (C := G)
  end.

Ltac run_registration :=
  cbv beta iota zeta
      delta [bind attempt gets ret raise modify set_users user_exists
             _hash_password enrol_face is_some];
  cbn [app]; cbv beta iota.

Lemma register_user_success_steps name password face now st st' :
  register_user name password face now st = (Ok true, st') ->
  let st2 := with_template name face (with_user (new_user st name password face now) st) in
  let st3 := match face with Some _ => snd (save_face_data st2) | None => st2 end in
  truthy_str name = true
  /\ existsb (fun u => username u =? name) (users (data st)) = false
  /\ (forall e, face = Some e -> List.length e = 128%nat)
  /\ (face <> None -> fst (save_face_data st2) = Ok true)
  /\ fst (save_data None st3) = Ok true
  /\ st' = snd (save_data None st3).
Proof.
  cbv zeta. unfold new_user, with_user, with_template, register_user.
  destruct (truthy_str name) eqn:Hn; [| discriminate].
  cbn [negb]. unfold bind at 1, user_exists at 1, gets at 1.
  destruct (existsb (fun u => username u =? name) (users (data st))) eqn:Hex;
    [discriminate |].
  cbv beta iota.
  destruct face as [e |].
  - destruct (List.length e =? 128)%nat eqn:Hlen; cbn [negb]; [| discriminate].
    apply Nat.eqb_eq in Hlen.
    destruct (truthy_opt password) eqn:Hp; cbn [is_some app];
      hide_conclusion; run_registration;
      (match goal with
       | |- context [save_face_data ?s] =>
           destruct (save_face_data s) as [[[|] | ex] st3] eqn:Hsf
       end; cbv beta iota;
       [ match goal with
         | |- context [save_data None ?s] =>
             destruct (save_data None s) as [[[|] | ex] st4] eqn:Hsd
         end; cbv beta iota;
         [ intro H; injection H as <-; subst Concl; cbv beta iota;
           match type of Hsf with
           | save_face_data ?s = _ =>
               repeat match goal with
                      | |- context [save_face_data ?s'] =>
                          tryif constr_eq s' s then fail else change s' with s
                      end
           end;
           rewrite Hsf; cbn [fst snd]; rewrite Hsd;
           repeat split; auto;
           intros e' He'; injection He' as <-; exact Hlen
         | | ]
       | | ]).
    all: try (intro H; exfalso; revert H;
              repeat match goal with
                     | |- context [rollback_face ?a ?b ?c] =>
                         destruct (rollback_face a b c) as [[[] | ?] ?]
                     | |- context [if ?c then _ else _] => destruct c
                     end; cbv beta iota; discriminate).
  - cbv beta iota.
    destruct (truthy_opt password) eqn:Hp; cbn [is_some app];
      hide_conclusion; run_registration; [| discriminate].
    match goal with
    | |- context [save_data None ?s] =>
        destruct (save_data None s) as [[[|] | ex] st4] eqn:Hsd
    end; cbv beta iota.
    + intro H; injection H as <-; subst Concl; cbv beta iota; cbn [app].
      repeat split; auto; try discriminate.
      intro H. exfalso. apply H. reflexivity.
    + discriminate.
    + intro H; exfalso; revert H.
      repeat match goal with
             | |- context [if ?c then _ else _] => destruct c
             end; cbv beta iota; discriminate.
Qed.

Lemma hash_with_salt_truthy salt password :
  truthy_opt password = true ->
  truthy_opt (hash_with_salt salt password) = true.
Proof.
  destruct password as [p |]; [| discriminate]. simpl. intros ->.
  simpl. apply hexdigest_truthy.
Qed.

Lemma register_user_success_facts :
  forall (name : string) (password : option string) (face : option encoding)
         (now : string) (st st' : state),
    register_user name password face now st = (Ok true, st') ->
    name <> ""%string
    /\ fst (user_exists name st) = Ok false
    /\ users (data st') = users (data st) ++ [new_user st name password face now]
    /\ at_data (fs st') = Some (Json (json_of_document (data st')))
    /\ face_data st'
       = match face with
         | Some e => mkFaceStore (encodings (face_data st) ++ [e])
                                 (usernames (face_data st) ++ [name])
         | None => face_data st
         end
    /\ (forall e, face = Some e ->
                  List.length e = 128%nat
                  /\ at_face (fs st') = Some (Pickle (face_data st')))
    /\ fst (user_exists name st') = Ok true
    /\ fst (get_user_auth_methods name st')
       = Ok (auth_methods (new_user st name password face now))
    /\ fst (get_user_face_encoding name st') = Ok face.
Proof.
  intros name password face now st st' H.
  destruct (register_user_success_steps _ _ _ _ _ _ H)
    as (Hn & Hex & Hlen & Hsf & Hsd & ->).
  set (u := new_user st name password face now) in *.
  set (st2 := with_template name face (with_user u st)) in *.
  set (st3 := match face with Some _ => snd (save_face_data st2) | None => st2 end) in *.
  destruct (save_data_cases None st3) as (Hs & _ & _ & Hface & _ & Hmem).
  destruct (Hs Hsd) as (Hfile & _ & _). clear Hs.
  assert (Hmem3 : in_memory st3 = in_memory st2).
  { subst st3. destruct face; [| reflexivity]. apply keeps_save_face_data. }
  assert (Hd : data (snd (save_data None st3)) = data st2)
    by (unfold in_memory in *; congruence).
  assert (Hf : face_data (snd (save_data None st3)) = face_data st2)
    by (unfold in_memory in *; congruence).
  assert (Hd2 : users (data st2) = users (data st) ++ [u]).
  { subst st2. destruct face; reflexivity. }
  assert (Hfind : find_user name (users (data (snd (save_data None st3)))) = Some u).
  { rewrite Hd, Hd2. apply find_user_fresh; [exact Hex | reflexivity]. }
  split; [intros ->; discriminate Hn |].
  split; [unfold user_exists, gets; simpl; rewrite Hex; reflexivity |].
  split; [rewrite Hd; exact Hd2 |].
  split; [rewrite Hfile; simpl; unfold in_memory in Hmem; congruence |].
  split; [rewrite Hf; subst st2; destruct face; reflexivity |].
  split.
  { intros e ->. split; [apply (Hlen e eq_refl) |].
    rewrite Hface, Hf. subst st3.
    destruct (save_face_data_cases st2 (Hsf ltac:(discriminate))) as (Hp & _).
    exact Hp. }
  split.
  { unfold user_exists, gets. simpl. rewrite Hd, Hd2, existsb_app. simpl.
    rewrite String.eqb_refl, Bool.orb_true_r. reflexivity. }
  split.
  { unfold get_user_auth_methods, bind, gets. rewrite Hfind. simpl.
    subst u. unfold new_user. simpl.
    destruct (truthy_opt password) eqn:Hp.
    - rewrite (hash_with_salt_truthy _ _ Hp).
      destruct face as [[| x e] |]; try reflexivity.
      specialize (Hlen [] eq_refl). discriminate Hlen.
    - simpl. destruct face as [[| x e] |]; try reflexivity.
      specialize (Hlen [] eq_refl). discriminate Hlen. }
  unfold get_user_face_encoding, bind, gets. rewrite Hfind. simpl.
  destruct face as [[| x e] |]; try reflexivity.
  specialize (Hlen [] eq_refl). discriminate Hlen.
Qed.

(** What a registration that returns [True] has done: the username was
    non-empty and free; exactly one record, the one built from the
    arguments, was appended to the users in memory, and the data file holds
    that document; a face template, if one was given, has 128 entries and
    was appended with the username to the face store, which is the store
    pickled in the face file; and the queries agree with the record:
    [user_exists] is [True], [get_user_auth_methods] returns the methods
    stored, [get_user_face_encoding] returns the template. *)
Theorem register_user_success_postcondition :
  forall (name : string) (password : option string) (face : option encoding)
         (now : string) (st st' : state),
    register_user name password face now st = (Ok true, st') ->
    name <> ""%string
    /\ fst (user_exists name st) = Ok false
    /\ users (data st') = users (data st) ++ [new_user st name password face now]
    /\ at_data (fs st') = Some (Json (json_of_document (data st')))
    /\ face_data st'
       = match face with
         | Some e => mkFaceStore (encodings (face_data st) ++ [e])
                                 (usernames (face_data st) ++ [name])
         | None => face_data st
         end
    /\ (forall e, face = Some e ->
                  List.length e = 128%nat
                  /\ at_face (fs st') = Some (Pickle (face_data st')))
    /\ fst (user_exists name st') = Ok true
    /\ fst (get_user_auth_methods name st')
       = Ok (auth_methods (new_user st name password face now))
    /\ fst (get_user_face_encoding name st') = Ok face.
Proof.
  exact register_user_success_facts.
Qed.

Lemma register_user_success_postcondition_witness :
  fst (get_user_auth_methods "bob"
         (snd (register_user "bob" (Some "longpassword1") (Some zeros)
                             "2024-01-02T00:00:00" (fresh_state []))))
  = Ok ["password"%string; "face"%string]
  /\ fst (get_user_face_encoding "bob"
            (snd (register_user "bob" (Some "longpassword1") (Some zeros)
                                "2024-01-02T00:00:00" (fresh_state []))))
     = Ok (Some zeros).
Proof.
  assert (H : register_user "bob" (Some "longpassword1"%string) (Some zeros)
                            "2024-01-02T00:00:00" (fresh_state [])
              = (Ok true,
                 snd (register_user "bob" (Some "longpassword1"%string) (Some zeros)
                                    "2024-01-02T00:00:00" (fresh_state []))))
    by (vm_compute; reflexivity).
  destruct (register_user_success_postcondition _ _ _ _ _ _ H)
    as (_ & _ & _ & _ & _ & _ & _ & Hm & Hf).
  split; [exact Hm | exact Hf].
Defined.

(** * Face login *)

(** ** The distance of a template to itself *)

Lemma fsub_self x : is_finite x = true -> fsub x x = S754_zero false.
Proof.
  destruct x as [s | s | | s m e]; try discriminate; intros _.
  - destruct s; reflexivity.
  - unfold fsub, SFsub. rewrite Z.sub_diag. reflexivity.
Qed.

Lemma in_combine_self {A} (l : list A) a b : In (a, b) (combine l l) -> a = b /\ In a l.
Proof.
  induction l as [| x t IH]; simpl; [contradiction |].
  intros [H | H].
  - injection H as <- <-. auto.
  - destruct (IH H). auto.
Qed.

Lemma broadcast_sub_self e :
  finite_entries e ->
  forall d, In d (broadcast_sub e e) -> d = S754_zero false.
Proof.
  intros Hfin d Hin.
  assert (Hcomb : In d (map (fun xp => fsub (to_float (fst xp)) (to_float (snd xp)))
                            (combine e e))).
  { destruct e as [| x [| y r]]; exact Hin. }
  apply in_map_iff in Hcomb. destruct Hcomb as ([a b] & <- & Hab).
  apply in_combine_self in Hab. destruct Hab as [<- Ha].
  apply fsub_self, Hfin, Ha.
Qed.

Lemma all_zero_firstn n l : all_zero l -> all_zero (firstn n l).
Proof.
  intros H d Hd. apply H. rewrite <- (firstn_skipn n l). apply in_or_app. auto.
Qed.

Lemma all_zero_skipn n l : all_zero l -> all_zero (skipn n l).
Proof.
  intros H d Hd. apply H. rewrite <- (firstn_skipn n l). apply in_or_app. auto.
Qed.

Lemma fold_left_fadd_zero l :
  all_zero l -> fold_left fadd l (S754_zero false) = S754_zero false.
Proof.
  induction l as [| d t IH]; intro H; simpl; [reflexivity |].
  rewrite (H d (or_introl eq_refl)). apply IH.
  intros d' Hd'. apply H. right. exact Hd'.
Qed.

Lemma add8_zero r c : all_zero r -> all_zero c -> all_zero (add8 r c).
Proof.
  intros Hr Hc d Hd. unfold add8 in Hd. apply in_map_iff in Hd.
  destruct Hd as ([a b] & <- & Hab). simpl.
  rewrite (Hr a (in_combine_l _ _ _ _ Hab)), (Hc b (in_combine_r _ _ _ _ Hab)).
  reflexivity.
Qed.

Lemma accumulate8_zero fuel :
  forall r l, all_zero r -> all_zero l ->
              all_zero (fst (accumulate8 fuel r l)) /\ all_zero (snd (accumulate8 fuel r l)).
Proof.
  induction fuel as [| fuel IH]; intros r l Hr Hl; [simpl; auto |].
  cbn [accumulate8]. destruct (8 <=? List.length l)%nat; [| simpl; auto].
  apply IH.
  - apply add8_zero; [exact Hr | apply all_zero_firstn, Hl].
  - apply all_zero_skipn, Hl.
Qed.

Lemma tree8_zero r : all_zero r -> tree8 r = S754_zero false.
Proof.
  intro H. unfold tree8.
  destruct r as [| r0 [| r1 [| r2 [| r3 [| r4 [| r5 [| r6 [| r7 [| r8 r]]]]]]]]];
    try reflexivity.
  rewrite (H r0), (H r1), (H r2), (H r3), (H r4), (H r5), (H r6), (H r7);
    simpl; auto 10.
Qed.

Lemma block_sum_zero l : all_zero l -> block_sum l = S754_zero false.
Proof.
  intro H. unfold block_sum.
  destruct (accumulate8_zero (List.length l) (firstn 8 l) (skipn 8 l)
                             (all_zero_firstn 8 l H) (all_zero_skipn 8 l H))
    as [Hr Hrest].
  destruct (accumulate8 (List.length l) (firstn 8 l) (skipn 8 l)) as [r rest].
  simpl in Hr, Hrest. rewrite (tree8_zero r Hr). apply fold_left_fadd_zero, Hrest.
Qed.

Lemma pairwise_sum_zero fuel :
  forall l, all_zero l -> pairwise_sum fuel l = S754_zero false.
Proof.
  induction fuel as [| fuel IH]; intros l H; cbn [pairwise_sum]; cbv zeta.
  - destruct (List.length l <? 8)%nat; [apply fold_left_fadd_zero, H |].
    destruct (List.length l <=? 128)%nat; [apply block_sum_zero, H | reflexivity].
  - destruct (List.length l <? 8)%nat; [apply fold_left_fadd_zero, H |].
    destruct (List.length l <=? 128)%nat; [apply block_sum_zero, H |].
    rewrite (IH _ (all_zero_firstn _ l H)), (IH _ (all_zero_skipn _ l H)).
    reflexivity.
Qed.

(** A template of finite floats is at distance [+0.0] from itself. *)
Lemma norm_diff_self e : finite_entries e -> norm_diff e e = S754_zero false.
Proof.
  intro Hfin. unfold norm_diff, add_reduce.
  rewrite pairwise_sum_zero; [reflexivity |].
  intros d Hd. apply in_map_iff in Hd. destruct Hd as (x & <- & Hx).
  rewrite (broadcast_sub_self e Hfin x Hx). reflexivity.
Qed.

(** Rows of one length, which is the probe's, make an array that numpy
    subtracts the probe from. *)
Lemma face_distance_homogeneous known probe n :
  (forall e, In e known -> List.length e = n) ->
  List.length probe = n ->
  face_distance known probe = Ok (map (fun e => norm_diff e probe) known).
Proof.
  intros Hk Hp. unfold face_distance. destruct known as [| e rest]; [reflexivity |].
  replace (forallb (fun e' => (List.length e' =? List.length e)%nat) rest) with true.
  2:{ symmetry. apply forallb_forall. intros x Hx. apply Nat.eqb_eq.
      rewrite (Hk x (or_intror Hx)), (Hk e (or_introl eq_refl)). reflexivity. }
  unfold broadcastable. rewrite (Hk e (or_introl eq_refl)), Hp, Nat.eqb_refl.
  reflexivity.
Qed.

Lemma index_true_app_false l b :
  (forall x, In x l -> x = false) ->
  index_true (l ++ [b]) = if b then Some (List.length l) else None.
Proof.
  intro H. induction l as [| a t IH]; simpl.
  - destruct b; reflexivity.
  - rewrite (H a (or_introl eq_refl)). rewrite IH by (intros x Hx; apply H; right; exact Hx).
    destruct b; reflexivity.
Qed.

(** Registration and face login compose: after a registration with a face
    template that returned [True], [authenticate_face] resolves that very
    template to the new username, provided its entries are finite floats
    and no template enrolled earlier is within 0.4 of it (the store being
    parallel, with 128 entries in every template); nothing is changed by
    the login. *)
Theorem register_user_then_authenticate_face :
  forall (name : string) (password : option string) (e : encoding)
         (now : string) (st st' : state),
    register_user name password (Some e) now st = (Ok true, st') ->
    parallel (face_data st) ->
    finite_entries e ->
    (forall e', In e' (encodings (face_data st)) ->
                List.length e' = 128%nat
                /\ fle (norm_diff e' e) (to_float tolerance_login) = false) ->
    authenticate_face e st' = (Ok (Some name), st').
Proof.
  intros name password e now st st' H Hpar Hfin Hold.
  destruct (register_user_success_steps _ _ _ _ _ _ H)
    as (_ & Hex & Hlen & Hsf & Hsd & Hst').
  specialize (Hlen e eq_refl).
  set (u := new_user st name password (Some e) now) in *.
  set (st2 := with_template name (Some e) (with_user u st)) in *.
  assert (Hmem : in_memory st' = in_memory st2).
  { subst st'. rewrite (keeps_save_data None). apply keeps_save_face_data. }
  assert (Hf : face_data st' = mkFaceStore (encodings (face_data st) ++ [e])
                                           (usernames (face_data st) ++ [name])).
  { unfold in_memory in Hmem. replace (face_data st') with (face_data st2) by congruence.
    reflexivity. }
  assert (Hu : users (data st') = users (data st) ++ [u]).
  { unfold in_memory in Hmem. replace (data st') with (data st2) by congruence.
    reflexivity. }
  clear Hst' Hsf Hsd Hmem.
  unfold authenticate_face, bind, gets. rewrite Hf. cbn [encodings usernames].
  clear Hf.
  destruct (encodings (face_data st) ++ [e]) as [| e0 es] eqn:Happ.
  { destruct (encodings (face_data st)); discriminate Happ. }
  rewrite <- Happ. clear Happ e0 es.
  unfold lift, compare_faces.
  rewrite (face_distance_homogeneous _ e 128%nat).
  2:{ intros x Hx. apply in_app_or in Hx.
      destruct Hx as [Hx | [<- | []]]; [apply (Hold x Hx) | exact Hlen]. }
  2:{ exact Hlen. }
  cbv beta iota. rewrite !map_map, map_app. cbn [map].
  rewrite index_true_app_false.
  2:{ intros b Hb. apply in_map_iff in Hb. destruct Hb as (x & <- & Hx).
      apply (Hold x Hx). }
  replace (dist_le_tol (norm_diff e e) tolerance_login) with true.
  2:{ rewrite (norm_diff_self e Hfin). reflexivity. }
  rewrite length_map, Hpar, nth_error_app2, Nat.sub_diag by apply le_n.
  simpl. unfold user_exists, gets. rewrite Hu, existsb_app. simpl.
  rewrite String.eqb_refl, Bool.orb_true_r. reflexivity.
Qed.

(** "alice" is enrolled at distance 1 from the template "bob" registers
    and then logs in with. *)
Lemma register_user_then_authenticate_face_witness :
  fst (authenticate_face zeros
         (snd (register_user "bob" None (Some zeros) "2024-01-02T00:00:00"
                 (snd (register_user "alice" None (Some (axis 1))
                                     "2024-01-01T00:00:00" (fresh_state []))))))
  = Ok (Some "bob"%string).
Proof.
  rewrite (register_user_then_authenticate_face
             "bob" None zeros "2024-01-02T00:00:00"
             (snd (register_user "alice" None (Some (axis 1))
                                 "2024-01-01T00:00:00" (fresh_state [])))
             (snd (register_user "bob" None (Some zeros) "2024-01-02T00:00:00"
                     (snd (register_user "alice" None (Some (axis 1))
                                         "2024-01-01T00:00:00" (fresh_state [])))))).
  - reflexivity.
  - vm_compute. reflexivity.
  - reflexivity.
  - intros q Hq. apply repeat_spec in Hq. subst q. reflexivity.
  - intros e' Hin. vm_compute in Hin. destruct Hin as [<- | []].
    split; vm_compute; reflexivity.
Defined.

(** A template with an entry beyond the largest float is stored as it is
    and is at no distance from itself: the difference of the two
    infinities is NaN, and the login with the registered template
    fails. *)
Lemma infinite_entry_never_matches :
  let e := axis (10 ^ 400) in
  fst (register_user "bob" None (Some e) "2024-01-02T00:00:00" (fresh_state []))
  = Ok true
  /\ norm_diff e e = S754_nan
  /\ fst (authenticate_face e
            (snd (register_user "bob" None (Some e) "2024-01-02T00:00:00"
                                (fresh_state []))))
     = Ok None.
Proof. vm_compute. repeat split. Qed.

(** [authenticate_face] resolves a probe to the first template within the
    login tolerance: when it returns a username, that username stands at
    the least index whose template is matched, the distance numpy computes
    for it being at most the float 0.4; it has an account, and nothing was
    changed. *)
Theorem authenticate_face_first_within_tolerance :
  forall (st : state) (probe : encoding) (name : string),
    fst (authenticate_face probe st) = Ok (Some name) ->
    exists idx e,
      nth_error (encodings (face_data st)) idx = Some e
      /\ fle (norm_diff e probe) (to_float tolerance_login) = true
      /\ (forall j e', (j < idx)%nat ->
                       nth_error (encodings (face_data st)) j = Some e' ->
                       fle (norm_diff e' probe) (to_float tolerance_login) = false)
      /\ nth_error (usernames (face_data st)) idx = Some name
      /\ fst (user_exists name st) = Ok true
      /\ snd (authenticate_face probe st) = st.
Proof.
  intros st probe name H.
  destruct (authenticate_face_cases st probe (Some name) H)
    as (Hst & ms & idx & Hc & Hi & Hn & Hex).
  pose proof (index_true_nth _ _ Hi) as Ht.
  pose proof (compare_faces_length _ _ _ _ Hc) as Hlen.
  destruct (nth_error (encodings (face_data st)) idx) as [e |] eqn:He.
  2:{ apply nth_error_None in He.
      assert (idx < List.length ms)%nat
        by (apply nth_error_Some; rewrite Ht; discriminate).
      lia. }
  exists idx, e. split; [exact He |].
  rewrite (compare_faces_nth _ _ _ _ _ _ Hc He) in Ht. injection Ht as Ht.
  split; [exact Ht |].
  split.
  { intros j e' Hlt Hj.
    pose proof (index_true_first _ _ _ Hi Hlt) as Hf.
    rewrite (compare_faces_nth _ _ _ _ _ _ Hc Hj) in Hf. injection Hf as Hf.
    exact Hf. }
  split; [exact Hn |].
  split; [| exact Hst].
  unfold user_exists, gets. simpl. rewrite Hex. reflexivity.
Qed.

(** Alice's template, 0.38 from the probe, stands before bob's, which is
    the probe itself. *)
Lemma authenticate_face_first_within_tolerance_witness :
  exists idx e,
    nth_error (encodings (face_data near_duplicates)) idx = Some e
    /\ fle (norm_diff e zeros) (to_float tolerance_login) = true
    /\ (forall j e', (j < idx)%nat ->
                     nth_error (encodings (face_data near_duplicates)) j = Some e' ->
                     fle (norm_diff e' zeros) (to_float tolerance_login) = false)
    /\ nth_error (usernames (face_data near_duplicates)) idx = Some "alice"%string
    /\ fst (user_exists "alice" near_duplicates) = Ok true
    /\ snd (authenticate_face zeros near_duplicates) = near_duplicates.
Proof.
  apply (authenticate_face_first_within_tolerance near_duplicates zeros "alice").
  vm_compute. reflexivity.
Defined.

Lemma save_face_data_without_faults st :
  faults st = [] ->
  fst (save_face_data st) = Ok true /\ faults (snd (save_face_data st)) = [].
Proof.
  destruct st as [dc f n cu es [a tmp fa ft] fl]. simpl. intros ->.
  destruct fa; split; reflexivity.
Qed.

(** A registration with a free, non-empty username and at least one
    authentication method (a non-empty password, or a template of 128
    entries) does return [True] when no system call fails. *)
Theorem register_user_succeeds_without_faults :
  forall (name : string) (password : option string) (face : option encoding)
         (now : string) (st : state),
    name <> ""%string ->
    fst (user_exists name st) = Ok false ->
    (forall e, face = Some e -> List.length e = 128%nat) ->
    truthy_opt password = true \/ face <> None ->
    faults st = [] ->
    fst (register_user name password face now st) = Ok true.
Proof.
  intros name password face now st Hn Hex Hlen Hm Hf.
  unfold register_user.
  replace (truthy_str name) with true
    by (symmetry; unfold truthy_str; apply Bool.negb_true_iff, String.eqb_neq, Hn).
  cbn [negb]. unfold bind at 1. 
  destruct (user_exists name st) as [r s] eqn:Hue.
  assert (s = st) by (unfold user_exists, gets in Hue; congruence). subst s.
  simpl in Hex. subst r. cbv beta iota.
  destruct face as [e |].
  - rewrite (Hlen e eq_refl). cbn [Nat.eqb negb].
    change ((128 =? 128)%nat) with true. cbn [negb].
    destruct (truthy_opt password) eqn:Hp; cbn [is_some app];
      run_registration;
      match goal with
      | |- context [save_face_data ?s] =>
          destruct (save_face_data_without_faults s Hf) as [H1 H2];
          destruct (save_face_data s) as [r1 s1]
      end; simpl in H1, H2; subst r1; cbv beta iota;
      rewrite (save_data_none_without_faults s1 H2); reflexivity.
  - destruct Hm as [Hp | Hp]; [| contradiction Hp; reflexivity].
    rewrite Hp. cbn [is_some app]. run_registration.
    match goal with
    | |- context [save_data None ?s] =>
        rewrite (save_data_none_without_faults s Hf)
    end.
    reflexivity.
Qed.

Lemma register_user_succeeds_without_faults_witness :
  fst (register_user "carol" None (Some zeros) "2024-01-03T00:00:00" near_duplicates)
  = Ok true.
Proof.
  apply (register_user_succeeds_without_faults
           "carol" None (Some zeros) "2024-01-03T00:00:00" near_duplicates).
  - discriminate.
  - vm_compute. reflexivity.
  - intros e He. injection He as <-. reflexivity.
  - right. discriminate.
  - vm_compute. reflexivity.
Defined.

(** Registration and password login compose: after a registration that
    returned [True], [authenticate_password] accepts the password that was
    registered, as long as the salt in the environment is the same; and an
    account registered without a password (by face alone) accepts no
    password at all. A login attempt changes nothing. *)
Theorem register_user_then_authenticate_password :
  forall (name : string) (password : option string) (face : option encoding)
         (now : string) (st st' : state),
    register_user name password face now st = (Ok true, st') ->
    (truthy_opt password = true ->
     authenticate_password name password st' = (Ok true, st'))
    /\ (truthy_opt password = false ->
        forall p, authenticate_password name p st' = (Ok false, st')).
Proof.
  intros name password face now st st' H.
  destruct (register_user_success_steps _ _ _ _ _ _ H)
    as (_ & Hex & _ & _ & _ & Hst').
  set (u := new_user st name password face now) in *.
  set (st2 := with_template name face (with_user u st)) in *.
  assert (Hmem : in_memory st' = in_memory st2).
  { subst st'. rewrite (keeps_save_data None).
    destruct face; [apply keeps_save_face_data | reflexivity]. }
  assert (Hu : users (data st') = users (data st) ++ [u]).
  { unfold in_memory in Hmem. replace (data st') with (data st2) by congruence.
    subst st2. destruct face; reflexivity. }
  assert (Hsalt : getenv_salt st' = getenv_salt st).
  { unfold getenv_salt, in_memory in *.
    replace (environ_salt st') with (environ_salt st2) by congruence.
    subst st2. destruct face; reflexivity. }
  assert (Hfind : find_user name (users (data st')) = Some u).
  { rewrite Hu. apply find_user_fresh; [exact Hex | reflexivity]. }
  clear Hst' Hmem.
  split; intro Hp.
  - unfold authenticate_password, bind, gets, _hash_password. rewrite Hfind.
    subst u. unfold new_user. cbn [password_hash]. rewrite Hp.
    rewrite (hash_with_salt_truthy _ _ Hp).
    cbv beta iota delta [bind gets ret]. rewrite Hsalt.
    destruct password as [p |]; [| discriminate Hp].
    simpl in Hp. unfold hash_with_salt. rewrite Hp. unfold ret.
    rewrite String.eqb_refl. reflexivity.
  - intro p. unfold authenticate_password, bind, gets. rewrite Hfind.
    subst u. unfold new_user. cbn [password_hash]. rewrite Hp. reflexivity.
Qed.

Lemma register_user_then_authenticate_password_witness :
  authenticate_password "bob" (Some "anything"%string) bob_at_login_tolerance
  = (Ok false, bob_at_login_tolerance).
Proof.
  assert (H : register_user "bob" None (Some (axis (4 # 10))) "2024-01-01T00:00:00"
                            (fresh_state [])
              = (Ok true, bob_at_login_tolerance))
    by (vm_compute; reflexivity).
  destruct (register_user_then_authenticate_password _ _ _ _ _ _ H) as [_ Hno].
  apply Hno. reflexivity.
Defined.

(** * [TraditionalAuthenticator]: the session and the password change *)

Lemma authenticate_password_state name h st :
  snd (authenticate_password name h st) = st
  /\ exists b, fst (authenticate_password name h st) = Ok b.
Proof.
  cbv beta iota delta [authenticate_password bind gets _hash_password ret].
  destruct (find_user name (users (data st))) as [u |];
    [| split; [reflexivity | eexists; reflexivity]].
  destruct (truthy_opt (password_hash u));
    [| split; [reflexivity | eexists; reflexivity]].
  cbv beta iota.
  destruct (password_hash u) as [stored |];
    destruct (hash_with_salt (getenv_salt st) h) as [given |];
    (split; [reflexivity | eexists; reflexivity]).
Qed.

Lemma traditional_authenticate_cases name pw st :
  (TraditionalAuthenticator.authenticate name pw st
   = (Ok true, set_current_user (Some name) st)
   /\ name <> ""%string /\ pw <> ""%string
   /\ fst (authenticate_password name (TraditionalAuthenticator._hash_password pw) st)
      = Ok true)
  \/ TraditionalAuthenticator.authenticate name pw st = (Ok false, st).
Proof.
  destruct (authenticate_password_state name (TraditionalAuthenticator._hash_password pw) st)
    as (Hs & b & Hb).
  unfold TraditionalAuthenticator.authenticate, bind.
  destruct (truthy_str name) eqn:Hn; [| right; reflexivity].
  destruct (truthy_str pw) eqn:Hp; [| right; reflexivity].
  cbn [negb orb].
  destruct (authenticate_password name (TraditionalAuthenticator._hash_password pw) st)
    as [r s]. simpl in Hs, Hb. subst r s.
  destruct b; [left | right; reflexivity].
  repeat split; try reflexivity.
  - intros ->. discriminate Hn.
  - intros ->. discriminate Hp.
Qed.

(** [authenticate] never raises. When it returns [True] the password was
    accepted by [authenticate_password] and the only change is that
    [current_user] is now the username; in every other case it returns
    [False] and changes nothing, so the user of an earlier login stays
    [current_user]. *)
Theorem traditional_authenticate_session :
  forall (name pw : string) (st : state),
    (fst (TraditionalAuthenticator.authenticate name pw st) = Ok true ->
     snd (TraditionalAuthenticator.authenticate name pw st)
     = set_current_user (Some name) st
     /\ fst (authenticate_password name (TraditionalAuthenticator._hash_password pw) st)
        = Ok true)
    /\ (fst (TraditionalAuthenticator.authenticate name pw st) <> Ok true ->
        TraditionalAuthenticator.authenticate name pw st = (Ok false, st)).
Proof.
  intros name pw st.
  destruct (traditional_authenticate_cases name pw st)
    as [(H & _ & _ & Hp) | H]; rewrite H; simpl; split.
  - intros _. split; [reflexivity | exact Hp].
  - intro Hne. contradiction Hne. reflexivity.
  - discriminate.
  - reflexivity.
Qed.

(** The outcomes of [change_password], for every input: it returns
    [False] when an old password is given and is wrong, or when the new
    password has fewer than 8 characters; in every other case, the reset
    with an empty old password included, it raises [AttributeError]. It
    never returns [True], and the users and the files are never changed:
    the only effect it can have is the [current_user] set by the check of
    the old password. *)
Theorem change_password_outcomes :
  forall (name old_password new_password : string) (st : state),
    let verified :=
      (old_password =? "")%string
      || match fst (TraditionalAuthenticator.authenticate name old_password st) with
         | Ok true => true
         | _ => false
         end in
    fst (TraditionalAuthenticator.change_password name old_password new_password st)
    = (if verified && (8 <=? len new_password)%nat
       then Raise AttributeError else Ok false)
    /\ data (snd (TraditionalAuthenticator.change_password
                    name old_password new_password st)) = data st
    /\ fs (snd (TraditionalAuthenticator.change_password
                  name old_password new_password st)) = fs st.
Proof.
  intros name old new st. cbv zeta.
  unfold TraditionalAuthenticator.change_password, bind, truthy_str.
  destruct (String.eqb_spec old "") as [-> | Hold]; cbn [negb orb].
  - unfold ret at 1 3 5. cbv beta iota. cbn [negb].
    replace (8 <=? len new)%nat with (negb (len new <? 8)%nat)
      by (rewrite Nat.ltb_antisym, Bool.negb_involutive; reflexivity).
    destruct (len new <? 8)%nat; simpl; auto.
  - destruct (traditional_authenticate_cases name old st) as [(H & _) | H];
      rewrite H; cbv beta iota; cbn [negb fst].
    + replace (8 <=? len new)%nat with (negb (len new <? 8)%nat)
        by (rewrite Nat.ltb_antisym, Bool.negb_involutive; reflexivity).
      destruct (len new <? 8)%nat; simpl; auto.
    + simpl. auto.
Qed.

(** The length is counted in characters: a new password of seven
    characters, the first of which takes two bytes in UTF-8, is too
    short. *)
Lemma change_password_counts_characters :
  let new_password := String (ascii_of_nat 195) (String (ascii_of_nat 164) "bcdefg") in
  String.length new_password = 8%nat
  /\ len new_password = 7%nat
  /\ fst (TraditionalAuthenticator.change_password "alice" "longpassword1" new_password
                                                   alice_registered)
     = Ok false.
Proof. vm_compute. repeat split. Qed.

(** * The authenticator's own face store *)

Ltac run_proc :=
  repeat (cbv beta iota zeta
              delta [pbind pattempt pret praise pgets pmodify plift on_db
                     bind attempt ret raise gets modify fallible next_fault
                     os_makedirs KnownFaces.remove_tmp
                     set_db set_known_face_encodings set_known_face_names
                     set_known_faces_path set_known_faces_tmp
                     db known_face_encodings known_face_names
                     known_faces_path known_faces_tmp
                     set_faults fs faults notified data face_data current_user
                     environ_salt fst snd];
          match goal with
          | |- context [match ?l with nil => _ | cons _ _ => _ end] =>
              is_var l; destruct l as [| [|] l]
          | |- context [match ?o with Some _ => _ | None => _ end] =>
              is_var o; destruct o
          | |- context [match ?b with KnownFaces _ _ => _ | _ => _ end] =>
              is_var b; destruct b
          end).

Lemma save_known_faces_cases a :
  db (snd (KnownFaces.save_known_faces a))
  = set_faults (faults (db (snd (KnownFaces.save_known_faces a)))) (db a)
  /\ known_face_encodings (snd (KnownFaces.save_known_faces a)) = known_face_encodings a
  /\ known_face_names (snd (KnownFaces.save_known_faces a)) = known_face_names a
  /\ (fst (KnownFaces.save_known_faces a) = Ok true ->
      known_faces_path (snd (KnownFaces.save_known_faces a))
      = Some (KnownFaces (known_face_encodings a) (known_face_names a))
      /\ known_faces_tmp (snd (KnownFaces.save_known_faces a)) = None).
Proof.
  destruct a as [[dc f n cu es d fl] ke kn kp kt].
  unfold KnownFaces.save_known_faces.
  run_proc;
    repeat match goal with |- _ /\ _ => split end; try reflexivity;
    intro H; try discriminate H; split; reflexivity.
Qed.

(** Templates that [save_known_faces] reports saved are the ones a new
    [FaceAuthenticator] starts with (the login window makes a new one each
    time it restarts the camera), when its read does not fail: the file
    holds the two lists and no temporary file is left. *)
Theorem save_known_faces_then_init :
  forall a : process,
    fst (KnownFaces.save_known_faces a) = Ok true ->
    hd false (faults (db (snd (KnownFaces.save_known_faces a)))) = false ->
    known_face_encodings (snd (KnownFaces.__init__ (snd (KnownFaces.save_known_faces a))))
    = known_face_encodings a
    /\ known_face_names (snd (KnownFaces.__init__ (snd (KnownFaces.save_known_faces a))))
       = known_face_names a
    /\ known_faces_tmp (snd (KnownFaces.save_known_faces a)) = None.
Proof.
  intros a Hok Hf.
  destruct (save_known_faces_cases a) as (_ & _ & _ & Hfile).
  destruct (Hfile Hok) as (Hp & Ht). clear Hfile Hok.
  split; [| split; [| exact Ht]];
    destruct (snd (KnownFaces.save_known_faces a)) as [[dc f n cu es d fl] ke kn kp kt];
    simpl in Hp, Hf; subst kp;
    unfold KnownFaces.__init__, KnownFaces.load_known_faces;
    destruct fl as [| [|] fl]; try discriminate Hf; reflexivity.
Qed.

Lemma save_known_faces_then_init_witness :
  known_face_names
    (snd (KnownFaces.__init__
            (snd (KnownFaces.save_known_faces
                    (mkProcess (fresh_state []) [zeros] ["alice"%string]
                               (Some KnownTruncated) None)))))
  = ["alice"%string].
Proof.
  apply (save_known_faces_then_init
           (mkProcess (fresh_state []) [zeros] ["alice"%string]
                      (Some KnownTruncated) None));
    reflexivity.
Defined.

(** [load_known_faces] never raises and writes nothing. The two lists it
    leaves are settled by the file and by the read: they stay as they are
    when there is no file, they are the two lists of a file that holds
    both when the read succeeds, and both are empty in every other case
    (the file cannot be read, is no pickle, or lacks a key). *)
Theorem load_known_faces_outcomes :
  forall a : process,
    fst (KnownFaces.load_known_faces a) = Ok tt
    /\ known_faces_path (snd (KnownFaces.load_known_faces a)) = known_faces_path a
    /\ known_faces_tmp (snd (KnownFaces.load_known_faces a)) = known_faces_tmp a
    /\ (known_face_encodings (snd (KnownFaces.load_known_faces a)),
        known_face_names (snd (KnownFaces.load_known_faces a)))
       = match known_faces_path a with
         | None => (known_face_encodings a, known_face_names a)
         | Some (KnownFaces es ns) =>
             if hd false (faults (db a)) then ([], []) else (es, ns)
         | Some _ => ([], [])
         end
    /\ in_memory (db (snd (KnownFaces.load_known_faces a))) = in_memory (db a)
    /\ fs (db (snd (KnownFaces.load_known_faces a))) = fs (db a).
Proof.
  intro a. destruct a as [[dc f n cu es d fl] ke kn kp kt].
  unfold KnownFaces.load_known_faces, in_memory.
  run_proc; repeat split; reflexivity.
Qed.

(** * Enrolment by [FaceAuthenticator.register_user] *)

Lemma index_of_snoc name ns :
  existsb (fun x => x =? name) ns = false ->
  index_of name (ns ++ [name]) = Some (List.length ns).
Proof.
  induction ns as [| x t IH]; simpl; intro H.
  - rewrite String.eqb_refl. reflexivity.
  - apply Bool.orb_false_iff in H. destruct H as [Hx Ht].
    rewrite Hx, (IH Ht). reflexivity.
Qed.

Lemma pop_snoc {A} (l : list A) x : pop (l ++ [x]) (List.length l) = Some l.
Proof.
  induction l as [| y t IH]; simpl; [reflexivity |]. rewrite IH. reflexivity.
Qed.

Lemma existsb_snoc name ns : existsb (fun x => x =? name) (ns ++ [name]) = true.
Proof.
  rewrite existsb_app. simpl. rewrite String.eqb_refl, Bool.orb_true_r. reflexivity.
Qed.

Lemma rollback_absent username a :
  existsb (fun x => x =? username) (known_face_names a) = false ->
  KnownFaces.rollback username a = (Ok tt, a).
Proof.
  intro H. unfold KnownFaces.rollback, pbind, pgets. rewrite H. reflexivity.
Qed.

Lemma rollback_appended username e es ns a :
  known_face_encodings a = es ++ [e] ->
  known_face_names a = ns ++ [username] ->
  existsb (fun x => x =? username) ns = false ->
  List.length es = List.length ns ->
  exists a', KnownFaces.rollback username a = (Ok tt, a')
             /\ known_face_encodings a' = es /\ known_face_names a' = ns
             /\ db a' = db a /\ known_faces_path a' = known_faces_path a.
Proof.
  intros He Hn Hex Hlen.
  unfold KnownFaces.rollback, pbind, pgets, pmodify.
  rewrite Hn, existsb_snoc, (index_of_snoc _ _ Hex), pop_snoc.
  cbn [known_face_encodings set_known_face_names].
  rewrite He, <- Hlen, pop_snoc.
  eexists. split; [reflexivity |]. repeat split.
Qed.

(** What one turn of the enrolment loop does, when the lists are parallel
    and do not hold the username. *)
Lemma register_turn_cases username captured now a :
  List.length (known_face_encodings a) = List.length (known_face_names a) ->
  existsb (fun x => x =? username) (known_face_names a) = false ->
  exists o a',
    KnownFaces.register_turn username captured now a = (Ok o, a')
    /\ match o with
       | Some true =>
           exists e s1,
             captured = Some e
             /\ FaceAuthenticator.face_already_registered (known_face_encodings a) e
                = Ok false
             /\ register_user username None (Some e) now (db a) = (Ok true, s1)
             /\ db a' = set_faults (faults (db a')) s1
             /\ known_face_encodings a' = known_face_encodings a ++ [e]
             /\ known_face_names a' = known_face_names a ++ [username]
             /\ known_faces_path a'
                = Some (KnownFaces (known_face_encodings a ++ [e])
                                   (known_face_names a ++ [username]))
       | Some false =>
           a' = a
       | None =>
           known_face_encodings a' = known_face_encodings a
           /\ known_face_names a' = known_face_names a
           /\ (captured = None \/
               exists e, captured = Some e
                 /\ (db a' = db a
                     \/ exists r s1,
                          register_user username None (Some e) now (db a) = (r, s1)
                          /\ db a' = set_faults (faults (db a')) s1))
       end.
Proof.
  intros Hlen Hex.
  unfold KnownFaces.register_turn, pbind at 1, pattempt at 1.
  destruct captured as [e |].
  2:{ exists None, a. split; [reflexivity |]. auto. }
  unfold pbind at 1, pgets at 1. unfold pbind at 1, plift at 1.
  destruct (FaceAuthenticator.face_already_registered (known_face_encodings a) e)
    as [[|] | ex] eqn:Hdup.
  - exists (Some false), a. split; reflexivity.
  - cbv beta iota.
    unfold pbind at 1, pmodify at 1. unfold pbind at 1, pmodify at 1.
    set (a1 := set_known_face_names _ _).
    assert (He1 : known_face_encodings a1 = known_face_encodings a ++ [e]) by reflexivity.
    assert (Hn1 : known_face_names a1 = known_face_names a ++ [username]) by reflexivity.
    assert (Hd1 : db a1 = db a) by reflexivity.
    assert (Hp1 : known_faces_path a1 = known_faces_path a) by reflexivity.
    clearbody a1.
    unfold pbind at 1, on_db at 1. rewrite Hd1.
    destruct (register_user username None (Some e) now (db a)) as [[[|] | ex] s1] eqn:Hreg;
      cbn [negb]; cbv beta iota.
    + unfold pbind at 1.
      destruct (save_known_faces_cases (set_db s1 a1)) as (Hdb & Hes & Hns & Hfile).
      destruct (KnownFaces.save_known_faces (set_db s1 a1)) as [[[|] | ex] a2] eqn:Hsave;
        simpl in Hdb, Hes, Hns, Hfile; cbn [negb]; cbv beta iota.
      * exists (Some true), a2. split; [reflexivity |].
        destruct (Hfile eq_refl) as (Hpath & _).
        exists e, s1. rewrite He1, Hn1 in *. repeat split; auto.
      * destruct (rollback_appended username e (known_face_encodings a)
                    (known_face_names a) a2) as (a3 & Hr & H1 & H2 & H3 & _);
          [congruence | congruence | exact Hex | exact Hlen |].
        unfold praise, pbind. rewrite Hr.
        exists None, a3. split; [reflexivity |]. repeat split; auto.
        right. exists e. split; [reflexivity |]. right. exists (Ok true), s1.
        split; [exact Hreg |]. rewrite H3. exact Hdb.
      * destruct (rollback_appended username e (known_face_encodings a)
                    (known_face_names a) a2) as (a3 & Hr & H1 & H2 & H3 & _);
          [congruence | congruence | exact Hex | exact Hlen |].
        unfold pbind. rewrite Hr.
        exists None, a3. split; [reflexivity |]. repeat split; auto.
        right. exists e. split; [reflexivity |]. right. exists (Ok true), s1.
        split; [exact Hreg |]. rewrite H3. exact Hdb.
    + destruct (rollback_appended username e (known_face_encodings a)
                  (known_face_names a) (set_db s1 a1)) as (a3 & Hr & H1 & H2 & H3 & _);
        [exact He1 | exact Hn1 | exact Hex | exact Hlen |].
      unfold praise, pbind. rewrite Hr.
      exists None, a3. split; [reflexivity |]. repeat split; auto.
      right. exists e. split; [reflexivity |]. right. exists (Ok false), s1.
      split; [exact Hreg |]. rewrite H3. destruct s1; reflexivity.
    + destruct (rollback_appended username e (known_face_encodings a)
                  (known_face_names a) (set_db s1 a1)) as (a3 & Hr & H1 & H2 & H3 & _);
        [exact He1 | exact Hn1 | exact Hex | exact Hlen |].
      unfold pbind. rewrite Hr.
      exists None, a3. split; [reflexivity |]. repeat split; auto.
      right. exists e. split; [reflexivity |]. right. exists (Raise ex), s1.
      split; [exact Hreg |]. rewrite H3. destruct s1; reflexivity.
  - cbv beta iota. unfold pbind. rewrite (rollback_absent _ _ Hex).
    exists None, a. split; [reflexivity |]. repeat split; auto.
    right. exists e. split; [reflexivity |]. left. reflexivity.
Qed.

Lemma register_turns_cases n username :
  forall turns a,
    List.length (known_face_encodings a) = List.length (known_face_names a) ->
    existsb (fun x => x =? username) (known_face_names a) = false ->
    exists b a',
      KnownFaces.register_turns n username turns a = (Ok b, a')
      /\ if b : bool then
           exists e now a0 s1,
             In (Some e, now) (firstn n turns)
             /\ known_face_encodings a0 = known_face_encodings a
             /\ FaceAuthenticator.face_already_registered (known_face_encodings a) e
                = Ok false
             /\ register_user username None (Some e) now (db a0) = (Ok true, s1)
             /\ db a' = set_faults (faults (db a')) s1
             /\ known_face_encodings a' = known_face_encodings a ++ [e]
             /\ known_face_names a' = known_face_names a ++ [username]
             /\ known_faces_path a'
                = Some (KnownFaces (known_face_encodings a ++ [e])
                                   (known_face_names a ++ [username]))
         else
           known_face_encodings a' = known_face_encodings a
           /\ known_face_names a' = known_face_names a.
Proof.
  induction n as [| n IH]; intros turns a Hlen Hex.
  - exists false, a. split; [reflexivity |]. auto.
  - simpl KnownFaces.register_turns. unfold pbind at 1.
    destruct (register_turn_cases username (fst (hd (None, ""%string) turns))
                (snd (hd (None, ""%string) turns)) a Hlen Hex)
      as (o & a1 & Hturn & Ho).
    rewrite Hturn. destruct o as [[|] |].
    + exists true, a1. split; [reflexivity |].
      destruct Ho as (e & s1 & Hc & Hdup & Hreg & Hrest).
      exists e, (snd (hd (None, ""%string) turns)), a, s1.
      split; [| split; [reflexivity | split; [exact Hdup | split; [exact Hreg | exact Hrest]]]].
      destruct turns as [| [c t] rest]; simpl in Hc; [discriminate |].
      subst c. left. reflexivity.
    + subst a1. exists false, a. split; [reflexivity |]. auto.
    + destruct Ho as (He1 & Hn1 & _).
      destruct (IH (tl turns) a1) as (b & a2 & Hloop & Hb);
        [congruence | congruence |].
      exists b, a2. split; [exact Hloop |].
      destruct b.
      * destruct Hb as (e & now & a0 & s1 & Hin & Ha0 & Hdup & Hreg & Hdb & He2 & Hn2 & Hp).
        exists e, now, a0, s1. rewrite He1, Hn1 in *.
        repeat split; auto.
        destruct turns as [| p rest]; simpl in *; [destruct n; contradiction |].
        right. exact Hin.
      * destruct Hb as [He2 Hn2]. split; congruence.
Qed.

Lemma not_duplicate_unmatched known e :
  FaceAuthenticator.face_already_registered known e = Ok false ->
  forall e', In e' known -> fle (norm_diff e' e) (to_float tolerance_duplicate) = false.
Proof.
  unfold FaceAuthenticator.face_already_registered.
  destruct (compare_faces known e tolerance_duplicate) as [ms |] eqn:Hc; [| discriminate].
  intro H. injection H as H. intros e' Hin.
  rewrite (compare_faces_ok _ _ _ _ Hc) in H.
  destruct (fle (norm_diff e' e) (to_float tolerance_duplicate)) eqn:Hw; [| reflexivity].
  assert (Ht : existsb (fun b => b)
                 (map (fun x => dist_le_tol (norm_diff x e) tolerance_duplicate) known)
               = true).
  { apply existsb_exists. exists true. split; [| reflexivity].
    apply in_map_iff. exists e'. auto. }
  congruence.
Qed.

Lemma existsb_eqb_In name ns :
  existsb (fun x => x =? name) ns = false -> ~ In name ns.
Proof.
  intros H Hin.
  assert (existsb (fun x => x =? name) ns = true).
  { apply existsb_exists. exists name. split; [exact Hin | apply String.eqb_refl]. }
  congruence.
Qed.

(** The outcomes of [FaceAuthenticator.register_user] when its two lists
    are parallel, over every failure pattern and whatever the camera
    gives: it never raises; when it returns [False] the two lists are as
    they were; when it returns [True] exactly one pair was appended, the
    username with a template the camera gave in one of the turns, which
    has 128 entries and which the duplicate check matched with no template
    known before (no distance numpy computes is at most the float 0.35);
    the username was non-empty and in neither store, it now has an
    account and a template in the database, and the file holds the
    two new lists. *)
Theorem face_register_user_outcomes :
  forall (username : string) (turns : list (option encoding * string))
         (max_attempts : nat) (a : process),
    List.length (known_face_encodings a) = List.length (known_face_names a) ->
    exists b a',
      KnownFaces.register_user username turns max_attempts a = (Ok b, a')
      /\ (b = false ->
          known_face_encodings a' = known_face_encodings a
          /\ known_face_names a' = known_face_names a)
      /\ (b = true ->
          exists e now,
            In (Some e, now) (firstn max_attempts turns)
            /\ username <> ""%string
            /\ ~ In username (known_face_names a)
            /\ fst (user_exists username (db a)) = Ok false
            /\ List.length e = 128%nat
            /\ (forall e', In e' (known_face_encodings a) ->
                           fle (norm_diff e' e) (to_float tolerance_duplicate) = false)
            /\ known_face_encodings a' = known_face_encodings a ++ [e]
            /\ known_face_names a' = known_face_names a ++ [username]
            /\ known_faces_path a'
               = Some (KnownFaces (known_face_encodings a ++ [e])
                                  (known_face_names a ++ [username]))
            /\ fst (user_exists username (db a')) = Ok true
            /\ In username (usernames (face_data (db a')))).
Proof.
  intros name turns n a Hlen.
  unfold KnownFaces.register_user.
  destruct (truthy_str name) eqn:Hn; cbn [negb].
  2:{ exists false, a. split; [reflexivity |]. split; [auto | discriminate]. }
  unfold pbind at 1, pgets at 1. unfold pbind at 1, on_db at 1.
  unfold user_exists at 1, gets at 1.
  replace (set_db (db a) a) with a by (destruct a; reflexivity).
  destruct (existsb (fun x => x =? name) (known_face_names a)) eqn:Hex; cbn [orb].
  { exists false, a. split; [reflexivity |]. split; [auto | discriminate]. }
  destruct (existsb (fun u => username u =? name) (users (data (db a)))) eqn:Hdb.
  { exists false, a. split; [reflexivity |]. split; [auto | discriminate]. }
  destruct (register_turns_cases n name turns a Hlen Hex) as (b & a' & Hloop & Hb).
  exists b, a'. split; [exact Hloop |].
  destruct b; (split; [| intro Hbb; try discriminate Hbb]).
  - discriminate.
  - destruct Hb as (e & now & a0 & s1 & Hin & Ha0 & Hdup & Hreg & Hdb' & He & Hns & Hp).
    destruct (register_user_success_facts _ _ _ _ _ _ Hreg)
      as (_ & _ & _ & _ & Hface & Hlen128 & Hue & _).
    exists e, now. split; [exact Hin |].
    split; [intros ->; discriminate Hn |].
    split; [apply existsb_eqb_In, Hex |].
    split; [unfold user_exists, gets; simpl; rewrite Hdb; reflexivity |].
    split; [apply (Hlen128 e eq_refl) |].
    split; [apply not_duplicate_unmatched, Hdup |].
    split; [exact He |]. split; [exact Hns |]. split; [exact Hp |].
    rewrite Hdb'. split.
    + exact Hue.
    + simpl. rewrite Hface. simpl. apply in_or_app. right. left. reflexivity.
  - intros _. exact Hb.
Qed.

Lemma face_register_user_outcomes_witness :
  exists b a',
    KnownFaces.register_user "bob" [(None, ""%string); (Some zeros, "2024-01-02T00:00:00"%string)]
                             3 (mkProcess (fresh_state []) [axis 1] ["alice"%string] None None)
    = (Ok b, a')
    /\ (b = false -> known_face_encodings a' = [axis 1]
                     /\ known_face_names a' = ["alice"%string])
    /\ (b = true -> known_face_encodings a' = [axis 1] ++ [zeros]
                    /\ known_face_names a' = ["alice"%string] ++ ["bob"%string]).
Proof.
  destruct (face_register_user_outcomes
              "bob" [(None, ""%string); (Some zeros, "2024-01-02T00:00:00"%string)] 3
              (mkProcess (fresh_state []) [axis 1] ["alice"%string] None None) eq_refl)
    as (b & a' & Hr & Hf & Ht).
  exists b, a'. split; [exact Hr |]. split; [exact Hf |].
  intro Hb. destruct (Ht Hb) as (e & now & Hin & _ & _ & _ & _ & _ & He & Hn & _).
  simpl in Hin. destruct Hin as [Hin | [Hin | []]]; [discriminate Hin |].
  injection Hin as <- <-. split; [exact He | exact Hn].
Defined.

Lemma register_user_existing name password face now st :
  existsb (fun u => username u =? name) (users (data st)) = true ->
  register_user name password face now st = (Ok false, st).
Proof.
  intro H. unfold register_user.
  destruct (truthy_str name); cbn [negb]; [| reflexivity].
  unfold bind at 1, user_exists at 1, gets at 1. rewrite H. reflexivity.
Qed.

Lemma register_turns_existing n name :
  forall turns a,
    List.length (known_face_encodings a) = List.length (known_face_names a) ->
    existsb (fun x => x =? name) (known_face_names a) = false ->
    existsb (fun u => username u =? name) (users (data (db a))) = true ->
    exists a',
      KnownFaces.register_turns n name turns a = (Ok false, a')
      /\ known_face_encodings a' = known_face_encodings a
      /\ known_face_names a' = known_face_names a
      /\ in_memory (db a') = in_memory (db a).
Proof.
  induction n as [| n IH]; intros turns a Hlen Hex Hdb.
  - exists a. repeat split.
  - simpl KnownFaces.register_turns. unfold pbind at 1.
    destruct (register_turn_cases name (fst (hd (None, ""%string) turns))
                (snd (hd (None, ""%string) turns)) a Hlen Hex)
      as (o & a1 & Hturn & Ho).
    rewrite Hturn. destruct o as [[|] |].
    + destruct Ho as (e & s1 & _ & _ & Hreg & _).
      rewrite (register_user_existing _ _ _ _ _ Hdb) in Hreg. discriminate Hreg.
    + subst a1. exists a. repeat split.
    + destruct Ho as (He1 & Hn1 & Hc).
      assert (Hmem : in_memory (db a1) = in_memory (db a)).
      { destruct Hc as [_ | (e & _ & [Hd | (r & s1 & Hreg & Hd)])].
        - destruct (fst (hd (None, ""%string) turns)) as [e |] eqn:Hcap.
          + revert Hturn. unfold KnownFaces.register_turn, pbind at 1, pattempt at 1.
            intro Hturn.
            destruct (register_turn_cases name (Some e)
                        (snd (hd (None, ""%string) turns)) a Hlen Hex)
              as (o' & a1' & Hturn' & Ho').
            unfold KnownFaces.register_turn, pbind at 1, pattempt at 1 in Hturn'.
            rewrite Hturn in Hturn'. injection Hturn' as <- <-.
            destruct Ho' as (_ & _ & [Hnone | (e' & _ & [Hd | (r & s1 & Hreg & Hd)])]);
              [discriminate Hnone | rewrite Hd; reflexivity |].
            rewrite (register_user_existing _ _ _ _ _ Hdb) in Hreg.
            injection Hreg as _ <-. rewrite Hd. reflexivity.
          + unfold KnownFaces.register_turn, pbind, pattempt, pret in Hturn.
            injection Hturn as <-. reflexivity.
        - rewrite Hd. reflexivity.
        - rewrite (register_user_existing _ _ _ _ _ Hdb) in Hreg.
          injection Hreg as _ <-. rewrite Hd. reflexivity. }
      destruct (IH (tl turns) a1) as (a2 & Hloop & He2 & Hn2 & Hm2);
        [congruence | congruence | |].
      { unfold in_memory in Hmem.
        replace (data (db a1)) with (data (db a)) by congruence. exact Hdb. }
      exists a2. split; [exact Hloop |]. repeat split; congruence.
Qed.

(** [register_user] is not all-or-nothing: when the database took the
    registration and [save_known_faces] then fails (returns [False] or
    raises), [register_user] returns [False] and takes the pair out of its
    own lists, but the account stays: [user_exists] holds, the template is
    in the database's face store, and every later turn is refused because
    the username now exists. *)
Theorem face_register_user_failed_list_save_leaves_the_account :
  forall (name : string) (e : encoding) (now : string)
         (rest : list (option encoding * string)) (n : nat) (a : process)
         (s1 : state),
    List.length (known_face_encodings a) = List.length (known_face_names a) ->
    ~ In name (known_face_names a) ->
    FaceAuthenticator.face_already_registered (known_face_encodings a) e = Ok false ->
    register_user name None (Some e) now (db a) = (Ok true, s1) ->
    fst (KnownFaces.save_known_faces
           (mkProcess s1 (known_face_encodings a ++ [e]) (known_face_names a ++ [name])
                      (known_faces_path a) (known_faces_tmp a)))
    <> Ok true ->
    exists a',
      KnownFaces.register_user name ((Some e, now) :: rest) (S n) a = (Ok false, a')
      /\ known_face_encodings a' = known_face_encodings a
      /\ known_face_names a' = known_face_names a
      /\ fst (user_exists name (db a')) = Ok true
      /\ In name (usernames (face_data (db a'))).
Proof.
  intros name e now rest n a s1 Hlen Hnin Hdup Hreg Hsave.
  assert (Hex : existsb (fun x => x =? name) (known_face_names a) = false).
  { destruct (existsb (fun x => x =? name) (known_face_names a)) eqn:E; [| reflexivity].
    apply existsb_exists in E. destruct E as (x & Hx & Hxe).
    apply String.eqb_eq in Hxe. subst x. contradiction. }
  destruct (register_user_success_steps _ _ _ _ _ _ Hreg) as (Hn & Hdb0 & _).
  destruct (register_user_success_facts _ _ _ _ _ _ Hreg)
    as (_ & _ & Hus & _ & Hface & _ & Hue & _).
  unfold KnownFaces.register_user. rewrite Hn. cbn [negb].
  unfold pbind at 1, pgets at 1. unfold pbind at 1, on_db at 1.
  unfold user_exists at 1, gets at 1.
  replace (set_db (db a) a) with a by (destruct a; reflexivity).
  rewrite Hex, Hdb0. cbn [orb].
  simpl KnownFaces.register_turns. unfold pbind at 1.
  cbn [hd fst snd].
  unfold KnownFaces.register_turn at 1, pbind at 1, pattempt at 1.
  unfold pbind at 1, pgets at 1. unfold pbind at 1, plift at 1. rewrite Hdup.
  cbv beta iota.
  unfold pbind at 1, pmodify at 1. unfold pbind at 1, pmodify at 1.
  unfold pbind at 1, on_db at 1.
  cbn [db set_known_face_names set_known_face_encodings known_face_encodings
       known_face_names known_faces_path known_faces_tmp].
  rewrite Hreg. cbn [negb]. cbv beta iota.
  unfold set_db at 1.
  cbn [db set_known_face_names set_known_face_encodings known_face_encodings
       known_face_names known_faces_path known_faces_tmp].
  set (a1 := mkProcess s1 (known_face_encodings a ++ [e]) (known_face_names a ++ [name])
                       (known_faces_path a) (known_faces_tmp a)) in *.
  destruct (save_known_faces_cases a1) as (Hdb & Hes & Hns & _).
  unfold pbind at 1.
  destruct (KnownFaces.save_known_faces a1) as [r a2].
  simpl in Hdb, Hes, Hns, Hsave.
  assert (Hroll : exists a3, KnownFaces.rollback name a2 = (Ok tt, a3)
                             /\ known_face_encodings a3 = known_face_encodings a
                             /\ known_face_names a3 = known_face_names a
                             /\ db a3 = db a2).
  { destruct (rollback_appended name e (known_face_encodings a) (known_face_names a) a2)
      as (a3 & Hr & H1 & H2 & H3 & _); auto.
    exists a3. auto. }
  destruct Hroll as (a3 & Hr & H1 & H2 & H3).
  assert (Hturn : exists o,
             (let (r0, a'0) :=
                match r with
                | Ok a0 => (if negb a0 then praise RuntimeError else pret (Some true)) a2
                | Raise e0 => (Raise e0, a2)
                end in (Ok r0, a'0))
             = (Ok (Raise o), a2)).
  { destruct r as [[|] | ex]; [contradiction Hsave; reflexivity | |]; eexists; reflexivity. }
  destruct Hturn as (o & Hturn). rewrite Hturn. cbv beta iota.
  unfold pbind at 1. rewrite Hr. unfold pret at 1. cbv beta iota.
  assert (Hmem3 : in_memory (db a3) = in_memory s1).
  { rewrite H3, Hdb. destruct s1; reflexivity. }
  assert (Hdb3 : existsb (fun u => username u =? name) (users (data (db a3))) = true).
  { unfold in_memory in Hmem3. replace (data (db a3)) with (data s1) by congruence.
    unfold user_exists, gets in Hue. simpl in Hue. congruence. }
  destruct (register_turns_existing n name rest a3) as (a4 & Hloop & He4 & Hn4 & Hm4);
    [congruence | congruence | exact Hdb3 |].
  exists a4. split; [exact Hloop |].
  split; [congruence |]. split; [congruence |].
  unfold in_memory in Hm4, Hmem3. split.
  - unfold user_exists, gets. simpl.
    replace (data (db a4)) with (data (db a3)) by congruence. rewrite Hdb3. reflexivity.
  - replace (face_data (db a4)) with (face_data s1) by congruence.
    rewrite Hface. simpl. apply in_or_app. right. left. reflexivity.
Qed.

(** The database takes the registration (eight system calls), then
    [os.makedirs] fails in [save_known_faces]. *)
Lemma face_register_user_failed_list_save_leaves_the_account_witness :
  exists a',
    KnownFaces.register_user "bob" [(Some zeros, "2024-01-02T00:00:00"%string)] 1
      (mkProcess (fresh_state [false; false; false; false; false; false; false; false; true])
                 [] [] None None)
    = (Ok false, a')
    /\ known_face_encodings a' = []
    /\ known_face_names a' = []
    /\ fst (user_exists "bob" (db a')) = Ok true
    /\ In "bob"%string (usernames (face_data (db a'))).
Proof.
  apply (face_register_user_failed_list_save_leaves_the_account
           "bob" zeros "2024-01-02T00:00:00" [] 0
           (mkProcess (fresh_state [false; false; false; false; false; false; false;
                                    false; true])
                      [] [] None None)
           (snd (register_user "bob" None (Some zeros) "2024-01-02T00:00:00"
                   (fresh_state [false; false; false; false; false; false; false;
                                 false; true])))).
  - reflexivity.
  - intros [].
  - reflexivity.
  - vm_compute. reflexivity.
  - vm_compute. discriminate.
Defined.

(** * The registration dialog and the login window *)

Lemma attach_face_fresh name e us u :
  existsb (fun v => username v =? name) us = false ->
  username u = name ->
  CombinedRegisterWindow.attach_face name e (us ++ [u])
  = us ++ [mkUser (username u) (password_hash u) (Some e)
                  (registration_date u) (auth_methods u)].
Proof.
  intros H Hu. induction us as [| v t IH]; simpl in *.
  - rewrite Hu, String.eqb_refl. reflexivity.
  - destruct (username v =? name); [discriminate |]. rewrite (IH H). reflexivity.
Qed.

(** The steps of a [_complete_registration] that gets to its end. *)
Lemma complete_registration_steps name password confirm face_captured fe now a a' :
  CombinedRegisterWindow._complete_registration name password confirm
                                                face_captured fe now a
  = (Ok true, a') ->
  exists e s1 s2,
    confirm = password /\ (8 <= len password)%nat
    /\ face_captured = true /\ fe = Some e
    /\ TraditionalAuthenticator.register_user name password now (db a) = (Ok true, s1)
    /\ save_data None
         (snd (set_users (CombinedRegisterWindow.attach_face name e (users (data s1))) s1))
       = (Ok true, s2)
    /\ fst (KnownFaces.save_known_faces
              (mkProcess s2 (known_face_encodings a ++ [e]) (known_face_names a ++ [name])
                         (known_faces_path a) (known_faces_tmp a)))
       = Ok true
    /\ a' = snd (KnownFaces.save_known_faces
                   (mkProcess s2 (known_face_encodings a ++ [e])
                              (known_face_names a ++ [name])
                              (known_faces_path a) (known_faces_tmp a))).
Proof.
  unfold CombinedRegisterWindow._complete_registration, pbind at 1, pattempt at 1.
  destruct (truthy_str name) eqn:Hn; cbn [negb]; [| discriminate].
  destruct (truthy_str password) eqn:Hp; cbn [negb orb]; [| discriminate].
  destruct (truthy_str confirm) eqn:Hc; cbn [negb orb]; [| discriminate].
  destruct (String.eqb_spec password confirm) as [<- | _]; cbn [negb]; [| discriminate].
  destruct (len password <? 8)%nat eqn:Hlen; [discriminate |].
  apply Nat.ltb_ge in Hlen.
  destruct face_captured; cbn [negb]; [| discriminate].
  unfold pbind at 1, on_db at 1.
  destruct (TraditionalAuthenticator.register_user name password now (db a))
    as [[[|] | ex] s1] eqn:Hreg; cbn [negb]; cbv beta iota; try discriminate.
  destruct fe as [e |]; [| discriminate].
  destruct (traditional_register_user_success _ _ _ _ _ Hreg)
    as (_ & _ & Hex & _ & Hus).
  unfold pbind at 1, pgets at 1.
  cbn [db set_db].
  rewrite Hus. rewrite find_user_fresh; [| exact Hex | reflexivity].
  cbv beta iota.
  unfold pbind at 1. unfold pbind at 1, on_db at 1.
  unfold set_users at 1, modify at 1. cbv beta iota zeta.
  cbn [db set_db].
  unfold pbind at 1, on_db at 1. cbn [db set_db].
  match goal with
  | |- context [save_data None ?s] =>
      destruct (save_data None s) as [[[|] | ex] s2] eqn:Hsave
  end; cbn [negb]; cbv beta iota; try discriminate.
  unfold pret at 1. cbv beta iota.
  unfold pbind at 1, pmodify at 1. unfold pbind at 1, pmodify at 1.
  unfold pbind at 1.
  cbn [db set_db set_known_face_names set_known_face_encodings known_face_encodings
       known_face_names known_faces_path known_faces_tmp].
  match goal with
  | |- context [KnownFaces.save_known_faces ?p] =>
      destruct (KnownFaces.save_known_faces p) as [[[|] | ex] a2] eqn:Hknown
  end; cbn [negb]; cbv beta iota; try discriminate.
  intro H. injection H as <-.
  exists e, s1, s2.
  split; [reflexivity |]. split; [exact Hlen |]. split; [reflexivity |].
  split; [reflexivity |]. split; [reflexivity |].
  split.
  { rewrite <- Hsave. f_equal. unfold set_users, modify. simpl. rewrite Hus. reflexivity. }
  match type of Hknown with
  | KnownFaces.save_known_faces ?p = _ =>
      replace (mkProcess s2 (known_face_encodings a ++ [e]) (known_face_names a ++ [name])
                         (known_faces_path a) (known_faces_tmp a)) with p
        by reflexivity
  end.
  rewrite Hknown. split; reflexivity.
Qed.

Lemma traditional_register_user_database name pw now st s1 :
  TraditionalAuthenticator.register_user name pw now st = (Ok true, s1) ->
  register_user name (TraditionalAuthenticator._hash_password pw) None now st
  = (Ok true, s1).
Proof.
  unfold TraditionalAuthenticator.register_user.
  destruct (negb (truthy_str name) || negb (truthy_str pw)); [discriminate |].
  unfold bind at 1, user_exists at 1, gets at 1.
  destruct (existsb (fun u => username u =? name) (users (data st))); [discriminate |].
  unfold bind at 1.
  destruct (register_user name (TraditionalAuthenticator._hash_password pw) None now st)
    as [[b | ex] s]; [| discriminate].
  unfold ret. intro H. injection H as -> ->. reflexivity.
Qed.

Lemma complete_registration_facts :
  forall (name password confirm : string) (face_captured : bool)
         (fe : option encoding) (now : string) (a a' : process),
    CombinedRegisterWindow._complete_registration name password confirm
                                                  face_captured fe now a
    = (Ok true, a') ->
    exists e,
      fe = Some e
      /\ fst (user_exists name (db a)) = Ok false
      /\ users (data (db a'))
         = users (data (db a))
           ++ [mkUser name (Some (stored_digest (getenv_salt (db a)) password))
                      (Some e) now ["password"%string]]
      /\ at_data (fs (db a')) = Some (Json (json_of_document (data (db a'))))
      /\ face_data (db a') = face_data (db a)
      /\ known_face_encodings a' = known_face_encodings a ++ [e]
      /\ known_face_names a' = known_face_names a ++ [name]
      /\ known_faces_path a'
         = Some (KnownFaces (known_face_encodings a ++ [e]) (known_face_names a ++ [name]))
      /\ (e <> [] ->
          fst (get_user_auth_methods name (db a'))
          = Ok ["password"%string; "face"%string])
      /\ environ_salt (db a') = environ_salt (db a)
      /\ truthy_str name = true /\ truthy_str password = true.
Proof.
  intros name password confirm fc fe now a a' H.
  destruct (complete_registration_steps _ _ _ _ _ _ _ _ H)
    as (e & s1 & s2 & _ & _ & _ & -> & Hreg & Hsave & Hknown & ->).
  exists e. split; [reflexivity |].
  destruct (traditional_register_user_success _ _ _ _ _ Hreg)
    as (Hn & Hpw & Hex & Hsalt & Hus).
  destruct (register_user_success_facts _ _ _ _ _ _
              (traditional_register_user_database _ _ _ _ _ Hreg))
    as (_ & _ & _ & _ & Hface & _).
  set (s1' := snd (set_users (CombinedRegisterWindow.attach_face name e (users (data s1)))
                             s1)) in *.
  assert (Hus' : users (data s1')
                 = users (data (db a))
                   ++ [mkUser name (Some (stored_digest (getenv_salt (db a)) password))
                              (Some e) now ["password"%string]]).
  { subst s1'. unfold set_users, modify. simpl. rewrite Hus.
    rewrite attach_face_fresh; [reflexivity | exact Hex | reflexivity]. }
  assert (Hface' : face_data s1' = face_data (db a)) by (rewrite <- Hface; reflexivity).
  destruct (save_data_cases None s1') as (Hs & _ & _ & _ & _ & Hmem).
  rewrite Hsave in Hs, Hmem. simpl in Hs, Hmem.
  destruct (Hs eq_refl) as (Hfile & _). clear Hs.
  set (a2 := mkProcess s2 (known_face_encodings a ++ [e]) (known_face_names a ++ [name])
                       (known_faces_path a) (known_faces_tmp a)) in *.
  destruct (save_known_faces_cases a2) as (Hdb & Hes & Hns & Hpath).
  destruct (Hpath Hknown) as (Hp & _). clear Hpath.
  assert (Hd : data (db (snd (KnownFaces.save_known_faces a2))) = data s1').
  { rewrite Hdb. change (db a2) with s2. unfold in_memory in Hmem.
    destruct s2. simpl in *. congruence. }
  assert (Hfd : face_data (db (snd (KnownFaces.save_known_faces a2))) = face_data s1').
  { rewrite Hdb. change (db a2) with s2. unfold in_memory in Hmem.
    destruct s2. simpl in *. congruence. }
  split; [unfold user_exists, gets; simpl; rewrite Hex; reflexivity |].
  split; [rewrite Hd; exact Hus' |].
  split; [rewrite Hd, Hdb; simpl; exact Hfile |].
  split; [rewrite Hfd; exact Hface' |].
  split; [exact Hes |]. split; [exact Hns |]. split; [exact Hp |].
  split.
  { intro Hne. unfold get_user_auth_methods, bind, gets. rewrite Hd, Hus'.
    rewrite find_user_fresh; [| exact Hex | reflexivity].
    cbn [password_hash face_encoding truthy_opt]. rewrite stored_digest_truthy.
    destruct e; [contradiction Hne; reflexivity | reflexivity]. }
  split; [| split; [exact Hn | exact Hpw]].
  assert (Hes2 : environ_salt s2 = environ_salt s1')
    by (unfold in_memory in Hmem; congruence).
  rewrite Hdb. change (db a2) with s2. cbn [environ_salt set_faults].
  rewrite Hes2, <- Hsalt. reflexivity.
Qed.

(** What [_complete_registration] has done when it gets to its end: the
    username was free; one record was appended to the users, with the
    digest of the password, the captured template and the methods
    ["password"] alone, and the data file holds that document; the pair was
    appended to the login window's [face_auth] lists, which the file of
    known faces holds; the face store of the database is not touched. So
    [get_user_auth_methods] reports a method the record does not list, and
    [Database.authenticate_face] does not know the template. *)
Theorem complete_registration_postcondition :
  forall (name password confirm : string) (face_captured : bool)
         (fe : option encoding) (now : string) (a a' : process),
    CombinedRegisterWindow._complete_registration name password confirm
                                                  face_captured fe now a
    = (Ok true, a') ->
    exists e,
      fe = Some e
      /\ fst (user_exists name (db a)) = Ok false
      /\ users (data (db a'))
         = users (data (db a))
           ++ [mkUser name (Some (stored_digest (getenv_salt (db a)) password))
                      (Some e) now ["password"%string]]
      /\ at_data (fs (db a')) = Some (Json (json_of_document (data (db a'))))
      /\ face_data (db a') = face_data (db a)
      /\ known_face_encodings a' = known_face_encodings a ++ [e]
      /\ known_face_names a' = known_face_names a ++ [name]
      /\ known_faces_path a'
         = Some (KnownFaces (known_face_encodings a ++ [e]) (known_face_names a ++ [name]))
      /\ (e <> [] ->
          fst (get_user_auth_methods name (db a'))
          = Ok ["password"%string; "face"%string]).
Proof.
  intros name password confirm fc fe now a a' H.
  destruct (complete_registration_facts _ _ _ _ _ _ _ _ H)
    as (e & H1 & H2 & H3 & H4 & H5 & H6 & H7 & H8 & H9 & _).
  exists e. repeat split; assumption.
Qed.

Lemma complete_registration_postcondition_witness :
  fst (get_user_auth_methods "bob"
         (db (snd (CombinedRegisterWindow._complete_registration
                     "bob" "longpassword1" "longpassword1" true (Some zeros)
                     "2024-01-02T00:00:00"
                     (mkProcess (fresh_state []) [] [] None None)))))
  = Ok ["password"%string; "face"%string]
  /\ face_data (db (snd (CombinedRegisterWindow._complete_registration
                           "bob" "longpassword1" "longpassword1" true (Some zeros)
                           "2024-01-02T00:00:00"
                           (mkProcess (fresh_state []) [] [] None None))))
     = empty_face_store.
Proof.
  assert (H : CombinedRegisterWindow._complete_registration
                "bob" "longpassword1" "longpassword1" true (Some zeros)
                "2024-01-02T00:00:00" (mkProcess (fresh_state []) [] [] None None)
              = (Ok true,
                 snd (CombinedRegisterWindow._complete_registration
                        "bob" "longpassword1" "longpassword1" true (Some zeros)
                        "2024-01-02T00:00:00"
                        (mkProcess (fresh_state []) [] [] None None))))
    by (vm_compute; reflexivity).
  destruct (complete_registration_postcondition _ _ _ _ _ _ _ _ H)
    as (e & He & _ & _ & _ & Hface & _ & _ & _ & Hm).
  injection He as <-.
  split; [apply Hm; discriminate | exact Hface].
Defined.

Lemma compare_one_face t probe :
  compare_faces [t] probe tolerance_login
  = if broadcastable t probe
    then Ok [dist_le_tol (norm_diff t probe) tolerance_login]
    else Raise ValueError.
Proof.
  unfold compare_faces, face_distance. cbn [forallb andb].
  destruct (broadcastable t probe); reflexivity.
Qed.

(** The outcomes of [_combined_login], for every input: it never raises;
    it launches the main window only for the username typed, and only
    when both factors pass: [authenticate_password] accepts the digest of
    the password, a face was captured, and the template stored in the
    user's record is non-empty, of a shape numpy can subtract the captured
    one from, and at a distance from it that numpy computes as at most the
    float 0.4. The password step alone makes the username [current_user] of
    the authenticator, whatever the face check then says; nothing else is
    ever changed. *)
Theorem combined_login_outcomes :
  forall (name password : string) (lfe : option encoding) (a : process),
    exists o lfe',
      fst (LoginWindow._combined_login name password lfe a) = Ok (o, lfe')
      /\ (o = Some name
          /\ lfe' = lfe
          /\ fst (authenticate_password name
                    (TraditionalAuthenticator._hash_password password) (db a)) = Ok true
          /\ (exists probe u t,
                lfe = Some probe
                /\ find_user name (users (data (db a))) = Some u
                /\ face_encoding u = Some t
                /\ broadcastable t probe = true
                /\ fle (norm_diff t probe) (to_float tolerance_login) = true)
          \/ o = None)
      /\ (fst (TraditionalAuthenticator.authenticate name password (db a)) = Ok true ->
          snd (LoginWindow._combined_login name password lfe a)
          = set_db (set_current_user (Some name) (db a)) a)
      /\ (fst (TraditionalAuthenticator.authenticate name password (db a)) <> Ok true ->
          o = None /\ snd (LoginWindow._combined_login name password lfe a) = a).
Proof.
  intros name password lfe a.
  unfold LoginWindow._combined_login, pbind, on_db.
  destruct (negb (truthy_str name) || negb (truthy_str password)) eqn:Hc;
    cbv beta iota.
  { exists None, lfe. split; [reflexivity |]. split; [right; reflexivity |].
    assert (Hno : TraditionalAuthenticator.authenticate name password (db a)
                  = (Ok false, db a))
      by (unfold TraditionalAuthenticator.authenticate; rewrite Hc; reflexivity).
    rewrite Hno. split; [discriminate | auto]. }
  destruct (traditional_authenticate_cases name password (db a))
    as [(Hauth & Hn & Hp & Hpw) | Hauth]; rewrite Hauth; cbn [fst snd negb];
    cbv beta iota.
  2:{ replace (set_db (db a) a) with a by (destruct a; reflexivity).
      exists None, lfe.
      split; [reflexivity |]. split; [right; reflexivity |].
      split; [discriminate | auto]. }
  destruct lfe as [probe |].
  2:{ exists None, None. split; [reflexivity |]. split; [right; reflexivity |].
      split; [reflexivity |]. intro H. contradiction H. reflexivity. }
  unfold pgets. cbn [db set_db set_current_user data].
  destruct (find_user name (users (data (db a)))) as [u |] eqn:Hfind.
  2:{ exists None, (Some probe). split; [reflexivity |]. split; [right; reflexivity |].
      split; [reflexivity |]. intro H. contradiction H. reflexivity. }
  destruct (face_encoding u) as [[| x e] |] eqn:Hfe.
  1,3: exists None, (Some probe); (split; [reflexivity |]);
       (split; [right; reflexivity |]); (split; [reflexivity |]);
       intro H; contradiction H; reflexivity.
  unfold pattempt, plift. rewrite compare_one_face.
  destruct (broadcastable (x :: e) probe) eqn:Hlen.
  2:{ exists None, (Some probe). split; [reflexivity |]. split; [right; reflexivity |].
      split; [reflexivity |]. intro H. contradiction H. reflexivity. }
  cbn [existsb orb].
  destruct (dist_le_tol (norm_diff (x :: e) probe) tolerance_login) eqn:Hd; cbn [orb].
  - exists (Some name), (Some probe). split; [reflexivity |].
    split; [| split; [reflexivity | intro H; contradiction H; reflexivity]].
    left. repeat split; auto.
    exists probe, u, (x :: e).
    split; [reflexivity |]. split; [auto |]. split; [auto |]. split; [exact Hlen |].
    exact Hd.
  - exists None, None. split; [reflexivity |]. split; [right; reflexivity |].
    split; [reflexivity |]. intro H. contradiction H. reflexivity.
Qed.

(** Registration and login compose: after a [_complete_registration]
    that got to its end, with a captured template of 128 entries,
    [_combined_login] with the same username and password launches the
    main window exactly for the captured faces of 128 entries whose
    distance from that template numpy computes as at most the float 0.4;
    for any other it resets the captured face. *)
Theorem complete_registration_then_combined_login :
  forall (name password confirm : string) (face_captured : bool)
         (e : encoding) (now : string) (a a' : process) (probe : encoding),
    CombinedRegisterWindow._complete_registration name password confirm
                                                  face_captured (Some e) now a
    = (Ok true, a') ->
    List.length e = 128%nat ->
    List.length probe = 128%nat ->
    (fle (norm_diff e probe) (to_float tolerance_login) = true ->
     fst (LoginWindow._combined_login name password (Some probe) a')
     = Ok (Some name, Some probe))
    /\ (fle (norm_diff e probe) (to_float tolerance_login) = false ->
        fst (LoginWindow._combined_login name password (Some probe) a')
        = Ok (None, None)).
Proof.
  intros name password confirm fc e now a a' probe H He Hprobe.
  assert (Hres : fst (LoginWindow._combined_login name password (Some probe) a')
                 = Ok (if dist_le_tol (norm_diff e probe) tolerance_login
                       then (Some name, Some probe) else (None, None))).
  2:{ rewrite Hres. unfold dist_le_tol.
      split; intro Hw; rewrite Hw; reflexivity. }
  destruct (complete_registration_facts _ _ _ _ _ _ _ _ H)
    as (e1 & He1 & Hex & Hus & _ & _ & _ & _ & _ & _ & Hsalt & Hn & Hp).
  injection He1 as <-.
  unfold user_exists, gets in Hex. simpl in Hex. injection Hex as Hex.
  assert (Hfind : find_user name (users (data (db a')))
                  = Some (mkUser name (Some (stored_digest (getenv_salt (db a)) password))
                                 (Some e) now ["password"%string])).
  { rewrite Hus. apply find_user_fresh; [exact Hex | reflexivity]. }
  assert (Hgs : getenv_salt (db a') = getenv_salt (db a))
    by (unfold getenv_salt; rewrite Hsalt; reflexivity).
  assert (Hauth : TraditionalAuthenticator.authenticate name password (db a')
                  = (Ok true, set_current_user (Some name) (db a'))).
  { unfold TraditionalAuthenticator.authenticate. rewrite Hn, Hp. cbn [negb orb].
    cbv beta iota delta [bind authenticate_password gets _hash_password ret modify].
    rewrite Hfind. cbn [password_hash truthy_opt]. rewrite stored_digest_truthy.
    rewrite (hash_of_hashed _ _ Hp), Hgs, String.eqb_refl. reflexivity. }
  unfold LoginWindow._combined_login, pbind, on_db. rewrite Hn, Hp. cbn [negb orb].
  rewrite Hauth. cbn [negb]. cbv beta iota. unfold pgets.
  cbn [db set_db set_current_user data]. rewrite Hfind. cbn [face_encoding].
  destruct e as [| x e]; [discriminate He |].
  unfold pattempt, plift. rewrite compare_one_face. unfold broadcastable.
  rewrite He, Hprobe.
  change ((128 =? 128)%nat) with true. cbv beta iota. cbn [existsb orb].
  destruct (dist_le_tol (norm_diff (x :: e) probe) tolerance_login); reflexivity.
Qed.

Lemma complete_registration_then_combined_login_witness :
  fst (LoginWindow._combined_login "bob" "longpassword1" (Some zeros)
         (snd (CombinedRegisterWindow._complete_registration
                 "bob" "longpassword1" "longpassword1" true (Some zeros)
                 "2024-01-02T00:00:00" (mkProcess (fresh_state []) [] [] None None))))
  = Ok (Some "bob"%string, Some zeros).
Proof.
  apply (complete_registration_then_combined_login
           "bob" "longpassword1" "longpassword1" true zeros "2024-01-02T00:00:00"
           (mkProcess (fresh_state []) [] [] None None)
           (snd (CombinedRegisterWindow._complete_registration
                   "bob" "longpassword1" "longpassword1" true (Some zeros)
                   "2024-01-02T00:00:00" (mkProcess (fresh_state []) [] [] None None)))
           zeros).
  - vm_compute. reflexivity.
  - reflexivity.
  - reflexivity.
  - vm_compute. reflexivity.
Defined.
